(** * LexNLP English date extraction: embedding and verified properties

    A shallow embedding of [lexnlp/extract/en/dates.py] and
    [lexnlp/extract/common/dates_classifier_model.py].

    Conventions of the embedding:
    - a Python [str] is a [string]; its characters are the code points
      U+0000..U+00FF (the eight bits of [ascii]), and the Python character
      predicates are written out for that range;
    - a Python [int] is a [Z], and [int(s)] has the interpreter's limit of
      4300 digits; a finite [float] is the rational it denotes, and an
      operation that gives a float rounds its exact result to the nearest
      binary64 value, ties to even ([Binary64.round]); a feature value, an
      [int] or a [float], is a [Q].  A [str] has fewer than 2^63
      characters, so that no count is large enough for its conversion to
      overflow: the largest float is not modelled;
    - a Python [dict] that is iterated or measured is an association list
      in insertion order; a list mutated in place lives in an explicit store;
    - code that may raise returns a [result]; a generator is the list of the
      values it yields together with the exception that ended it, if any. *)

From Stdlib Require Import ZArith QArith Qround Qpower Lqa Ascii String.
From stdpp Require Import base list option strings gmap.

Close Scope Q_scope.
Open Scope string_scope.
Open Scope list_scope.
Open Scope Z_scope.

(** ** Exceptions and results *)

Inductive exn : Type :=
| AttributeError
| TypeError
| ValueError
| IndexError
| KeyError
| LocaleError
| OtherException (name : string).

Inductive result (A : Type) : Type :=
| Ok (a : A)
| Raise (e : exn).
Arguments Ok {A} a.
Arguments Raise {A} e.

Definition rbind {A B} (r : result A) (f : A -> result B) : result B :=
  match r with
  | Ok a => f a
  | Raise e => Raise e
  end.

Notation "x <-r c ;; k" := (rbind c (fun x => k))
  (at level 100, c at next level, right associativity).

Fixpoint mapR {A B} (f : A -> result B) (l : list A) : result (list B) :=
  match l with
  | [] => Ok []
  | x :: l' => y <-r f x ;; ys <-r mapR f l' ;; Ok (y :: ys)
  end.

(** ** Python strings *)

Module Py.

Definition code (c : ascii) : N := N_of_ascii c.

Definition in_range (lo hi : N) (c : ascii) : bool :=
  ((lo <=? code c) && (code c <=? hi))%N.

(** [str.isspace] on one character, for code points below 256. *)
Definition isspace (c : ascii) : bool :=
  in_range 9 13 c || in_range 28 32 c
  || (code c =? 133)%N || (code c =? 160)%N.

(** The decimal digits [0-9]. *)
Definition isdecimal (c : ascii) : bool := in_range 48 57 c.

(** [str.isdigit] on one character: the decimal digits and the
    superscript digits U+00B2, U+00B3, U+00B9. *)
Definition isdigit (c : ascii) : bool :=
  isdecimal c || (code c =? 178)%N || (code c =? 179)%N || (code c =? 185)%N.

Definition isupper (c : ascii) : bool :=
  in_range 65 90 c || (in_range 192 222 c && negb (code c =? 215)%N).

Definition lower_char (c : ascii) : ascii :=
  if isupper c then ascii_of_N (code c + 32) else c.

(** [str.lower]. *)
Fixpoint lower (s : string) : string :=
  match s with
  | EmptyString => EmptyString
  | String c s' => String (lower_char c) (lower s')
  end.

Definition len (s : string) : Z := Z.of_nat (String.length s).

(** [sys.maxsize]: no [str] has more characters. *)
Definition maxsize : Z := 2 ^ 63 - 1.

Fixpoint lstrip (s : string) : string :=
  match s with
  | EmptyString => EmptyString
  | String c s' => if isspace c then lstrip s' else s
  end.

Fixpoint rstrip (s : string) : string :=
  match s with
  | EmptyString => EmptyString
  | String c s' =>
      match rstrip s' with
      | EmptyString => if isspace c then EmptyString else String c EmptyString
      | r => String c r
      end
  end.

(** [str.strip()] *)
Definition strip (s : string) : string := rstrip (lstrip s).

Fixpoint take (n : nat) (s : string) : string :=
  match n, s with
  | S n', String c s' => String c (take n' s')
  | _, _ => EmptyString
  end.

Fixpoint skip (n : nat) (s : string) : string :=
  match n, s with
  | S n', String _ s' => skip n' s'
  | _, _ => s
  end.

(** A slice bound, as Python clamps it: a negative bound counts from the
    end, and every bound is brought into [0, len]. *)
Definition clamp (n : Z) (i : Z) : Z :=
  if i <? 0 then Z.max (i + n) 0 else Z.min i n.

(** [s[i:j]] *)
Definition slice (s : string) (i j : Z) : string :=
  let a := clamp (len s) i in
  let b := clamp (len s) j in
  take (Z.to_nat (b - a)) (skip (Z.to_nat a) s).

(** [s.startswith(p)] *)
Fixpoint startswith (p s : string) : bool :=
  match p, s with
  | EmptyString, _ => true
  | String a p', String b s' => if Ascii.eqb a b then startswith p' s' else false
  | String _ _, EmptyString => false
  end.

(** [sub in s] *)
Fixpoint contains (sub s : string) : bool :=
  startswith sub s ||
  match s with
  | EmptyString => false
  | String _ s' => contains sub s'
  end.

(** Occurrences of a non-empty [sub] in [s], scanned from the left without
    overlap; [pending] characters of the last occurrence are still to be
    passed over. *)
Fixpoint count_from (sub : string) (pending : nat) (s : string) : Z :=
  match s with
  | EmptyString => 0
  | String _ s' =>
      match pending with
      | S p => count_from sub p s'
      | O => if startswith sub s
             then 1 + count_from sub (String.length sub - 1) s'
             else count_from sub 0 s'
      end
  end.

(** [s.count(sub)]; the empty string is counted between all characters. *)
Definition count (s sub : string) : Z :=
  match sub with
  | EmptyString => len s + 1
  | _ => count_from sub 0 s
  end.

Fixpoint remove_from (old : string) (pending : nat) (s : string) : string :=
  match s with
  | EmptyString => EmptyString
  | String c s' =>
      match pending with
      | S p => remove_from old p s'
      | O => if startswith old s
             then remove_from old (String.length old - 1) s'
             else String c (remove_from old 0 s')
      end
  end.

(** [s.replace(old, "")] *)
Definition remove (s old : string) : string :=
  match old with
  | EmptyString => s
  | _ => remove_from old 0 s
  end.

(** The words of [s.split()]: maximal runs of non-space characters.
    [cur] holds the current word, reversed. *)
Fixpoint split_from (cur : list ascii) (s : string) : list string :=
  match s with
  | EmptyString =>
      match cur with [] => [] | _ => [string_of_list_ascii (rev cur)] end
  | String c s' =>
      if isspace c
      then match cur with
           | [] => split_from [] s'
           | _ => string_of_list_ascii (rev cur) :: split_from [] s'
           end
      else split_from (c :: cur) s'
  end.

Definition split (s : string) : list string := split_from [] s.

(** [sep.join(l)] *)
Fixpoint join (sep : string) (l : list string) : string :=
  match l with
  | [] => ""
  | [x] => x
  | x :: l' => x +:+ sep +:+ join sep l'
  end.

(** The value of a run of decimal digits, most significant first. *)
Fixpoint digits_value (acc : Z) (s : string) : option Z :=
  match s with
  | EmptyString => Some acc
  | String c s' =>
      if isdecimal c
      then digits_value (10 * acc + Z.of_N (code c - 48)) s'
      else None
  end.

(** Digits of an integer literal, single underscores between digits
    removed; [None] when the grouping is malformed. *)
Fixpoint ungroup (after_digit : bool) (s : string) : option string :=
  match s with
  | EmptyString => if after_digit then Some EmptyString else None
  | String c s' =>
      if Ascii.eqb c "_"
      then if after_digit then ungroup false s' else None
      else option_map (String c) (ungroup true s')
  end.

(** White space as [int] skips it.  Characters below U+007F are handed to
    the C parser as they are, and it skips only tab, the line breaks and
    the space; white space above U+007F (U+0085, U+00A0) is turned into a
    space first.  The separators U+001C..U+001F, which [str.isspace]
    accepts, are no white space for [int]. *)
Definition int_space (c : ascii) : bool :=
  in_range 9 13 c || (code c =? 32)%N || (code c =? 133)%N || (code c =? 160)%N.

Fixpoint int_lstrip (s : string) : string :=
  match s with
  | EmptyString => EmptyString
  | String c s' => if int_space c then int_lstrip s' else s
  end.

Fixpoint int_rstrip (s : string) : string :=
  match s with
  | EmptyString => EmptyString
  | String c s' =>
      match int_rstrip s' with
      | EmptyString => if int_space c then EmptyString else String c EmptyString
      | r => String c r
      end
  end.

(** [sys.int_info.default_max_str_digits]: the most digits that [int]
    converts. *)
Definition int_max_str_digits : Z := 4300.

(** [int(s)] in base ten: surrounding white space, an optional sign, then
    decimal digits, at most [int_max_str_digits] of them; anything else is
    a [ValueError]. *)
Definition int (s : string) : result Z :=
  let body := int_rstrip (int_lstrip s) in
  let '(sign, digits) :=
    match body with
    | String "-" r => (-1, r)
    | String "+" r => (1, r)
    | _ => (1, body)
    end in
  match ungroup false digits with
  | Some ds =>
      if int_max_str_digits <? len ds then Raise ValueError
      else
        match digits_value 0 ds with
        | Some v => Ok (sign * v)
        | None => Raise ValueError
        end
  | None => Raise ValueError
  end.

(** [l[i]] with Python's negative indexing; [None] stands for IndexError. *)
Definition index {A} (l : list A) (i : Z) : option A :=
  let n := Z.of_nat (length l) in
  if i <? 0
  then (if 0 <=? i + n then l !! Z.to_nat (i + n) else None)
  else l !! Z.to_nat i.

(** [l.count(x)] on a list of strings. *)
Definition list_count (x : string) (l : list string) : Z :=
  Z.of_nat (length (filter (fun y => y = x) l)).

End Py.

Example slice_middle : Py.slice "dated 5 May" 6 7 = "5".
Proof. reflexivity. Qed.
Example slice_negative_stop : Py.slice "abcdef" 1 (-2) = "bcd".
Proof. reflexivity. Qed.
Example strip_both : Py.strip "  a b
" = "a b".
Proof. reflexivity. Qed.
Example split_words : Py.split " 5th  of May " = ["5th"; "of"; "May"].
Proof. reflexivity. Qed.
Example count_no_overlap : Py.count "aaaa" "aa" = 2.
Proof. reflexivity. Qed.
Example remove_suffix : Py.remove "22nd" "nd" = "22".
Proof. reflexivity. Qed.
Example int_plain : Py.int "007" = Ok 7.
Proof. reflexivity. Qed.
Example int_bad : Py.int "7th" = Raise ValueError.
Proof. reflexivity. Qed.
Example int_separator :
  Py.int (String (ascii_of_N 28) "5") = Raise ValueError.
Proof. reflexivity. Qed.
Example int_no_break_space : Py.int (String (ascii_of_N 160) "5") = Ok 5.
Proof. reflexivity. Qed.
Example int_too_many_digits :
  Py.int (string_of_list_ascii (repeat "9"%char 4301)) = Raise ValueError.
Proof. vm_compute. reflexivity. Qed.
Example index_last : Py.index [1; 2; 3] (-1) = Some 3.
Proof. reflexivity. Qed.

(** ** Dictionaries in insertion order *)

Abbreviation dict V := (list (string * V)).

(** [d[k] = v]: an existing key keeps its place, a new key goes last. *)
Fixpoint dict_set {V} (k : string) (v : V) (d : dict V) : dict V :=
  match d with
  | [] => [(k, v)]
  | (k', v') :: d' =>
      if String.eqb k k' then (k, v) :: d' else (k', v') :: dict_set k v d'
  end.

(** [d.get(k)] *)
Fixpoint dict_get {V} (k : string) (d : dict V) : option V :=
  match d with
  | [] => None
  | (k', v') :: d' => if String.eqb k k' then Some v' else dict_get k d'
  end.

Definition dict_keys {V} (d : dict V) : list string := map fst d.

(** ** Regular expressions

    The patterns of the source are compiled by the third-party [regex]
    package.  Only the truth value of [match] and [search] is used, so a
    pattern is a regular language over character classes, decided with
    derivatives. *)

Module Re.

Inductive regex : Type :=
| Void
| Eps
| Class (p : ascii -> bool)
| Cat (r1 r2 : regex)
| Alt (r1 r2 : regex)
| Star (r : regex).

Fixpoint nullable (r : regex) : bool :=
  match r with
  | Void => false
  | Eps => true
  | Class _ => false
  | Cat r1 r2 => nullable r1 && nullable r2
  | Alt r1 r2 => nullable r1 || nullable r2
  | Star _ => true
  end.

Definition cat (r1 r2 : regex) : regex :=
  match r1, r2 with
  | Void, _ => Void
  | _, Void => Void
  | Eps, _ => r2
  | _, _ => Cat r1 r2
  end.

Definition alt (r1 r2 : regex) : regex :=
  match r1, r2 with
  | Void, _ => r2
  | _, Void => r1
  | _, _ => Alt r1 r2
  end.

Fixpoint deriv (c : ascii) (r : regex) : regex :=
  match r with
  | Void => Void
  | Eps => Void
  | Class p => if p c then Eps else Void
  | Cat r1 r2 =>
      alt (cat (deriv c r1) r2) (if nullable r1 then deriv c r2 else Void)
  | Alt r1 r2 => alt (deriv c r1) (deriv c r2)
  | Star r1 => cat (deriv c r1) (Star r1)
  end.

(** Truth value of [re.match(r, s)]: some prefix of [s] is in the language. *)
Fixpoint match_ (r : regex) (s : string) : bool :=
  nullable r ||
  match s with
  | EmptyString => false
  | String c s' => match_ (deriv c r) s'
  end.

(** Truth value of [re.search(r, s)]: a match starts somewhere in [s]. *)
Fixpoint search (r : regex) (s : string) : bool :=
  match_ r s ||
  match s with
  | EmptyString => false
  | String _ s' => search r s'
  end.

Definition chr (c : ascii) : regex := Class (Ascii.eqb c).
Definition plus (r : regex) : regex := Cat r (Star r).
Definition opt (r : regex) : regex := Alt r Eps.

(** [r{n}] *)
Fixpoint times (n : nat) (r : regex) : regex :=
  match n with
  | O => Eps
  | S n' => Cat r (times n' r)
  end.

(** [r{0,n}] *)
Fixpoint upto (n : nat) (r : regex) : regex :=
  match n with
  | O => Eps
  | S n' => opt (Cat r (upto n' r))
  end.

(** [r{lo,hi}] *)
Definition between (lo hi : nat) (r : regex) : regex :=
  Cat (times lo r) (upto (hi - lo) r).

(** [\d] *)
Definition digit : regex := Class Py.isdecimal.

(** [[A-Za-z]] *)
Definition letter : regex :=
  Class (fun c => Py.in_range 65 90 c || Py.in_range 97 122 c).

(** [pattern.split(s)] for a pattern [[cls]+]: the pieces between the
    maximal runs of [cls] characters, empty at an end where a run touches
    it.  [cur] is the current piece, reversed; [in_run] tells that the
    previous character belonged to a run. *)
Fixpoint split_runs (cls : ascii -> bool) (cur : list ascii) (in_run : bool)
    (s : string) : list string :=
  match s with
  | EmptyString => [string_of_list_ascii (rev cur)]
  | String c s' =>
      if cls c
      then if in_run
           then split_runs cls [] true s'
           else string_of_list_ascii (rev cur) :: split_runs cls [] true s'
      else split_runs cls (c :: cur) false s'
  end.

(** The leading run of decimal digits of [s]: what [^\d+] matches. *)
Fixpoint leading_digits (s : string) : string :=
  match s with
  | EmptyString => EmptyString
  | String c s' =>
      if Py.isdecimal c then String c (leading_digits s') else EmptyString
  end.

End Re.

Example match_is_prefix : Re.match_ (Re.between 2 4 Re.digit) "12345x" = true.
Proof. reflexivity. Qed.
Example match_is_anchored : Re.match_ (Re.times 2 Re.digit) "x12" = false.
Proof. reflexivity. Qed.
Example search_is_not : Re.search (Re.times 2 Re.digit) "x12" = true.
Proof. reflexivity. Qed.
Example split_runs_ends :
  Re.split_runs (Ascii.eqb "-") [] false "-a--b-" = [""; "a"; "b"; ""].
Proof. reflexivity. Qed.

(** ** Data model *)

(** A [datetime.datetime]; [tzinfo] is the UTC offset in seconds that the
    attached time zone reports, when there is one. *)
Record datetime : Type := {
  year : Z;
  month : Z;
  day : Z;
  hour : Z;
  minute : Z;
  second : Z;
  microsecond : Z;
  tzinfo : option Z
}.

(** What [get_raw_dates] yields: a [datetime.date] or a [datetime.datetime]. *)
Inductive date_value : Type :=
| PyDate (y m d : Z)
| PyDateTime (dt : datetime).

(** The property bag of a candidate.  [other] stands for the keys this
    module never reads. *)
Record date_props : Type := {
  digits : list string;
  digits_modifier : list string;
  months : list string;
  days : list string;
  delimiters : list string;
  extra_tokens : list string;
  other : list (string * list string)
}.

(** One element of [extract_date_strings]: the matched string, its span in
    the text, and its properties. *)
Record candidate : Type := {
  cand_string : string;
  cand_index : Z * Z;
  cand_props : date_props
}.

(** Modelled from the spec: the class [Locale] of
    [lexnlp/extract/all_locales/languages.py], which is not part of the
    sources at hand.  A locale is an identifier string resolved once per
    call; the object keeps its language and its region code. *)
Record Locale : Type := {
  language : string;
  locale_code : string
}.

(** An attribute of a [Locale] object: a string, or an exception class given
    by the exceptions that are instances of it. *)
Inductive attribute : Type :=
| AttrStr (s : string)
| AttrExceptionClass (is_instance : exn -> bool).

(** [getattr(locale, name)]; [None] stands for AttributeError. *)
Definition Locale_getattr (l : Locale) (name : string) : option attribute :=
  if String.eqb name "language" then Some (AttrStr (language l))
  else if String.eqb name "locale_code" then Some (AttrStr (locale_code l))
  else None.

(** The candidate locator, [DateFinder(base_date)]. *)
Record DateFinder : Type := {
  extract_date_strings : string -> bool -> list candidate;
  parse_date_string : string -> date_props -> Locale -> result (option datetime)
}.

(** The pretrained classifier [MODEL_DATE]: its feature columns, and the
    row [predict_proba] returns for one feature list. *)
Record Model : Type := {
  columns : list string;
  predict_proba : list Q -> Q * Q
}.

(** The [alphabet_char_set] argument of [get_date_features]: its default,
    the boolean [False], or a set of one-character strings. *)
Inductive alphabet_arg : Type :=
| AlphabetFalse
| AlphabetSet (chars : gset string).

(** A [DateAnnotation]. *)
Record DateAnnotation : Type := {
  coords : Z * Z;
  text : string;
  date : date_value;
  score : Q
}.

(** A finished generator: what it yielded, and what ended it. *)
Record run (A : Type) : Type := {
  yielded : list A;
  raised : option exn
}.
Arguments yielded {A} r.
Arguments raised {A} r.

(** ** Floats

    A finite binary64 value is the rational it denotes.  The result of an
    operation is its exact result rounded to the nearest value with a
    significand of 53 bits, ties to the even significand; below 2^-1022
    the values are the multiples of 2^-1074. *)

Module Binary64.

(** The integer nearest to [m], the even one of two that are equally
    near. *)
Definition nearest_even (m : Q) : Z :=
  let f := Qfloor m in
  match (m - inject_Z f ?= 1 # 2)%Q with
  | Lt => f
  | Gt => f + 1
  | Eq => if Z.even f then f else f + 1
  end.

(** The [e] with [2^e <= q < 2^(e+1)], for a positive [q]. *)
Definition exponent (q : Q) : Z :=
  let e := Z.log2 (Qnum q) - Z.log2 (Zpos (Qden q)) in
  if Qle_bool ((2 # 1) ^ e) q then e else e - 1.

(** The exponent of the smallest normal number. *)
Definition emin : Z := -1022.

(** The distance between the floats next to [q]. *)
Definition quantum (q : Q) : Q := ((2 # 1) ^ (Z.max (exponent q) emin - 52))%Q.

Definition round_positive (q : Q) : Q :=
  Qred (inject_Z (nearest_even (q / quantum q)) * quantum q).

(** The float nearest to [q]: [float(n)] for an [int], and the result of
    an operation whose exact result is [q]. *)
Definition round (q : Q) : Q :=
  match Qnum q with
  | Z0 => 0%Q
  | Zpos _ => round_positive q
  | Zneg _ => (- round_positive (- q))%Q
  end.

(** [a / b] for a float [b]: [a], an [int] or a [float], is converted to
    a float and the quotient is rounded. *)
Definition div (a b : Q) : Q := round (round a / b).

(** [k / n] for two [int]s: the quotient, rounded once. *)
Definition int_div (k n : Z) : Q := round (inject_Z k / inject_Z n).

(** 2^-53, the largest relative error of rounding a normal number. *)
Definition unit_roundoff : Q := 1 # 9007199254740992.

End Binary64.

Example float_tenth :
  Binary64.round (1 # 10) = (3602879701896397 # 36028797018963968)%Q.
Proof. vm_compute. reflexivity. Qed.
Example float_of_large_int :
  Binary64.round (inject_Z (2 ^ 53 + 1)) = inject_Z (2 ^ 53).
Proof. vm_compute. reflexivity. Qed.
Example float_tie_to_even :
  Binary64.round (inject_Z (2 ^ 53 + 3)) = inject_Z (2 ^ 53 + 4).
Proof. vm_compute. reflexivity. Qed.
Example float_underflow : Binary64.round (/ inject_Z (2 ^ 1075)) = 0%Q.
Proof. vm_compute. reflexivity. Qed.
Example float_subnormal :
  (Binary64.round ((3 # 4) * / inject_Z (2 ^ 1074))
   == / inject_Z (2 ^ 1074))%Q.
Proof. vm_compute. reflexivity. Qed.
Example float_division : Binary64.div 1 (Binary64.round 4) = (1 # 4)%Q.
Proof. vm_compute. reflexivity. Qed.

(** ** Feature extraction: [dates_classifier_model.py] *)

(** [sum(l)], added up from the left. *)
Definition Qsum (l : list Q) : Q := fold_left Qplus l 0%Q.

(** [q > 0] *)
Definition Qpositive (q : Q) : bool := negb (Qle_bool q 0%Q).

(** [itertools.permutations(l, 2)]: the pairs of elements at two different
    positions, in the order of the positions. *)
Fixpoint permutations2_from {A} (before l : list A) : list (A * A) :=
  match l with
  | [] => []
  | x :: after =>
      map (pair x) (before ++ after) ++ permutations2_from (before ++ [x]) after
  end.

Definition permutations2 {A} (l : list A) : list (A * A) :=
  permutations2_from [] l.

(** [f'char_{character}'] and [f'bigram_{character}'] *)
Definition char_key (c : string) : string := "char_" +:+ c.
Definition bigram_key (b : string) : string := "bigram_" +:+ b.

(** [d[k]] for a key that was stored before. *)
Definition dict_item (d : dict Q) (k : string) : Q := default 0%Q (dict_get k d).

(** [for x in items: char_vec[key(x)] = feature_text.count(x)] *)
Definition count_into (feature_text : string) (key : string -> string)
    (items : list string) (char_vec : dict Q) : dict Q :=
  fold_left
    (fun vec x => dict_set (key x) (inject_Z (Py.count feature_text x)) vec)
    items char_vec.

(** One normalization group: the values under [keys], which are [int]
    counts when they are added up, each divided by the [float] of their
    sum when that sum is positive. *)
Definition norm_group (keys : list string) (char_vec : dict Q) : dict Q :=
  let total := Qsum (map (dict_item char_vec) keys) in
  if Qpositive total
  then fold_left
         (fun vec k =>
            dict_set k (Binary64.div (dict_item vec k) (Binary64.round total))
              vec)
         keys char_vec
  else char_vec.

Record word_counts : Type := {
  numbers_above_31 : Z;
  numbers_below_31 : Z;
  words : Z;
  cap_words : Z
}.

(** The body of the loop over the words of the candidate text. *)
Definition count_word (alphabet_char_set : alphabet_arg) (n : word_counts)
    (wrd : string) : result word_counts :=
  match wrd with
  | EmptyString => Ok n
  | String c0 rest =>
      match alphabet_char_set with
      | AlphabetFalse => Raise TypeError
      | AlphabetSet chars =>
          if bool_decide (String c0 EmptyString ∈ chars)
          then
            let is_cap :=
              match rest with
              | EmptyString => false
              | String c1 _ =>
                  negb (Ascii.eqb (Py.lower_char c0) c0)
                  && Ascii.eqb (Py.lower_char c1) c1
              end in
            if is_cap
            then Ok {| numbers_above_31 := numbers_above_31 n;
                       numbers_below_31 := numbers_below_31 n;
                       words := words n;
                       cap_words := cap_words n + 1 |}
            else Ok {| numbers_above_31 := numbers_above_31 n;
                       numbers_below_31 := numbers_below_31 n;
                       words := words n + 1;
                       cap_words := cap_words n |}
          else
            let leading := Re.leading_digits wrd in
            if String.eqb leading "" then Ok n
            else
              number <-r Py.int leading ;;
              if number <? 31
              then Ok {| numbers_above_31 := numbers_above_31 n;
                         numbers_below_31 := numbers_below_31 n + 1;
                         words := words n;
                         cap_words := cap_words n |}
              else Ok {| numbers_above_31 := numbers_above_31 n + 1;
                         numbers_below_31 := numbers_below_31 n;
                         words := words n;
                         cap_words := cap_words n |}
      end
  end.

(** [for wrd in split_date_words(date_text)] *)
Fixpoint count_words_loop (alphabet_char_set : alphabet_arg) (n : word_counts)
    (wrds : list string) : result word_counts :=
  match wrds with
  | [] => Ok n
  | wrd :: rest =>
      n' <-r count_word alphabet_char_set n wrd ;;
      count_words_loop alphabet_char_set n' rest
  end.

(** ** Sample data

    A small text, its candidates and a parser, used to run the definitions
    below on concrete inputs. *)

Module Sample.

(** Space, tab and the line breaks. *)
Definition space (c : ascii) : bool := Py.in_range 9 13 c || Ascii.eqb c " ".

Definition props (dg dm mo da de ex : list string) : date_props :=
  {| digits := dg; digits_modifier := dm; months := mo; days := da;
     delimiters := de; extra_tokens := ex; other := [] |}.

Definition dt (y m d hh mm : Z) : datetime :=
  {| year := y; month := m; day := d; hour := hh; minute := mm;
     second := 0; microsecond := 0; tzinfo := None |}.

Definition en_US (code : string) : Locale :=
  {| language := "en"; locale_code := "US" |}.

(** A parser that knows three strings and raises on a fourth. *)
Definition parse (date_string : string) (p : date_props) (l : Locale)
    : result (option datetime) :=
  if String.eqb date_string "b c" then Ok (Some (dt 2001 1 1 0 0))
  else if String.eqb date_string "a b" then Ok (Some (dt 2002 2 2 0 0))
  else if String.eqb date_string "22   June, 2020" then Ok (Some (dt 2020 6 22 0 0))
  else if String.eqb date_string "01.02.2020 10:30" then Ok (Some (dt 2020 2 1 10 30))
  else if String.eqb date_string "June 31, 2020" then Raise ValueError
  else Ok None.

(** A locator that always finds the given candidates. *)
Definition finder (cands : list candidate) (base_date : datetime) : DateFinder :=
  {| extract_date_strings := fun _ _ => cands; parse_date_string := parse |}.

Definition now : datetime := dt 2021 3 4 10 30.

Definition cand (s : string) (i j : Z) (p : date_props) : candidate :=
  {| cand_string := s; cand_index := (i, j); cand_props := p |}.

(** "22nd day of June, 2020": an ordinal on its own, then the rest. *)
Definition ordinal : candidate :=
  cand "22nd" 0 4 (props [] ["22nd"] [] [] [] []).

Definition day_of_June : candidate :=
  cand " day of June, 2020" 4 22
    (props ["2020"] [] ["June"] [] [" "; " "; ", "] ["day"; "of"]).

(** "22nd day Of June, 2020" *)
Definition day_Of_June : candidate :=
  cand " day Of June, 2020" 4 22
    (props ["2020"] [] ["June"] [] [" "; " "; ", "] ["day"; "Of"]).

(** "01.02.2020 10:30" *)
Definition dotted_with_time : candidate :=
  cand "01.02.2020 10:30" 0 16
    (props ["01"; "02"; "2020"; "10"; "30"] [] [] [] ["."; "."; " "; ":"] []).

(** "3.14" *)
Definition decimal : candidate :=
  cand "3.14" 0 4 (props ["3"; "14"] [] [] [] ["."] []).

(** "June 31, 2020", on which the parser raises. *)
Definition invalid_day : candidate :=
  cand "June 31, 2020" 0 13
    (props ["31"; "2020"] [] ["June"] [] [" "; ", "] []).

(** A classifier over four features that always answers 3/4. *)
Definition model : Model :=
  {| columns := ["char_2"; "char_0"; "bigram_20"; "bigram_02"];
     predict_proba := fun _ => ((1 # 4)%Q, (3 # 4)%Q) |}.

Definition chars : list string := ["2"; "0"].

(** The ten digits as a tracked alphabet. *)
Definition digits10 : list string :=
  ["0"; "1"; "2"; "3"; "4"; "5"; "6"; "7"; "8"; "9"].

End Sample.

Section Dates.

Set Default Proof Using "Type".

(** The class [\s] of the [regex] package. *)
Variable re_space : ascii -> bool.

(** [REG_WORD_SEPARATOR]'s class: [[\s\-\.\[\]\{\}\(\),;:\+\\/]] *)
Definition word_separator (c : ascii) : bool :=
  re_space c || existsb (Ascii.eqb c) (list_ascii_of_string "-.[]{}(),;:+\/").

(** [REG_WORD_SEPARATOR.split(date_str)] *)
Definition split_date_words (date_str : string) : list string :=
  Re.split_runs word_separator [] false date_str.

(** The text window around the span, stripped. *)
Definition feature_window (text : string) (start_index end_index window : Z)
    : string :=
  let window_start := Z.max 0 (start_index - window) in
  let window_end := Z.min (Py.len text) (end_index + window) in
  Py.strip (Py.slice text window_start window_end).

(** [[''.join(s) for s in itertools.permutations(characters, 2)]] *)
Definition bigram_set (characters : list string) : list string :=
  map (fun s => fst s +:+ snd s) (permutations2 characters).

Definition get_date_features (text : string) (start_index end_index : Z)
    (characters : list string) (alphabet_char_set : alphabet_arg)
    (include_bigrams : bool) (window : Z) (norm : bool) (count_words : bool)
    : result (dict Q) :=
  let feature_text := feature_window text start_index end_index window in
  let date_text := Py.slice text start_index end_index in
  let char_keys := map char_key characters in
  let char_vec := count_into feature_text char_key characters [] in
  let bigram_set := bigram_set characters in
  let bigram_keys := map bigram_key bigram_set in
  let char_vec :=
    if include_bigrams
    then count_into feature_text bigram_key bigram_set char_vec
    else char_vec in
  let char_vec :=
    if norm
    then
      let char_vec := norm_group char_keys char_vec in
      if include_bigrams then norm_group bigram_keys char_vec else char_vec
    else char_vec in
  if count_words
  then
    n <-r count_words_loop alphabet_char_set
            {| numbers_above_31 := 0; numbers_below_31 := 0;
               words := 0; cap_words := 0 |}
            (split_date_words date_text) ;;
    let sum_words :=
      numbers_above_31 n + numbers_below_31 n + words n + cap_words n in
    let scale (k : Z) : Q :=
      if norm && negb (sum_words =? 0)
      then Binary64.int_div k sum_words
      else inject_Z k in
    Ok (dict_set "wr_u" (scale (cap_words n))
         (dict_set "wr_l" (scale (words n))
           (dict_set "na31" (scale (numbers_above_31 n))
             (dict_set "nb31" (scale (numbers_below_31 n)) char_vec))))
  else Ok char_vec.

(** *** The word counts in the words of the specification *)

(** The claim on the word counts as it is stated for a character set: with
    one supplied, the call returns. *)
Definition total_with_set_as_stated : Prop :=
  forall (text : string) (start_index end_index : Z)
         (characters : list string) (chars : gset string)
         (include_bigrams : bool) (window : Z) (norm : bool),
    exists char_vec,
      get_date_features text start_index end_index characters
        (AlphabetSet chars) include_bigrams window norm true = Ok char_vec.

(** A word on which [int] is called and raises: it does not begin with a
    character of the set, and it begins with more decimal digits than [int]
    converts. *)
Definition overlong_number (chars : gset string) (wrd : string) : bool :=
  match wrd with
  | EmptyString => false
  | String c0 _ =>
      negb (bool_decide (String c0 EmptyString ∈ chars))
      && (Py.int_max_str_digits <? Py.len (Re.leading_digits wrd))
  end.

(** *** The normalization in the words of the specification *)

(** The sum of all the values whose feature name starts with [prefix], as
    the sum of the numbers that the floats are. *)
Definition group_sum (prefix : string) (char_vec : dict Q) : Q :=
  Qsum (map snd
          (filter (fun kv => Py.startswith prefix (fst kv) = true) char_vec)).

(** The window contains at least one of the tracked strings. *)
Definition tracked_occurs (feature_text : string) (items : list string) : bool :=
  existsb (fun x => Py.contains x feature_text) items.

(** [v] is 1 up to [eps] when [occurs] holds, and 0 otherwise. *)
Definition sums_to (eps : Q) (v : Q) (occurs : bool) : Prop :=
  if occurs then (1 - eps <= v)%Q /\ (v <= 1 + eps)%Q else (v == 0)%Q.

(** The claim on the normalized sums for one call, up to [eps]. *)
Definition norm_sums_hold (eps : Q) (text : string)
    (start_index end_index : Z) (characters : list string)
    (alphabet_char_set : alphabet_arg) (include_bigrams : bool) (window : Z)
    (count_words : bool) : Prop :=
  forall char_vec,
    get_date_features text start_index end_index characters
      alphabet_char_set include_bigrams window true count_words = Ok char_vec ->
    let feature_text := feature_window text start_index end_index window in
    sums_to eps (group_sum "char_" char_vec)
      (tracked_occurs feature_text characters)
    /\ sums_to eps (group_sum "bigram_" char_vec)
         (include_bigrams
          && tracked_occurs feature_text (bigram_set characters)).

(** The claim as it is stated: for every call the sums are 1 or 0. *)
Definition norm_sums_as_stated : Prop :=
  forall text start_index end_index characters alphabet_char_set
         include_bigrams window count_words,
    norm_sums_hold 0 text start_index end_index characters alphabet_char_set
      include_bigrams window count_words.

(** 2^-51: what three roundings, of the count, of the sum and of the
    quotient, can take from a share or add to it. *)
Definition sum_tolerance : Q := 1 # 2251799813685248.

(** ** The date-parts check: [check_date_parts_are_in_date] *)

Definition EN_MONTHS : list (list string) :=
  [["january"; "jan"]; ["february"; "feb"; "febr"]; ["march"; "mar"];
   ["april"; "apr"]; ["may"]; ["june"; "jun"];
   ["july"; "jul"]; ["august"; "aug"]; ["september"; "sep"; "sept"];
   ["october"; "oct"]; ["november"; "nov"]; ["december"; "dec"]].

Definition get_month_by_name : dict Z :=
  fold_left
    (fun d '(ix, month_names) =>
       fold_left (fun d month_name => dict_set month_name (Z.of_nat ix + 1) d)
         month_names d)
    (imap pair EN_MONTHS) [].

Definition MONTH_BY_NAME : dict Z := get_month_by_name.

Fixpoint keep_chars (p : ascii -> bool) (s : string) : string :=
  match s with
  | EmptyString => EmptyString
  | String c s' => if p c then String c (keep_chars p s') else keep_chars p s'
  end.

(** The inner [_ordinal_to_cardinal]. *)
Definition ordinal_to_cardinal (s : string) : result (option Z) :=
  let n := keep_chars Py.isdigit s in
  if String.eqb n "" then Ok None else v <-r Py.int n ;; Ok (Some v).

Definition units_of_time : list string :=
  ["year"; "month"; "day"; "hour"; "minute"].

(** [{unit: getattr(date, unit) for unit in units_of_time}] *)
Definition date_values (date : datetime) : dict Z :=
  [("year", year date); ("month", month date); ("day", day date);
   ("hour", hour date); ("minute", minute date)].

Definition short_year (v : Z) : Z :=
  if 1000 <? v then v - 100 * (v / 100) else v.

(** One round of the loop over [date_values.items()]: the state is
    [removeable] and [reassembled_date]. *)
Definition reassemble_step (combined : list (option Z))
    (st : list Z * dict Z) (item : string * Z) : list Z * dict Z :=
  let '(removeable, reassembled_date) := st in
  let '(k, v) := item in
  if String.eqb k "year" && bool_decide (Some (short_year v) ∈ combined)
  then (removeable ++ [short_year v], dict_set k v reassembled_date)
  else if bool_decide (Some v ∈ combined)
  then (removeable ++ [v], dict_set k v reassembled_date)
  else (removeable, reassembled_date).

(** [[MONTH_BY_NAME.get(month.lower()) for month in date_props['months']]] *)
Definition date_prop_months (date_props : date_props) : list (option Z) :=
  map (fun month => dict_get (Py.lower month) MONTH_BY_NAME) (months date_props).

(** [[day for day in ... if day]]: the cardinals that are neither [None]
    nor zero. *)
Definition date_prop_days (cardinals : list (option Z)) : list Z :=
  omap (fun day => match day with
                   | Some d => if d =? 0 then None else Some d
                   | None => None
                   end) cardinals.

Definition check_date_parts_are_in_date (date : datetime)
    (date_props : date_props) : result bool :=
  let date_values := date_values date in
  date_prop_digits <-r mapR Py.int (digits date_props) ;;
  let date_prop_months := date_prop_months date_props in
  cardinals <-r mapR ordinal_to_cardinal (digits_modifier date_props) ;;
  let date_prop_days := date_prop_days cardinals in
  let month_is_wrong :=
    match date_prop_months with
    | [] => false
    | _ =>
        match dict_get "month" date_values with
        | Some month =>
            negb (month =? 0) && bool_decide (Some month ∉ date_prop_months)
        | None => false
        end
    end in
  if month_is_wrong then Ok false
  else
    let combined : list (option Z) :=
      map Some date_prop_digits ++ date_prop_months ++ map Some date_prop_days in
    let difference : gset (option Z) :=
      list_to_set combined
        ∖ list_to_set (map (fun kv => Some (snd kv)) date_values) in
    let '(removeable, reassembled_date) :=
      fold_left (reassemble_step combined) date_values ([], []) in
    let diff_digits : list (option Z) :=
      filter (fun digit => digit ∉ map Some removeable) (elements difference) in
    let diff_units : gset string :=
      list_to_set (dict_keys date_values)
        ∖ list_to_set (dict_keys reassembled_date) in
    if existsb (fun k => negb (String.eqb k ""))
         (filter (fun k => k ∈ take 3 units_of_time) (elements diff_units))
    then (match diff_digits with [] => Ok true | _ => Ok false end)
    else Ok true.

(** *** The check in the words of the specification

    The literal values of a candidate are its digits, the numbers of its
    months and its ordinal modifiers as cardinals.  Each of the five
    components of the date is matched against them, the year also by its
    last two digits when it is over 1000. *)

Definition literal_values (date_prop_digits : list Z)
    (date_prop_months : list (option Z)) (cardinals : list (option Z))
    : list (option Z) :=
  map Some date_prop_digits ++ date_prop_months
    ++ map Some (date_prop_days cardinals).

Definition component_values (date : datetime) : list Z :=
  [year date; month date; day date; hour date; minute date].

Definition year_is_matched (literals : list (option Z)) (date : datetime) : bool :=
  bool_decide (Some (short_year (year date)) ∈ literals)
  || bool_decide (Some (year date) ∈ literals).

Definition is_matched (literals : list (option Z)) (v : Z) : bool :=
  bool_decide (Some v ∈ literals).

(** A literal that no component accounts for: it is none of the five
    component values and not the short form of the year. *)
Definition literal_is_unmatched (date : datetime) (x : option Z) : bool :=
  bool_decide (x ∉ map Some (component_values date))
  && bool_decide (x <> Some (short_year (year date))).

(** Some component among year, month, day is unmatched and some literal is
    unmatched. *)
Definition unmatched_on_both_sides (literals : list (option Z))
    (date : datetime) : bool :=
  (negb (year_is_matched literals date)
   || negb (is_matched literals (month date))
   || negb (is_matched literals (day date)))
  && existsb (literal_is_unmatched date) literals.

(** The candidate names months, and the month of the date is none of them. *)
Definition month_is_contradicted (date_prop_months : list (option Z))
    (date : datetime) : bool :=
  match date_prop_months with
  | [] => false
  | _ => negb (month date =? 0)
         && bool_decide (Some (month date) ∉ date_prop_months)
  end.

(** The check as the claim states it: reject exactly when a component and a
    literal are left unmatched. *)
Definition check_as_stated (date : datetime) (date_props : date_props)
    : result bool :=
  date_prop_digits <-r mapR Py.int (digits date_props) ;;
  cardinals <-r mapR ordinal_to_cardinal (digits_modifier date_props) ;;
  Ok (negb (unmatched_on_both_sides
              (literal_values date_prop_digits (date_prop_months date_props)
                 cardinals) date)).

(** The check with the month rule in front. *)
Definition check_with_month_rule (date : datetime) (date_props : date_props)
    : result bool :=
  date_prop_digits <-r mapR Py.int (digits date_props) ;;
  cardinals <-r mapR ordinal_to_cardinal (digits_modifier date_props) ;;
  Ok (negb (month_is_contradicted (date_prop_months date_props) date
            || unmatched_on_both_sides
                 (literal_values date_prop_digits (date_prop_months date_props)
                    cardinals) date)).

(** ** The raw date stream: [get_raw_dates] *)

Definition DATE_MAX_LENGTH : Z := 40.

(** The [locale] argument of [get_raw_dates]: a string, [None], or an
    object. *)
Inductive locale_arg : Type :=
| LocaleStr (s : string)
| LocaleNone
| LocaleObject (l : Locale).

(** What [get_raw_dates] yields, with or without the source span. *)
Inductive raw_date : Type :=
| WithSource (d : date_value) (index : Z * Z)
| Bare (d : date_value).

(** The constructor [Locale(code)]. *)
Variable Locale_init : string -> Locale.

(** [datetime.datetime.now()] at the time of the call, and the constructor
    [DateFinder(base_date=...)] followed by the loop that fills its
    [REPLACEMENTS] table. *)
Variable now : datetime.
Variable DateFinder_init : datetime -> DateFinder.

Definition with_props (c : candidate) (p : date_props) : candidate :=
  {| cand_string := cand_string c; cand_index := cand_index c;
     cand_props := p |}.

Definition with_digits_modifier (p : date_props) (l : list string) : date_props :=
  {| digits := digits p; digits_modifier := l; months := months p;
     days := days p; delimiters := delimiters p;
     extra_tokens := extra_tokens p; other := other p |}.

Definition with_extra_tokens (p : date_props) (l : list string) : date_props :=
  {| digits := digits p; digits_modifier := digits_modifier p;
     months := months p; days := days p; delimiters := delimiters p;
     extra_tokens := l; other := other p |}.

(** [l.pop()]: the last element and what remains; [None] stands for
    IndexError. *)
Definition list_pop {A} (l : list A) : option (A * list A) :=
  match last l with
  | Some x => Some (x, take (length l - 1) l)
  | None => None
  end.

(** [.replace("st", "").replace("nd", "").replace("rd", "").replace("th", "")] *)
Definition strip_ordinal (m : string) : string :=
  Py.remove (Py.remove (Py.remove (Py.remove m "st") "nd") "rd") "th".

(** Cleanup of "day of" strings, for the candidate at position [i]: the
    date string to go on with, and the candidates after the mutation. *)
Definition day_of_merge (i : nat) (possible_dates : list candidate)
    (possible_matched : list bool) (possible_date : candidate)
    : result (string * list candidate) :=
  let date_string := cand_string possible_date in
  let date_props := cand_props possible_date in
  if bool_decide ("of" ∈ extra_tokens date_props)
     || bool_decide ("OF" ∈ extra_tokens date_props)
  then
    match Py.index possible_dates (Z.of_nat i - 1) with
    | None => Raise IndexError
    | Some previous =>
        let previous_modifier := digits_modifier (cand_props previous) in
        let num_dig_mod := length previous_modifier in
        if bool_decide (0 < i)%nat
        then
          match possible_matched !! (i - 1)%nat with
          | None => Raise IndexError
          | Some matched =>
              if negb matched && bool_decide (num_dig_mod = 1%nat)
              then
                let date_props :=
                  with_digits_modifier date_props
                    (digits_modifier date_props ++ previous_modifier) in
                match list_pop previous_modifier with
                | None => Raise IndexError
                | Some (modifier, rest) =>
                    Ok (strip_ordinal modifier +:+ date_string,
                        <[(i - 1)%nat :=
                            with_props previous
                              (with_digits_modifier (cand_props previous) rest)]>
                          (<[i := with_props possible_date date_props]>
                             possible_dates))
                end
              else Ok (date_string, possible_dates)
          end
        else Ok (date_string, possible_dates)
    end
  else Ok (date_string, possible_dates).

(** *** The merge in the words of the specification *)

(** The extra tokens contain the word "of" in some letter case. *)
Definition has_of_any_case (tokens : list string) : bool :=
  existsb (fun token => String.eqb (Py.lower token) "of") tokens.

(** The claim on the merge as it is stated: "of" in any letter case after a
    rejected candidate with exactly one digit modifier puts that modifier,
    without its ordinal suffix, in front of the date string. *)
Definition merge_as_stated : Prop :=
  forall (i : nat) (possible_dates : list candidate)
         (possible_matched : list bool) (possible_date previous : candidate)
         (modifier : string),
    possible_dates !! i = Some possible_date ->
    has_of_any_case (extra_tokens (cand_props possible_date)) = true ->
    (0 < i)%nat ->
    possible_dates !! (i - 1)%nat = Some previous ->
    possible_matched !! (i - 1)%nat = Some false ->
    digits_modifier (cand_props previous) = [modifier] ->
    exists dates,
      day_of_merge i possible_dates possible_matched possible_date
      = Ok (strip_ordinal modifier +:+ cand_string possible_date, dates).

(** [\d{1,2}\s+\d{1,2}] *)
Definition RE_ODD_DATE : Re.regex :=
  Re.Cat (Re.between 1 2 Re.digit)
    (Re.Cat (Re.plus (Re.Class re_space)) (Re.between 1 2 Re.digit)).

(** [\d{2}\.\d{2}\.\d{2,4}] *)
Definition RE_DOTTED_DATE : Re.regex :=
  Re.Cat (Re.times 2 Re.digit)
    (Re.Cat (Re.chr ".")
       (Re.Cat (Re.times 2 Re.digit)
          (Re.Cat (Re.chr ".") (Re.between 2 4 Re.digit)))).

(** [\d{2,4}\.\s*[A-Za-z]] *)
Definition RE_ODD_MONTH : Re.regex :=
  Re.Cat (Re.between 2 4 Re.digit)
    (Re.Cat (Re.chr ".") (Re.Cat (Re.Star (Re.Class re_space)) Re.letter)).

(** The string begins with two digits, a dot, two digits, a dot and two
    digits. *)
Definition begins_dotted (s : string) : bool :=
  match s with
  | String a (String b (String p (String c (String d (String q
      (String e (String f _))))))) =>
      Py.isdecimal a && Py.isdecimal b && Ascii.eqb "." p
      && Py.isdecimal c && Py.isdecimal d && Ascii.eqb "." q
      && Py.isdecimal e && Py.isdecimal f
  | _ => false
  end.

(** The string is exactly dd.dd.yy or dd.dd.yyyy. *)
Definition is_strict_dotted (s : string) : bool :=
  begins_dotted s
  && match Py.skip 8 s with
     | EmptyString => true
     | String g (String h EmptyString) => Py.isdecimal g && Py.isdecimal h
     | _ => false
     end.

(** The rejections that come before the cleanup, in the order of the
    source; [true] means that the candidate is dropped. *)
Definition rejected_before_cleanup (date_string : string)
    (date_props : date_props) : bool :=
  let num_dig_mod := length (digits_modifier date_props) in
  let num_dig := length (digits date_props) in
  let num_days := length (days date_props) in
  let num_month := length (months date_props) in
  let num_slash := Py.list_count "/" (delimiters date_props) in
  let num_point := Py.list_count "." (delimiters date_props) in
  let num_hyphen := Py.list_count "-" (delimiters date_props) in
  let is_may := String.eqb (Py.lower (Py.join "" (months date_props))) "may" in
  (* Remove double months *)
  if bool_decide (1 < num_month)%nat then true
  (* Remove wrong months like Dec*ided or Mar*tin *)
  else if bool_decide (num_month = 1%nat)
          && match months date_props, last (extra_tokens date_props) with
             | month0 :: _, Some extra => Py.contains (month0 +:+ extra) date_string
             | _, _ => false
             end then true
  (* Check strange strings *)
  else if bool_decide (0 < num_dig_mod)%nat && bool_decide (num_dig = 0%nat) then true
  (* Skip DOW only *)
  else if bool_decide (0 < num_days)%nat && bool_decide (num_dig = 0%nat) then true
  (* Skip DOM only *)
  else if bool_decide (num_month = 0%nat) && bool_decide (num_dig_mod = 0%nat)
          && bool_decide (num_dig <= 1)%nat then true
  (* Skip odd date like "1 10" *)
  else if Re.match_ RE_ODD_DATE date_string then true
  (* Skip floats *)
  else if negb (num_point =? 0) && bool_decide (num_month = 0%nat)
          && negb (Re.match_ RE_DOTTED_DATE date_string) then true
  (* Skip odd months from string like "Nil 62. Marquee" *)
  else if Re.search RE_ODD_MONTH date_string then true
  (* Skip fractions *)
  else if ((num_slash =? 1) || (num_hyphen =? 1)) && bool_decide (2 < num_dig)%nat then true
  (* Skip three-digit blocks and double zero years *)
  else if existsb (fun digit => bool_decide (String.length digit = 3%nat))
            (digits date_props)
          || existsb (Py.startswith "00") (digits date_props) then true
  (* Skip "may" alone *)
  else if bool_decide (num_dig = 0%nat) && bool_decide (num_days = 0%nat) && is_may then true
  (* Skip cases like "13.2 may" or "12.12may" *)
  else if bool_decide (0 < num_dig)%nat
          && (0 <? num_point + num_slash + num_hyphen) && is_may then true
  else false.

(** [sorted(l, key=len, reverse=True)]: longest first, equal lengths in
    their original order. *)
Fixpoint insert_by_len (x : string) (l : list string) : list string :=
  match l with
  | [] => [x]
  | y :: l' =>
      if bool_decide (String.length x < String.length y)%nat
      then y :: insert_by_len x l'
      else x :: l
  end.

Definition sorted_by_len_desc (l : list string) : list string :=
  foldr insert_by_len [] l.

(** The cleanup loop and the final [strip]. *)
Definition cleanup (date_string : string) (extra : list string) : string :=
  Py.strip
    (fold_left
       (fun date_string token =>
          if bool_decide (Py.lower token ∈ ["to"; "t"]) then date_string
          else Py.remove date_string token)
       (sorted_by_len_desc extra) date_string).

(** The rejections between the cleanup and the parse. *)
Definition rejected_after_cleanup (date_string : string)
    (date_props : date_props) : bool :=
  (* Skip strings too long *)
  if DATE_MAX_LENGTH <? Py.len date_string then true
  else
    (* Skip numbers only *)
    let match_delims : gset ascii :=
      list_to_set (list_ascii_of_string (Py.join "" (delimiters date_props))) in
    let bad_delims : gset ascii :=
      list_to_set (list_ascii_of_string ", " ++ [ascii_of_N 10; ascii_of_N 9]) in
    let len_diff_set := size (match_delims ∖ bad_delims) in
    bool_decide (len_diff_set = 0%nat)
    && bool_decide (length (months date_props) = 0%nat).

(** The filter chain on the candidate at position [i]: the candidates after
    its mutations, and either [None] (dropped) or the cleaned date string
    and the properties handed to the parser. *)
Definition filter_chain (i : nat) (possible_dates : list candidate)
    (possible_matched : list bool) (possible_date : candidate)
    : list candidate * result (option (string * date_props)) :=
  match day_of_merge i possible_dates possible_matched possible_date with
  | Raise e => (possible_dates, Raise e)
  | Ok (date_string, possible_dates) =>
      match possible_dates !! i with
      | None => (possible_dates, Raise IndexError)
      | Some current =>
          let date_props := cand_props current in
          if rejected_before_cleanup date_string date_props
          then (possible_dates, Ok None)
          else
            let date_string := cleanup date_string (extra_tokens date_props) in
            let date_props := with_extra_tokens date_props [] in
            let possible_dates :=
              <[i := with_props current date_props]> possible_dates in
            if rejected_after_cleanup date_string date_props
            then (possible_dates, Ok None)
            else (possible_dates, Ok (Some (date_string, date_props)))
      end
  end.

(** The claim on decimal-looking candidates as it is stated: with a "."
    among the delimiters and no month, only the exact shapes dd.dd.yy and
    dd.dd.yyyy survive the filter chain. *)
Definition dotted_rule_as_stated : Prop :=
  forall (i : nat) (possible_dates : list candidate)
         (possible_matched : list bool) (possible_date : candidate),
    possible_dates !! i = Some possible_date ->
    "." ∈ delimiters (cand_props possible_date) ->
    months (cand_props possible_date) = [] ->
    is_strict_dotted (cand_string possible_date) = false ->
    snd (filter_chain i possible_dates possible_matched possible_date) = Ok None.

(** One parse attempt with its two handlers.  In
    [except locale.Error as e: raise e] the name [locale] is the argument of
    [get_raw_dates], a [Locale] object, not the standard module imported at
    the top of the file: the clause is evaluated by reading the attribute
    [Error] of that object.  [except Exception] turns what the first clause
    lets through into [date = None]. *)
Definition try_parse (date_finder : DateFinder) (date_string : string)
    (date_props : date_props) (locale : Locale) : result (option datetime) :=
  match parse_date_string date_finder date_string date_props locale with
  | Ok date => Ok date
  | Raise e =>
      match Locale_getattr locale "Error" with
      | None => Raise AttributeError
      | Some (AttrStr _) => Raise TypeError
      | Some (AttrExceptionClass is_instance) =>
          if is_instance e then Raise e else Ok None
      end
  end.

(** [for direction in (0, 1)]: the date string as last assigned, and the
    date when the loop was left by [break]. *)
Fixpoint direction_loop (date_finder : DateFinder) (date_props : date_props)
    (locale : Locale) (date_string_tokens : list string) (cutter : nat)
    (directions : list bool) (date_string : string)
    : result (string * option datetime) :=
  match directions with
  | [] => Ok (date_string, None)
  | direction :: directions' =>
      let date_string :=
        if bool_decide (0 < cutter)%nat
        then
          Py.join " "
            (if direction
             then drop cutter date_string_tokens
             else take (length date_string_tokens - cutter) date_string_tokens)
        else date_string in
      date <-r try_parse date_finder date_string date_props locale ;;
      match date with
      | Some d => Ok (date_string, Some d)
      | None =>
          direction_loop date_finder date_props locale date_string_tokens
            cutter directions' date_string
      end
  end.

(** [for cutter in range(len(date_string_tokens))] *)
Fixpoint cutter_loop (date_finder : DateFinder) (date_props : date_props)
    (locale : Locale) (date_string_tokens : list string) (cutters : list nat)
    (date_string : string) : result (option datetime) :=
  match cutters with
  | [] => Ok None
  | cutter :: cutters' =>
      found <-r direction_loop date_finder date_props locale
                  date_string_tokens cutter [false; true] date_string ;;
      match found with
      | (_, Some d) => Ok (Some d)
      | (date_string, None) =>
          cutter_loop date_finder date_props locale date_string_tokens
            cutters' date_string
      end
  end.

(** The body of the outer [try]. *)
Definition parse_with_retry (date_finder : DateFinder) (date_string : string)
    (date_props : date_props) (locale : Locale) : result (option datetime) :=
  let date_string_tokens := Py.split date_string in
  cutter_loop date_finder date_props locale date_string_tokens
    (seq 0 (length date_string_tokens)) date_string.

(** *** The retry order in the words of the specification *)

(** The first attempt of a list that finds a date or raises decides. *)
Fixpoint first_parse (date_finder : DateFinder) (date_props : date_props)
    (locale : Locale) (attempts : list string) : result (option datetime) :=
  match attempts with
  | [] => Ok None
  | date_string :: attempts' =>
      date <-r try_parse date_finder date_string date_props locale ;;
      match date with
      | Some d => Ok (Some d)
      | None => first_parse date_finder date_props locale attempts'
      end
  end.

Definition drop_front (k : nat) (tokens : list string) : string :=
  Py.join " " (drop k tokens).

Definition drop_back (k : nat) (tokens : list string) : string :=
  Py.join " " (take (length tokens - k) tokens).

(** The attempts as the claim states them: the full string, then for each
    trim length the front trim followed by the back trim. *)
Definition attempts_as_stated (date_string : string) : list string :=
  let tokens := Py.split date_string in
  date_string
    :: flat_map (fun k => [drop_front k tokens; drop_back k tokens])
         (seq 1 (length tokens - 1)).

(** The attempts with the back trim before the front trim, and none at all
    for a string without tokens. *)
Definition attempts_back_first (date_string : string) : list string :=
  let tokens := Py.split date_string in
  match tokens with
  | [] => []
  | _ =>
      date_string
        :: flat_map (fun k => [drop_back k tokens; drop_front k tokens])
             (seq 1 (length tokens - 1))
  end.

(** [date.isoformat()] raises ValueError when the UTC offset is not strictly
    between minus and plus twenty-four hours. *)
Definition isoformat_raises (date : datetime) : bool :=
  match tzinfo date with
  | Some offset => negb ((-86400 <? offset) && (offset <? 86400))
  | None => false
  end.

(** [date.date()] when hour and minute are both zero. *)
Definition as_yielded (date : datetime) : date_value :=
  if (hour date =? 0) && (minute date =? 0)
  then PyDate (year date) (month date) (day date)
  else PyDateTime date.

(** From the parse to the decision, for a candidate that passed the filter
    chain: [None] when it is dropped. *)
Definition resolve (date_finder : DateFinder) (locale : Locale)
    (date_string : string) (date_props : date_props)
    : result (option date_value) :=
  match parse_with_retry date_finder date_string date_props locale with
  | Raise TypeError => Ok None
  | Raise e => Raise e
  | Ok None => Ok None
  | Ok (Some date) =>
      ok <-r check_date_parts_are_in_date date date_props ;;
      if negb ok then Ok None
      else if isoformat_raises date then Ok None
      else Ok (Some (as_yielded date))
  end.

(** The state of the loop over the candidates. *)
Record loop_state : Type := {
  possible_dates : list candidate;
  possible_matched : list bool;
  produced : list (date_value * (Z * Z));
  failure : option exn
}.

(** One round of [for i, possible_date in enumerate(possible_dates)]. *)
Definition loop_body (date_finder : DateFinder) (locale : Locale)
    (st : loop_state) (i : nat) : loop_state :=
  match failure st, possible_dates st !! i with
  | Some _, _ => st
  | None, None => st
  | None, Some possible_date =>
      match filter_chain i (possible_dates st) (possible_matched st)
              possible_date with
      | (dates, Raise e) =>
          {| possible_dates := dates; possible_matched := possible_matched st;
             produced := produced st; failure := Some e |}
      | (dates, Ok None) =>
          {| possible_dates := dates;
             possible_matched := possible_matched st ++ [false];
             produced := produced st; failure := None |}
      | (dates, Ok (Some (date_string, date_props))) =>
          match resolve date_finder locale date_string date_props with
          | Raise e =>
              {| possible_dates := dates;
                 possible_matched := possible_matched st;
                 produced := produced st; failure := Some e |}
          | Ok None =>
              {| possible_dates := dates;
                 possible_matched := possible_matched st ++ [false];
                 produced := produced st; failure := None |}
          | Ok (Some date) =>
              {| possible_dates := dates;
                 possible_matched := possible_matched st ++ [true];
                 produced :=
                   produced st ++ [(date, cand_index possible_date)];
                 failure := None |}
          end
      end
  end.

(** [Locale(locale)] for a string, [Locale('')] for [None]. *)
Definition locale_object (locale : locale_arg) : Locale :=
  match locale with
  | LocaleStr s => Locale_init s
  | LocaleNone => Locale_init ""
  | LocaleObject l => l
  end.

(** The base date, by default the first of January of the current year at
    midnight. *)
Definition base_date_or_default (base_date : option datetime) : datetime :=
  match base_date with
  | Some d => d
  | None =>
      {| year := year now; month := 1; day := 1; hour := 0; minute := 0;
         second := 0; microsecond := 0; tzinfo := tzinfo now |}
  end.

(** [list(date_finder.extract_date_strings(text, strict=strict))] *)
Definition located (text : string) (strict : bool)
    (base_date : option datetime) : list candidate :=
  extract_date_strings (DateFinder_init (base_date_or_default base_date))
    text strict.

(** The whole loop of [get_raw_dates], with the final state of the
    candidates. *)
Definition raw_dates_loop (text : string) (strict : bool)
    (base_date : option datetime) (locale : locale_arg) : loop_state :=
  let locale := locale_object locale in
  let date_finder := DateFinder_init (base_date_or_default base_date) in
  let possible_dates := located text strict base_date in
  fold_left (loop_body date_finder locale)
    (seq 0 (length possible_dates))
    {| possible_dates := possible_dates; possible_matched := [];
       produced := []; failure := None |}.

Definition get_raw_dates (text : string) (strict : bool)
    (base_date : option datetime) (return_source : bool) (locale : locale_arg)
    : run raw_date :=
  let st := raw_dates_loop text strict base_date locale in
  {| yielded :=
       map (fun r => if return_source then WithSource (fst r) (snd r)
                     else Bare (fst r))
         (produced st);
     raised := failure st |}.

(** *** What the loop leaves alone *)

(** The claim on the frame as it is stated: after the loop every candidate
    has the digits, digit modifiers, months, days and delimiters that the
    locator gave it. *)
Definition frame_as_stated : Prop :=
  forall (text : string) (strict : bool) (base_date : option datetime)
         (locale : locale_arg) (j : nat) (before after : candidate),
    located text strict base_date !! j = Some before ->
    possible_dates (raw_dates_loop text strict base_date locale) !! j
    = Some after ->
    digits (cand_props after) = digits (cand_props before)
    /\ digits_modifier (cand_props after) = digits_modifier (cand_props before)
    /\ months (cand_props after) = months (cand_props before)
    /\ days (cand_props after) = days (cand_props before)
    /\ delimiters (cand_props after) = delimiters (cand_props before).

(** ** Scoring: [get_date_annotations] *)

Variable MODEL_DATE : Model.
Variable DATE_MODEL_CHARS : list string.

(** [feature_list[i] = feature_row[col]] for every column. *)
Fixpoint fill_features (feature_row : dict Q) (i : nat) (cols : list string)
    (feature_list : list Q) : result (list Q) :=
  match cols with
  | [] => Ok feature_list
  | col :: cols' =>
      match dict_get col feature_row with
      | None => Raise KeyError
      | Some v =>
          if bool_decide (i < length feature_list)%nat
          then fill_features feature_row (S i) cols' (<[i := v]> feature_list)
          else Raise IndexError
      end
  end.

(** The body of the loop over the raw dates: the annotation, if one is
    yielded.  A raw date without its span cannot be subscripted. *)
Definition annotate (text : string) (threshold : Q) (raw_date : raw_date)
    : result (option DateAnnotation) :=
  match raw_date with
  | Bare _ => Raise TypeError
  | WithSource date coordinates =>
      feature_row <-r get_date_features text (fst coordinates)
                        (snd coordinates) DATE_MODEL_CHARS AlphabetFalse
                        true 5 true false ;;
      feature_list <-r fill_features feature_row 0 (columns MODEL_DATE)
                         (repeat 0%Q (length feature_row)) ;;
      let date_score := predict_proba MODEL_DATE feature_list in
      if Qle_bool threshold (snd date_score)
      then Ok (Some {| coords := coordinates;
                       text := Py.slice text (fst coordinates) (snd coordinates);
                       date := date;
                       score := snd date_score |})
      else Ok None
  end.

(** The loop over the raw dates; [ended] is what ends the raw date stream
    once it is used up. *)
Fixpoint annotate_all (text : string) (threshold : Q)
    (raw_date_results : list raw_date) (ended : option exn)
    : run DateAnnotation :=
  match raw_date_results with
  | [] => {| yielded := []; raised := ended |}
  | raw_date :: rest =>
      match annotate text threshold raw_date with
      | Raise e => {| yielded := []; raised := Some e |}
      | Ok None => annotate_all text threshold rest ended
      | Ok (Some annotation) =>
          let r := annotate_all text threshold rest ended in
          {| yielded := annotation :: yielded r; raised := raised r |}
      end
  end.

Definition get_date_annotations (text : string) (strict : option bool)
    (locale : string) (base_date : option datetime) (threshold : Q)
    : run DateAnnotation :=
  let strict := default false strict in
  let raw_date_results :=
    get_raw_dates text strict base_date true
      (LocaleObject (Locale_init locale)) in
  annotate_all text threshold (yielded raw_date_results)
    (raised raw_date_results).

(** ** Notions used in the statements and their proofs *)

(** What the loop has produced so far all comes from [resolve]. *)
Definition from_parser (date_finder : DateFinder) (locale : Locale)
    (v : date_value) : Prop :=
  exists s p d,
    parse_date_string date_finder s p locale = Ok (Some d) /\ v = as_yielded d.

(** The date or datetime of a yielded value. *)
Definition raw_value (r : raw_date) : date_value :=
  match r with
  | WithSource d _ => d
  | Bare d => d
  end.

(** The state of the loop when round [i] begins. *)
Definition state_before (text : string) (strict : bool)
    (base_date : option datetime) (locale : locale_arg) (i : nat)
    : loop_state :=
  let locale := locale_object locale in
  let date_finder := DateFinder_init (base_date_or_default base_date) in
  let possible_dates := located text strict base_date in
  fold_left (loop_body date_finder locale) (seq 0 i)
    {| possible_dates := possible_dates; possible_matched := [];
       produced := []; failure := None |}.

(** A value as it is yielded, with its span when [return_source] is set. *)
Definition as_raw (return_source : bool) (r : date_value * (Z * Z))
    : raw_date :=
  if return_source then WithSource (fst r) (snd r) else Bare (fst r).

(** Every character of [s] satisfies [p]. *)
Fixpoint all_chars (p : ascii -> bool) (s : string) : bool :=
  match s with
  | EmptyString => true
  | String c s' => p c && all_chars p s'
  end.

(** [[x]] when [b] holds, the empty list otherwise. *)
Definition opt_list {A} (b : bool) (x : A) : list A := if b then [x] else [].

(** The parts of a candidate that the loop never writes. *)
Definition frame (c : candidate)
    : string * (Z * Z) * list string * list string * list string
      * list string * list (string * list string) :=
  (cand_string c, cand_index c, digits (cand_props c), months (cand_props c),
   days (cand_props c), delimiters (cand_props c), other (cand_props c)).

(** A candidate after some rounds, against the one the locator gave. *)
Definition kept (before after : candidate) : Prop :=
  frame after = frame before
  /\ (extra_tokens (cand_props after) = extra_tokens (cand_props before)
      \/ extra_tokens (cand_props after) = []).

(** The sum of a list of integers. *)
Definition Zsum (zs : list Z) : Z := fold_right Z.add 0 zs.

(** The values of a group after [norm_group]. *)
Definition scaled (seg : dict Q) : dict Q :=
  if Qpositive (Qsum (map snd seg))
  then map (fun kv =>
              (fst kv,
               Binary64.div (snd kv) (Binary64.round (Qsum (map snd seg)))))
         seg
  else seg.

(** The counts of a group, under their feature names. *)
Definition counted (feature_text : string) (key : string -> string)
    (items : list string) : dict Q :=
  map (fun x => (key x, inject_Z (Py.count feature_text x))) items.

(** The shape of [RE_DOTTED_DATE] over any two character classes. *)
Definition dotted_shape (dig dot : ascii -> bool) : Re.regex :=
  Re.Cat (Re.times 2 (Re.Class dig))
    (Re.Cat (Re.Class dot)
       (Re.Cat (Re.times 2 (Re.Class dig))
          (Re.Cat (Re.Class dot) (Re.between 2 4 (Re.Class dig))))).

(** All the digit modifiers of the candidates, in order. *)
Definition all_modifiers (l : list candidate) : list string :=
  concat (map (fun c => digits_modifier (cand_props c)) l).

(** ** The list and date front ends *)

(** [list(generator)]: the values, unless the generator raises. *)
Definition list_of_run {A} (r : run A) : result (list A) :=
  match raised r with
  | None => Ok (yielded r)
  | Some e => Raise e
  end.

Definition get_raw_date_list (text : string) (strict : bool)
    (base_date : option datetime) (return_source : bool) (locale : locale_arg)
    : result (list raw_date) :=
  list_of_run (get_raw_dates text strict base_date return_source locale).

(** [get_dates]: the date of every annotation, with its coordinates when
    [return_source] is set. *)
Definition get_dates (text : string) (strict : bool)
    (base_date : option datetime) (return_source : bool) (threshold : Q)
    (locale : string) : run raw_date :=
  let annotations :=
    get_date_annotations text (Some strict) locale base_date threshold in
  {| yielded :=
       map (fun ant => if return_source then WithSource (date ant) (coords ant)
                       else Bare (date ant))
         (yielded annotations);
     raised := raised annotations |}.

Definition get_dates_list (text : string) (strict : bool)
    (base_date : option datetime) (return_source : bool) (threshold : Q)
    (locale : string) : result (list raw_date) :=
  list_of_run (get_dates text strict base_date return_source threshold locale).

(** A locator that always finds the given candidates, with a parser that
    reads every string as the 22nd of June 2020 and never raises. *)
Definition quiet_finder (cands : list candidate) (base_date : datetime)
    : DateFinder :=
  {| extract_date_strings := fun _ _ => cands;
     parse_date_string := fun _ _ _ => Ok (Some (Sample.dt 2020 6 22 0 0)) |}.

(** ** Notions for the further properties *)

(** What holds of the loop state before round [i]: the candidates are the
    located ones up to the fields the loop writes, and while nothing was
    raised every earlier round has left its mark in [possible_matched]. *)
Definition loop_inv (located : list candidate) (i : nat) (st : loop_state)
    : Prop :=
  Forall2 kept located (possible_dates st)
  /\ (failure st = None -> length (possible_matched st) = i).

(** The start of the loop. *)
Definition loop_start (located : list candidate) : loop_state :=
  {| possible_dates := located; possible_matched := [];
     produced := []; failure := None |}.

(** No character of [s] is a superscript digit (every character that
    [str.isdigit] accepts is a decimal digit), and [s] has no more digits
    than [int] converts. *)
Definition plain_digits (s : string) : bool :=
  all_chars (fun c => implb (Py.isdigit c) (Py.isdecimal c)) s
  && (Py.len (keep_chars Py.isdigit s) <=? Py.int_max_str_digits).

(** A non-empty run of decimal digits. *)
Definition is_digits (s : string) : bool :=
  negb (String.eqb s "") && all_chars Py.isdecimal s.

(** A non-empty run of decimal digits, no longer than [int] converts. *)
Definition is_number (s : string) : bool :=
  is_digits s && (Py.len s <=? Py.int_max_str_digits).

(** The source span of a yielded value, when it carries one. *)
Definition raw_index (r : raw_date) : option (Z * Z) :=
  match r with
  | WithSource _ index => Some index
  | Bare _ => None
  end.

(** The delimiter characters that do not count as structure:
    [{",", " ", "\n", "\t"}]. *)
Definition bad_delims : list ascii :=
  list_ascii_of_string ", " ++ [ascii_of_N 10; ascii_of_N 9].

(** The raw date an annotation was made from. *)
Definition with_source_of (a : DateAnnotation) : raw_date :=
  WithSource (date a) (coords a).

(** The feature names in the order of their insertion. *)
Definition feature_keys (characters : list string) (include_bigrams : bool)
    : list string :=
  map char_key characters
  ++ (if include_bigrams then map bigram_key (bigram_set characters) else []).

(** The counts of the tracked strings in a window, before any norming. *)
Definition raw_counts (feature_text : string) (characters : list string)
    (include_bigrams : bool) : dict Q :=
  counted feature_text char_key characters
  ++ (if include_bigrams
      then counted feature_text bigram_key (bigram_set characters)
      else []).

(** The four word-shape features of a row. *)
Definition word_features (row : dict Q) : list Q :=
  map (dict_item row) ["nb31"; "na31"; "wr_l"; "wr_u"].

Definition is_present (feature_row : dict Q) (col : string) : Prop :=
  is_Some (dict_get col feature_row).

(** The words that the loop of the word counts counts: those that begin
    with a character of the alphabet or with a decimal digit. *)
Definition is_counted (chars : gset string) (wrd : string) : bool :=
  match wrd with
  | EmptyString => false
  | String c0 _ =>
      bool_decide (String c0 EmptyString ∈ chars) || Py.isdecimal c0
  end.

Definition word_total (n : word_counts) : Z :=
  numbers_above_31 n + numbers_below_31 n + words n + cap_words n.

(** [sub] occurs in [s] as a block of consecutive characters. *)
Definition is_substring (sub s : string) : Prop :=
  exists pre post, s = pre +:+ sub +:+ post.

(** * Properties *)

(** ** General facts *)

Lemma fold_left_preserves {S A} (P : S -> Prop) (f : S -> A -> S)
    (l : list A) (s : S) :
  P s -> (forall s a, P s -> P (f s a)) -> P (fold_left f l s).
Proof.
  intros Hs Hstep. revert s Hs.
  induction l as [|a l IH]; intros s Hs; simpl; auto.
Qed.

(** ** The parse loop only returns what the parser returned *)

Lemma try_parse_found date_finder date_string date_props locale d :
  try_parse date_finder date_string date_props locale = Ok (Some d) ->
  parse_date_string date_finder date_string date_props locale = Ok (Some d).
Proof.
  unfold try_parse.
  destruct (parse_date_string _ _ _ _) as [date|e]; [done|].
  destruct (Locale_getattr locale "Error") as [[s|cls]|]; try done.
  by destruct (cls e).
Qed.

Lemma direction_loop_found date_finder date_props locale tokens cutter
    directions date_string s d :
  direction_loop date_finder date_props locale tokens cutter directions
    date_string = Ok (s, Some d) ->
  parse_date_string date_finder s date_props locale = Ok (Some d).
Proof.
  revert date_string.
  induction directions as [|direction rest IH]; intros date_string; simpl.
  - discriminate.
  - destruct (try_parse _ _ _ _) as [[d'|]|e] eqn:Htry; simpl.
    + intros [= <- <-]. by apply try_parse_found.
    + apply IH.
    + discriminate.
Qed.

Lemma cutter_loop_found date_finder date_props locale tokens cutters
    date_string d :
  cutter_loop date_finder date_props locale tokens cutters date_string
    = Ok (Some d) ->
  exists s, parse_date_string date_finder s date_props locale = Ok (Some d).
Proof.
  revert date_string.
  induction cutters as [|cutter rest IH]; intros date_string;
    cbn [cutter_loop].
  - discriminate.
  - destruct (direction_loop date_finder date_props locale tokens cutter
                [false; true] date_string) as [[s [d'|]]|e] eqn:Hdir;
      cbn [rbind].
    + intros [= <-]. exists s. by eapply direction_loop_found.
    + apply IH.
    + discriminate.
Qed.

Lemma resolve_found date_finder locale date_string date_props v :
  resolve date_finder locale date_string date_props = Ok (Some v) ->
  exists s d,
    parse_date_string date_finder s date_props locale = Ok (Some d)
    /\ v = as_yielded d.
Proof.
  unfold resolve, parse_with_retry.
  destruct (cutter_loop _ _ _ _ _ _) as [[d|]|e] eqn:Hloop.
  - destruct (check_date_parts_are_in_date d date_props) as [[]|e]; simpl;
      try discriminate.
    destruct (isoformat_raises d); [discriminate|].
    intros [= <-]. apply cutter_loop_found in Hloop as [s Hs]. eauto.
  - discriminate.
  - destruct e; discriminate.
Qed.

Lemma loop_body_produced date_finder locale st i :
  Forall (fun r => from_parser date_finder locale (fst r)) (produced st) ->
  Forall (fun r => from_parser date_finder locale (fst r))
    (produced (loop_body date_finder locale st i)).
Proof.
  intros H. unfold loop_body.
  destruct (failure st); [done|].
  destruct (possible_dates st !! i) as [c|]; [|done].
  destruct (filter_chain _ _ _ _) as [dates [[[s p]|]|e]]; simpl; try done.
  destruct (resolve _ _ _ _) as [[v|]|e] eqn:Hres; simpl; try done.
  apply Forall_app; split; [done|].
  apply Forall_singleton. simpl.
  apply resolve_found in Hres as (s' & d & Hp & ->).
  by exists s', p, d.
Qed.

(** ** Scores of the annotations *)

Lemma annotate_score text threshold raw_date a :
  annotate text threshold raw_date = Ok (Some a) ->
  (threshold <= score a)%Q
  /\ exists feature_list, score a = snd (predict_proba MODEL_DATE feature_list).
Proof.
  unfold annotate. destruct raw_date as [d idx|d]; [|discriminate].
  destruct (get_date_features _ _ _ _ _ _ _ _ _) as [row|e]; [|discriminate].
  cbn [rbind].
  destruct (fill_features _ _ _ _) as [fl|e]; [|discriminate].
  cbn [rbind].
  destruct (Qle_bool threshold _) eqn:Hle; [|discriminate].
  intros [= <-]. simpl. split; [by apply Qle_bool_iff|by exists fl].
Qed.

Lemma annotate_all_scores text threshold raws ended :
  Forall
    (fun a =>
       (threshold <= score a)%Q
       /\ exists feature_list,
            score a = snd (predict_proba MODEL_DATE feature_list))
    (yielded (annotate_all text threshold raws ended)).
Proof.
  induction raws as [|raw raws IH]; simpl; [constructor|].
  destruct (annotate text threshold raw) as [[a|]|e] eqn:Ha; simpl.
  - constructor; [by eapply annotate_score|done].
  - done.
  - constructor.
Qed.

(** C1.  When the classifier only returns probabilities between 0 and 1,
    every annotation that [get_date_annotations] yields has a score between
    0 and 1 that is at least the threshold. *)
Theorem annotation_score_in_range_above_threshold
    text strict locale base_date threshold :
  (forall feature_list,
     (0 <= snd (predict_proba MODEL_DATE feature_list))%Q
     /\ (snd (predict_proba MODEL_DATE feature_list) <= 1)%Q) ->
  Forall
    (fun a => (0 <= score a)%Q /\ (score a <= 1)%Q /\ (threshold <= score a)%Q)
    (yielded (get_date_annotations text strict locale base_date threshold)).
Proof.
  intros Hproba. unfold get_date_annotations.
  eapply Forall_impl; [apply annotate_all_scores|].
  intros a [Hthr [fl Hfl]]. rewrite Hfl in *.
  destruct (Hproba fl). auto.
Qed.

(** ** Word counting with and without a character set *)

Lemma decimal_char_plain c :
  Py.isdecimal c = true ->
  Py.int_space c = false /\ c <> "-"%char /\ c <> "+"%char /\ c <> "_"%char.
Proof.
  destruct c as [[] [] [] [] [] [] [] []]; vm_compute; intros H;
    try discriminate H; repeat split; discriminate.
Qed.

Lemma int_rstrip_decimals s :
  all_chars Py.isdecimal s = true -> Py.int_rstrip s = s.
Proof.
  induction s as [|c s IH]; simpl; [done|].
  intros [Hc Hs]%andb_prop. rewrite (IH Hs).
  destruct s; [|done].
  by destruct (decimal_char_plain c Hc) as [-> _].
Qed.

Lemma int_strip_decimals s :
  all_chars Py.isdecimal s = true -> Py.int_rstrip (Py.int_lstrip s) = s.
Proof.
  intros H.
  assert (Py.int_lstrip s = s) as ->; [|by apply int_rstrip_decimals].
  destruct s as [|c s]; simpl; [done|].
  simpl in H. apply andb_prop in H as [Hc _].
  by destruct (decimal_char_plain c Hc) as [-> _].
Qed.

Lemma ungroup_decimals s :
  all_chars Py.isdecimal s = true -> Py.ungroup true s = Some s.
Proof.
  induction s as [|c s IH]; simpl; [done|].
  intros [Hc Hs]%andb_prop.
  destruct (decimal_char_plain c Hc) as (_ & _ & _ & Hu).
  destruct (Ascii.eqb_spec c "_"); [done|].
  by rewrite (IH Hs).
Qed.

Lemma digits_value_decimals s acc :
  all_chars Py.isdecimal s = true -> exists v, Py.digits_value acc s = Some v.
Proof.
  revert acc. induction s as [|c s IH]; intros acc; simpl; [eauto|].
  intros [-> Hs]%andb_prop. by apply IH.
Qed.

(** On a non-empty run of decimal digits, [int] is the value of the digits
    when there are at most [int_max_str_digits] of them, and ValueError
    beyond. *)
Lemma int_of_decimals s :
  s <> "" -> all_chars Py.isdecimal s = true ->
  exists v,
    Py.digits_value 0 s = Some v
    /\ Py.int s = if Py.int_max_str_digits <? Py.len s
                  then Raise ValueError else Ok v.
Proof.
  intros Hne Hall. unfold Py.int. rewrite (int_strip_decimals s Hall).
  destruct (digits_value_decimals s 0 Hall) as [v Hv]. exists v.
  split; [exact Hv|]. revert Hv.
  destruct s as [|c s]; [done|].
  pose proof Hall as Hall'. simpl in Hall'.
  apply andb_prop in Hall' as [Hc Hs].
  destruct (decimal_char_plain c Hc) as (_ & Hm & Hp & Hu).
  assert (match String c s with
          | String "-" r => (-1, r)
          | String "+" r => (1, r)
          | _ => (1, String c s)
          end = (1, String c s)) as ->.
  { clear -Hc. destruct c as [[] [] [] [] [] [] [] []];
      try discriminate Hc; reflexivity. }
  intros Hv. cbn [Py.ungroup]. destruct (Ascii.eqb_spec c "_"); [done|].
  rewrite (ungroup_decimals s Hs). cbn [option_map].
  rewrite Hv.
  destruct (Py.int_max_str_digits <? Py.len (String c s)); [done|].
  f_equal. lia.
Qed.

(** [int] accepts every non-empty run of at most [int_max_str_digits]
    decimal digits. *)
Lemma int_decimals s :
  s <> "" -> all_chars Py.isdecimal s = true ->
  Py.len s <= Py.int_max_str_digits ->
  exists v, Py.int s = Ok v.
Proof.
  intros Hne Hall Hlen.
  destruct (int_of_decimals s Hne Hall) as (v & _ & ->).
  exists v. by destruct (Z.ltb_spec Py.int_max_str_digits (Py.len s)); [lia|].
Qed.

(** [int] refuses a longer run. *)
Lemma int_too_long s :
  all_chars Py.isdecimal s = true ->
  Py.int_max_str_digits < Py.len s ->
  Py.int s = Raise ValueError.
Proof.
  intros Hall Hlen.
  assert (s <> "") as Hne by (intros ->; vm_compute in Hlen; discriminate).
  destruct (int_of_decimals s Hne Hall) as (v & _ & ->).
  by destruct (Z.ltb_spec Py.int_max_str_digits (Py.len s)); [|lia].
Qed.

Lemma leading_digits_decimal s :
  all_chars Py.isdecimal (Re.leading_digits s) = true.
Proof.
  induction s as [|c s IH]; simpl; [done|].
  destruct (Py.isdecimal c) eqn:Hc; simpl; [|done]. by rewrite Hc.
Qed.

Lemma count_word_with_set chars n wrd :
  (overlong_number chars wrd = true
   /\ count_word (AlphabetSet chars) n wrd = Raise ValueError)
  \/ (overlong_number chars wrd = false
      /\ exists n', count_word (AlphabetSet chars) n wrd = Ok n').
Proof.
  unfold count_word, overlong_number.
  destruct wrd as [|c0 rest]; [right; eauto|].
  case_bool_decide; cbn [negb andb].
  - right. split; [done|].
    destruct rest as [|c1 rest]; [eauto|].
    destruct (_ && _); eauto.
  - destruct (String.eqb_spec (Re.leading_digits (String c0 rest)) "")
      as [->|Hne]; [right; eauto|].
    destruct (int_of_decimals _ Hne (leading_digits_decimal _))
      as (v & _ & ->).
    destruct (Py.int_max_str_digits <? Py.len _); [left; done|right].
    split; [done|]. cbn [rbind]. destruct (v <? 31); eauto.
Qed.

Lemma count_words_loop_with_set chars wrds n :
  (Exists (fun wrd => overlong_number chars wrd = true) wrds
   /\ count_words_loop (AlphabetSet chars) n wrds = Raise ValueError)
  \/ (Forall (fun wrd => overlong_number chars wrd = false) wrds
      /\ exists n', count_words_loop (AlphabetSet chars) n wrds = Ok n').
Proof.
  revert n. induction wrds as [|wrd wrds IH]; intros n; simpl.
  - right. split; [constructor|eauto].
  - destruct (count_word_with_set chars n wrd) as [[Hw ->]|[Hw [n' ->]]];
      cbn [rbind].
    + left. split; [by apply Exists_cons_hd|done].
    + destruct (IH n') as [[Hex Hr]|[Hall Hr]].
      * left. split; [by apply Exists_cons_tl|done].
      * right. split; [by constructor|done].
Qed.

Lemma count_words_loop_default wrds n :
  (Exists (fun wrd => wrd <> "") wrds
   /\ count_words_loop AlphabetFalse n wrds = Raise TypeError)
  \/ (Forall (fun wrd => wrd = "") wrds
      /\ count_words_loop AlphabetFalse n wrds = Ok n).
Proof.
  induction wrds as [|wrd wrds IH]; simpl.
  - right. split; [constructor|done].
  - destruct wrd as [|c0 rest]; simpl.
    + destruct IH as [[Hex Hr]|[Hall Hr]].
      * left. split; [by apply Exists_cons_tl|done].
      * right. split; [by constructor|done].
    + left. split; [by apply Exists_cons_hd|done].
Qed.

(** C10, amended.  With [count_words=True] and the default
    [alphabet_char_set] ([False]), [get_date_features] raises TypeError
    exactly when the candidate text has a non-empty word.  With a character
    set it raises ValueError when some word that does not begin with a
    character of the set begins with more than 4300 decimal digits, and
    returns a feature vector otherwise. *)
Theorem count_words_needs_alphabet
    text start_index end_index characters include_bigrams window norm :
  (get_date_features text start_index end_index characters AlphabetFalse
     include_bigrams window norm true = Raise TypeError
   <-> exists wrd,
         wrd ∈ split_date_words (Py.slice text start_index end_index)
         /\ wrd <> "")
  /\ (forall chars,
        ((exists wrd,
            wrd ∈ split_date_words (Py.slice text start_index end_index)
            /\ overlong_number chars wrd = true) ->
         get_date_features text start_index end_index characters
           (AlphabetSet chars) include_bigrams window norm true
         = Raise ValueError)
        /\ ((forall wrd,
               wrd ∈ split_date_words (Py.slice text start_index end_index) ->
               overlong_number chars wrd = false) ->
            exists char_vec,
              get_date_features text start_index end_index characters
                (AlphabetSet chars) include_bigrams window norm true
              = Ok char_vec)).
Proof.
  split.
  - unfold get_date_features.
    destruct (count_words_loop_default
                (split_date_words (Py.slice text start_index end_index))
                {| numbers_above_31 := 0; numbers_below_31 := 0;
                   words := 0; cap_words := 0 |}) as [[Hex ->]|[Hall ->]];
      cbn [rbind].
    + split; [|done]. intros _. by apply Exists_exists in Hex.
    + split; [discriminate|].
      intros (wrd & Hin & Hne). rewrite Forall_forall in Hall.
      by specialize (Hall wrd Hin).
  - intros chars. unfold get_date_features.
    destruct (count_words_loop_with_set chars
                (split_date_words (Py.slice text start_index end_index))
                {| numbers_above_31 := 0; numbers_below_31 := 0;
                   words := 0; cap_words := 0 |})
      as [[Hex ->]|[Hall [n ->]]]; cbn [rbind].
    + split; [done|]. intros Hnone. exfalso.
      apply Exists_exists in Hex as (wrd & Hin & Hw).
      specialize (Hnone wrd Hin). congruence.
    + split; [|eauto]. intros (wrd & Hin & Hw). exfalso.
      rewrite Forall_forall in Hall. specialize (Hall wrd Hin). congruence.
Qed.

(** ** The date-parts check against its description *)

(** Membership in a list that is written out. *)
Ltac member :=
  first [apply list_elem_of_here | apply list_elem_of_further; member].

(** The loop over the five components, unrolled. *)
Lemma reassemble_unrolled (combined : list (option Z)) (date : datetime) :
  fold_left (reassemble_step combined) (date_values date) ([], []) =
  (opt_list (year_is_matched combined date)
     (if bool_decide (Some (short_year (year date)) ∈ combined)
      then short_year (year date) else year date)
   ++ opt_list (is_matched combined (month date)) (month date)
   ++ opt_list (is_matched combined (day date)) (day date)
   ++ opt_list (is_matched combined (hour date)) (hour date)
   ++ opt_list (is_matched combined (minute date)) (minute date),
   opt_list (year_is_matched combined date) ("year", year date)
   ++ opt_list (is_matched combined (month date)) ("month", month date)
   ++ opt_list (is_matched combined (day date)) ("day", day date)
   ++ opt_list (is_matched combined (hour date)) ("hour", hour date)
   ++ opt_list (is_matched combined (minute date)) ("minute", minute date)).
Proof.
  unfold year_is_matched, is_matched, date_values.
  destruct (bool_decide (Some (short_year (year date)) ∈ combined)) eqn:E1;
    destruct (bool_decide (Some (year date) ∈ combined)) eqn:E2;
    destruct (bool_decide (Some (month date) ∈ combined)) eqn:E3;
    destruct (bool_decide (Some (day date) ∈ combined)) eqn:E4;
    destruct (bool_decide (Some (hour date) ∈ combined)) eqn:E5;
    destruct (bool_decide (Some (minute date) ∈ combined)) eqn:E6;
    cbn; rewrite ?E1, ?E2; cbn; rewrite ?E3; cbn; rewrite ?E4; cbn;
    rewrite ?E5; cbn; rewrite ?E6; reflexivity.
Qed.

(** The components left out of [reassembled_date], among the first three. *)
Lemma diff_units_unrolled (by_ bm bd bh bmi : bool) (y m d h mi : Z) :
  existsb (fun k => negb (String.eqb k ""))
    (filter (fun k => k ∈ take 3 units_of_time)
       (elements
          (list_to_set (dict_keys (date_values (Sample.dt y m d h mi)))
             ∖ list_to_set
                 (dict_keys
                    (opt_list by_ ("year", y) ++ opt_list bm ("month", m)
                     ++ opt_list bd ("day", d) ++ opt_list bh ("hour", h)
                     ++ opt_list bmi ("minute", mi))) : gset string)))
  = negb by_ || negb bm || negb bd.
Proof.
  destruct by_, bm, bd, bh, bmi; vm_compute; reflexivity.
Qed.

Lemma removeable_members (combined : list (option Z)) (date : datetime) x :
  x ∈ combined ->
  x ∉ map Some (component_values date) ->
  x ∈ map Some
        (fst (fold_left (reassemble_step combined) (date_values date) ([], [])))
  <-> x = Some (short_year (year date)).
Proof.
  intros Hx Hnot. rewrite reassemble_unrolled. cbn [fst].
  unfold year_is_matched, is_matched, component_values in *.
  rewrite !fmap_app, !elem_of_app.
  split.
  - intros H.
    assert (forall b v, x ∈ Some <$> opt_list b v -> x = Some v) as Hopt.
    { intros [] v Hv; simpl in Hv; [by apply list_elem_of_singleton in Hv|].
      by apply elem_of_nil in Hv. }
    assert (forall v, v ∈ [year date; month date; day date; hour date; minute date]
                      -> x <> Some v) as Hv.
    { intros v Hin ->. apply Hnot. by apply list_elem_of_fmap_2. }
    destruct H as [H|[H|[H|[H|H]]]]; apply Hopt in H.
    + case_bool_decide; [done|]. exfalso. eapply Hv; [|done]. member.
    + exfalso. eapply Hv; [|done]. member.
    + exfalso. eapply Hv; [|done]. member.
    + exfalso. eapply Hv; [|done]. member.
    + exfalso. eapply Hv; [|done]. member.
  - intros ->. left.
    rewrite bool_decide_eq_true_2 by done. simpl. member.
Qed.

Lemma existsb_elem_of {A} (f : A -> bool) (l : list A) :
  existsb f l = true <-> exists x, x ∈ l /\ f x = true.
Proof.
  rewrite existsb_exists. split; intros (x & H1 & H2); exists x;
    (split; [by apply list_elem_of_In|done]).
Qed.

Lemma check_tail_spec (combined : list (option Z)) (date : datetime) :
  (let '(removeable, reassembled_date) :=
     fold_left (reassemble_step combined) (date_values date) ([], []) in
   if existsb (fun k => negb (String.eqb k ""))
        (filter (fun k => k ∈ take 3 units_of_time)
           (elements
              (list_to_set (dict_keys (date_values date))
                 ∖ list_to_set (dict_keys reassembled_date) : gset string)))
   then (match
            filter (fun digit => digit ∉ map Some removeable)
              (elements
                 (list_to_set combined
                    ∖ list_to_set
                        (map (fun kv => Some (snd kv)) (date_values date))
                  : gset (option Z)))
          with
          | [] => Ok true
          | _ => Ok false
          end)
   else Ok true)
  = Ok (negb (unmatched_on_both_sides combined date)).
Proof.
  pose proof (removeable_members combined date) as Hrem.
  destruct (fold_left (reassemble_step combined) (date_values date) ([], []))
    as [removeable reassembled_date] eqn:Hfold.
  rewrite reassemble_unrolled in Hfold. injection Hfold as <- <-.
  cbn [fst] in Hrem.
  unfold unmatched_on_both_sides.
  pose proof (diff_units_unrolled (year_is_matched combined date)
                (is_matched combined (month date)) (is_matched combined (day date))
                (is_matched combined (hour date)) (is_matched combined (minute date))
                (year date) (month date) (day date) (hour date) (minute date))
    as Hunits.
  change (date_values (Sample.dt (year date) (month date) (day date)
                         (hour date) (minute date)))
    with (date_values date) in Hunits.
  rewrite Hunits. clear Hunits.
  destruct (negb (year_is_matched combined date)
            || negb (is_matched combined (month date))
            || negb (is_matched combined (day date))); [|done].
  cbn [andb].
  match goal with |- context [filter ?P (elements ?S)] =>
    set (diff_digits := filter P (elements S)) end.
  assert (forall x, x ∈ diff_digits
                    <-> x ∈ combined /\ literal_is_unmatched date x = true)
    as Hdiff.
  { intros x. unfold diff_digits, literal_is_unmatched.
    rewrite list_elem_of_filter, elem_of_elements, elem_of_difference,
      !elem_of_list_to_set.
    change (map (fun kv : string * Z => Some (snd kv)) (date_values date))
      with (map Some (component_values date)).
    rewrite andb_true_iff, !bool_decide_eq_true.
    split.
    - intros (Hnr & Hin & Hnv). repeat split; try done.
      intros Heq. apply Hnr. by apply Hrem.
    - intros (Hin & Hnv & Hne). repeat split; try done.
      intros Hr. apply Hne. by apply Hrem. }
  destruct (existsb (literal_is_unmatched date) combined) eqn:Hex.
  - apply existsb_elem_of in Hex as (x & Hin & Hx).
    assert (x ∈ diff_digits) as Hmem by (by apply Hdiff).
    destruct diff_digits; [by apply elem_of_nil in Hmem|done].
  - destruct diff_digits as [|x rest]; [done|].
    assert (existsb (literal_is_unmatched date) combined = true); [|congruence].
    apply existsb_elem_of. exists x. apply Hdiff. left.
Qed.

(** C3, amended.  [check_date_parts_are_in_date] rejects a date exactly when
    the candidate names months and the month of the date is none of them, or
    some component among year, month, day is unmatched while some literal
    value is unmatched; a token that is not an integer literal raises
    instead.  For the digits 2023, 7, 15 it accepts 2023-07-15 and rejects
    2023-07-16. *)
Theorem check_date_parts_spec :
  (forall date date_props,
     check_date_parts_are_in_date date date_props
     = check_with_month_rule date date_props)
  /\ check_date_parts_are_in_date (Sample.dt 2023 7 15 0 0)
       (Sample.props ["2023"; "7"; "15"] [] [] [] [] []) = Ok true
  /\ check_date_parts_are_in_date (Sample.dt 2023 7 16 0 0)
       (Sample.props ["2023"; "7"; "15"] [] [] [] [] []) = Ok false.
Proof.
  split; [|split; vm_compute; reflexivity].
  intros date date_props.
  unfold check_date_parts_are_in_date, check_with_month_rule.
  destruct (mapR Py.int (digits date_props)) as [ds|e]; [|done].
  cbn [rbind].
  destruct (mapR ordinal_to_cardinal (digits_modifier date_props)) as [cs|e];
    [|done].
  cbn [rbind].
  change (dict_get "month" (date_values date)) with (Some (month date)).
  unfold month_is_contradicted, literal_values.
  destruct (date_prop_months date_props) as [|m0 ms]; cbv zeta iota beta.
  - apply check_tail_spec.
  - destruct (negb (month date =? 0)
              && bool_decide (Some (month date) ∉ m0 :: ms)); [done|].
    apply check_tail_spec.
Qed.

(** ** The retry loop as a list of attempts *)

Lemma first_parse_app date_finder date_props locale l1 l2 :
  first_parse date_finder date_props locale (l1 ++ l2) =
  (found <-r first_parse date_finder date_props locale l1 ;;
   match found with
   | Some d => Ok (Some d)
   | None => first_parse date_finder date_props locale l2
   end).
Proof.
  induction l1 as [|s l1 IH]; simpl; [done|].
  destruct (try_parse date_finder s date_props locale) as [[d|]|e]; simpl; done.
Qed.

Lemma first_parse_twice date_finder date_props locale s l :
  first_parse date_finder date_props locale (s :: s :: l)
  = first_parse date_finder date_props locale (s :: l).
Proof.
  simpl.
  destruct (try_parse date_finder s date_props locale) as [[d|]|e] eqn:H;
    simpl; rewrite ?H; done.
Qed.

(** A round of the outer loop with a positive cutter: the back trim, then
    the front trim. *)
Lemma cutter_loop_trims date_finder date_props locale tokens cutters
    date_string :
  Forall (fun k => 0 < k)%nat cutters ->
  cutter_loop date_finder date_props locale tokens cutters date_string
  = first_parse date_finder date_props locale
      (flat_map (fun k => [drop_back k tokens; drop_front k tokens]) cutters).
Proof.
  intros Hpos. revert date_string.
  induction Hpos as [|k cutters Hk Hpos IH]; intros date_string;
    cbn [cutter_loop flat_map]; [done|].
  cbn [direction_loop app first_parse].
  rewrite bool_decide_eq_true_2 by done.
  fold (drop_back k tokens). fold (drop_front k tokens).
  destruct (try_parse date_finder (drop_back k tokens) date_props locale)
    as [[d|]|e]; cbn [rbind]; try done.
  destruct (try_parse date_finder (drop_front k tokens) date_props locale)
    as [[d|]|e]; cbn [rbind]; first [done | apply IH].
Qed.

(** The nested loops make the attempts of [attempts_back_first], in that
    order. *)
Lemma retry_is_first_parse date_finder date_string date_props locale :
  parse_with_retry date_finder date_string date_props locale
  = first_parse date_finder date_props locale
      (attempts_back_first date_string).
Proof.
  unfold parse_with_retry, attempts_back_first.
  destruct (Py.split date_string) as [|t tokens] eqn:Hsplit; [done|].
  set (toks := t :: tokens).
  change (length toks) with (S (length tokens)).
  rewrite <- first_parse_twice.
  cbn [seq cutter_loop direction_loop].
  rewrite bool_decide_eq_false_2 by lia.
  change (first_parse date_finder date_props locale
            (date_string :: date_string :: ?l))
    with (first_parse date_finder date_props locale
            ([date_string; date_string] ++ l)).
  rewrite first_parse_app. cbn [first_parse].
  destruct (try_parse date_finder date_string date_props locale)
    as [[d|]|e] eqn:Htry; cbn [rbind]; rewrite ?Htry; cbn [rbind]; try done.
  replace (S (length tokens) - 1)%nat with (length tokens) by lia.
  apply cutter_loop_trims.
  apply Forall_forall. intros k Hk%list_elem_of_In%in_seq. lia.
Qed.

(** C2, amended.  The retry loop makes its attempts in this order: the
    whole string, then for each trim length from 1 to n-1 the string without
    its last tokens and, if that fails, the string without its first tokens;
    the first attempt that finds a date or raises decides, and a string
    without tokens is not parsed at all.  When no attempt finds a date the
    candidate is dropped. *)
Theorem parse_with_retry_order date_finder date_string date_props locale :
  parse_with_retry date_finder date_string date_props locale
  = first_parse date_finder date_props locale
      (attempts_back_first date_string)
  /\ (first_parse date_finder date_props locale
        (attempts_back_first date_string) = Ok None ->
      resolve date_finder locale date_string date_props = Ok None).
Proof.
  split; [apply retry_is_first_parse|].
  intros Hnone. unfold resolve. by rewrite retry_is_first_parse, Hnone.
Qed.

(** ** Exceptions of the parser *)

(** C8.  Whatever exception the parser raises on the whole string of a
    candidate, a locale error or any other, the handlers do not treat it:
    reading [locale.Error] on the locale object fails, and AttributeError
    leaves the retry loop and [resolve]. *)
Theorem parser_exception_escapes date_finder locale date_string date_props e :
  Py.split date_string <> [] ->
  parse_date_string date_finder date_string date_props locale = Raise e ->
  resolve date_finder locale date_string date_props = Raise AttributeError.
Proof.
  intros Htok Hraise. unfold resolve.
  rewrite retry_is_first_parse. unfold attempts_back_first.
  destruct (Py.split date_string); [done|].
  cbn [first_parse]. unfold try_parse. rewrite Hraise. done.
Qed.

(** ** The "day of" merge *)

Lemma index_previous {A} (l : list A) (i : nat) :
  (0 < i)%nat -> Py.index l (Z.of_nat i - 1) = l !! (i - 1)%nat.
Proof.
  intros Hi. unfold Py.index.
  destruct (Z.ltb_spec (Z.of_nat i - 1) 0) as [H|H]; [lia|].
  f_equal. lia.
Qed.

Lemma index_last_exists {A} (l : list A) (x : A) :
  l !! 0%nat = Some x -> is_Some (Py.index l (Z.of_nat 0 - 1)).
Proof.
  intros Hx. unfold Py.index.
  change (Z.of_nat 0 - 1 <? 0) with true. cbv iota.
  destruct l as [|y l]; [done|].
  destruct (Z.leb_spec 0 (Z.of_nat 0 - 1 + Z.of_nat (length (y :: l))))
    as [H|H]; [|simpl length in H; lia].
  apply lookup_lt_is_Some. simpl length in *. lia.
Qed.

(** C4, amended.  The merge never fires for the first candidate, and never
    for a candidate whose extra tokens contain neither "of" nor "OF": with
    "Of", "oF" or no such token the date string and the candidates stay as
    they are.  For a later candidate whose extra tokens contain "of" or
    "OF", after a rejected candidate with exactly one digit modifier, that
    modifier with every "st", "nd", "rd" and "th" removed is put in front
    of the date string; the modifier moves from the previous candidate to
    the current one. *)
Theorem day_of_merge_on_of
    i possible_dates possible_matched possible_date :
  possible_dates !! i = Some possible_date ->
  (i = 0%nat ->
   day_of_merge i possible_dates possible_matched possible_date
   = Ok (cand_string possible_date, possible_dates))
  /\ ("of" ∉ extra_tokens (cand_props possible_date) ->
      "OF" ∉ extra_tokens (cand_props possible_date) ->
      day_of_merge i possible_dates possible_matched possible_date
      = Ok (cand_string possible_date, possible_dates))
  /\ (forall previous modifier,
        "of" ∈ extra_tokens (cand_props possible_date)
        \/ "OF" ∈ extra_tokens (cand_props possible_date) ->
        (0 < i)%nat ->
        possible_dates !! (i - 1)%nat = Some previous ->
        possible_matched !! (i - 1)%nat = Some false ->
        digits_modifier (cand_props previous) = [modifier] ->
        day_of_merge i possible_dates possible_matched possible_date
        = Ok (strip_ordinal modifier +:+ cand_string possible_date,
              <[(i - 1)%nat :=
                  with_props previous
                    (with_digits_modifier (cand_props previous) [])]>
                (<[i :=
                     with_props possible_date
                       (with_digits_modifier (cand_props possible_date)
                          (digits_modifier (cand_props possible_date)
                           ++ [modifier]))]>
                   possible_dates))).
Proof.
  intros Hcur. split; [|split].
  - intros ->. unfold day_of_merge.
    destruct (_ || _); [|done].
    destruct (index_last_exists _ _ Hcur) as [previous ->].
    by rewrite bool_decide_eq_false_2 by lia.
  - intros Hof HOF. unfold day_of_merge.
    by rewrite !bool_decide_eq_false_2 by done.
  - intros previous modifier Hof Hi Hprev Hrej Hmod. unfold day_of_merge.
    assert (bool_decide ("of" ∈ extra_tokens (cand_props possible_date))
            || bool_decide ("OF" ∈ extra_tokens (cand_props possible_date))
            = true) as ->.
    { apply orb_true_iff. rewrite !bool_decide_eq_true. done. }
    rewrite (index_previous _ _ Hi), Hprev.
    rewrite bool_decide_eq_true_2 by done.
    rewrite Hrej, Hmod. reflexivity.
Qed.

(** ** What the filter chain leaves alone *)

Lemma kept_insert (initial current : list candidate) i c c' :
  Forall2 kept initial current ->
  current !! i = Some c ->
  (forall before, kept before c -> kept before c') ->
  Forall2 kept initial (<[i := c']> current).
Proof.
  intros H. revert i. induction H as [|x y l k Hxy H IH]; intros i Hc Hstep.
  - done.
  - destruct i as [|i]; simpl in *.
    + injection Hc as ->. constructor; auto.
    + constructor; [done|]. by apply IH.
Qed.

Lemma day_of_merge_kept initial i dates matched cur s dates' :
  Forall2 kept initial dates ->
  dates !! i = Some cur ->
  day_of_merge i dates matched cur = Ok (s, dates') ->
  Forall2 kept initial dates'
  /\ exists cur', dates' !! i = Some cur'
                  /\ frame cur' = frame cur
                  /\ extra_tokens (cand_props cur')
                     = extra_tokens (cand_props cur).
Proof.
  intros Hkept Hcur. unfold day_of_merge.
  assert (Forall2 kept initial dates
          /\ exists cur', dates !! i = Some cur'
                          /\ frame cur' = frame cur
                          /\ extra_tokens (cand_props cur')
                             = extra_tokens (cand_props cur)) as Hsame
    by (split; [done|by exists cur]).
  destruct (_ || _); [|by intros [= <- <-]].
  destruct (Py.index dates (Z.of_nat i - 1)) as [previous|] eqn:Hprev;
    [|done].
  case_bool_decide as Hi; [|by intros [= <- <-]].
  destruct (matched !! (i - 1)%nat) as [m|]; [|done].
  destruct (negb m && _); [|by intros [= <- <-]].
  destruct (list_pop _) as [[modifier rest]|]; [|done].
  intros [= <- <-].
  rewrite (index_previous _ _ Hi) in Hprev.
  split.
  - eapply kept_insert.
    + eapply kept_insert; [done|done|]. intros before [Hf He]. done.
    + rewrite list_lookup_insert_ne by lia. done.
    + intros before [Hf He]. done.
  - eexists. split.
    + rewrite list_lookup_insert_ne by lia.
      apply list_lookup_insert_eq. by eapply lookup_lt_Some.
    + done.
Qed.

Lemma filter_chain_kept initial i dates matched cur :
  Forall2 kept initial dates ->
  dates !! i = Some cur ->
  Forall2 kept initial (fst (filter_chain i dates matched cur)).
Proof.
  intros Hkept Hcur. unfold filter_chain.
  destruct (day_of_merge i dates matched cur) as [[s dates']|e] eqn:Hmerge;
    [|done].
  destruct (day_of_merge_kept _ _ _ _ _ _ _ Hkept Hcur Hmerge)
    as (Hkept' & cur' & Hcur' & _).
  rewrite Hcur'.
  destruct (rejected_before_cleanup _ _); [done|].
  assert (Forall2 kept initial
            (<[i := with_props cur' (with_extra_tokens (cand_props cur') [])]>
               dates')) as Hclean.
  { eapply kept_insert; [done|done|].
    intros before [Hf He]. split; [done|by right]. }
  by destruct (rejected_after_cleanup _ _).
Qed.

Lemma loop_body_kept initial date_finder locale st i :
  Forall2 kept initial (possible_dates st) ->
  Forall2 kept initial (possible_dates (loop_body date_finder locale st i)).
Proof.
  intros Hkept. unfold loop_body.
  destruct (failure st); [done|].
  destruct (possible_dates st !! i) as [cur|] eqn:Hcur; [|done].
  pose proof (filter_chain_kept _ _ _ (possible_matched st) _ Hkept Hcur) as H.
  destruct (filter_chain _ _ _ _) as [dates [[[s p]|]|e]]; simpl in *;
    try done.
  by destruct (resolve _ _ _ _) as [[v|]|e].
Qed.

Lemma kept_refl (l : list candidate) : Forall2 kept l l.
Proof. apply Forall2_same_length_lookup_2; [done|].
  intros j x y Hx Hy. rewrite Hx in Hy. injection Hy as <-.
  split; [done|by left]. Qed.

(** Replacing one element of a list of lists permutes the concatenation
    accordingly. *)
Lemma concat_insert {A B} (f : B -> list A) (l : list B) i x y :
  l !! i = Some x ->
  f x ++ concat (map f (<[i := y]> l)) ≡ₚ f y ++ concat (map f l).
Proof.
  revert i. induction l as [|z l IH]; intros i Hx; [done|].
  destruct i as [|i]; simpl in *.
  - injection Hx as ->. apply Permutation_app_swap_app.
  - rewrite Permutation_app_swap_app, (IH i Hx).
    apply Permutation_app_swap_app.
Qed.

Lemma day_of_merge_modifiers i dates matched cur s dates' :
  dates !! i = Some cur ->
  day_of_merge i dates matched cur = Ok (s, dates') ->
  all_modifiers dates' ≡ₚ all_modifiers dates.
Proof.
  intros Hcur. unfold day_of_merge.
  destruct (_ || _); [|by intros [= <- <-]].
  destruct (Py.index dates (Z.of_nat i - 1)) as [previous|] eqn:Hprev;
    [|done].
  case_bool_decide as Hi; [|by intros [= <- <-]].
  destruct (matched !! (i - 1)%nat) as [m|]; [|done].
  destruct (negb m && _) eqn:Hcond; [|by intros [= <- <-]].
  apply andb_prop in Hcond as [_ Hone%bool_decide_eq_true].
  destruct (digits_modifier (cand_props previous)) as [|modifier [|? ?]] eqn:Hmod;
    try discriminate Hone.
  cbn. intros [= <- <-].
  rewrite (index_previous _ _ Hi) in Hprev.
  unfold all_modifiers.
  set (f := fun c : candidate => digits_modifier (cand_props c)).
  set (cur' := with_props cur _). set (prev' := with_props previous _).
  assert (<[i := cur']> dates !! (i - 1)%nat = Some previous) as Hprev1
    by (by rewrite list_lookup_insert_ne by lia).
  pose proof (concat_insert f _ _ _ prev' Hprev1) as H2.
  pose proof (concat_insert f _ _ _ cur' Hcur) as H1.
  change (f prev') with (@nil string) in H2.
  change (f cur') with (f cur ++ [modifier]) in H1.
  unfold f at 1 in H2. rewrite Hmod in H2. simpl in H2.
  rewrite <- H2, <- app_assoc in H1.
  apply Permutation_app_inv_l in H1. simpl in H1.
  by apply Permutation_cons_inv in H1.
Qed.

Lemma filter_chain_modifiers i dates matched cur :
  dates !! i = Some cur ->
  all_modifiers (fst (filter_chain i dates matched cur)) ≡ₚ all_modifiers dates.
Proof.
  intros Hcur. unfold filter_chain.
  destruct (day_of_merge i dates matched cur) as [[s dates']|e] eqn:Hmerge;
    [|done].
  pose proof (day_of_merge_modifiers _ _ _ _ _ _ Hcur Hmerge) as Hperm.
  destruct (day_of_merge_kept _ _ _ _ _ _ _ (kept_refl dates) Hcur Hmerge)
    as (_ & cur' & Hcur' & _).
  rewrite Hcur'.
  destruct (rejected_before_cleanup _ _); [done|].
  assert (all_modifiers
            (<[i := with_props cur' (with_extra_tokens (cand_props cur') [])]>
               dates')
          = all_modifiers dates') as Hclean.
  { unfold all_modifiers. f_equal.
    change (map ?f ?l) with (f <$> l).
    rewrite list_fmap_insert. apply list_insert_id.
    rewrite list_lookup_fmap, Hcur'. done. }
  destruct (rejected_after_cleanup _ _); simpl; by rewrite Hclean.
Qed.

Lemma loop_body_modifiers date_finder locale st i :
  all_modifiers (possible_dates (loop_body date_finder locale st i))
  ≡ₚ all_modifiers (possible_dates st).
Proof.
  unfold loop_body.
  destruct (failure st); [done|].
  destruct (possible_dates st !! i) as [cur|] eqn:Hcur; [|done].
  pose proof (filter_chain_modifiers _ _ (possible_matched st) _ Hcur) as H.
  destruct (filter_chain _ _ _ _) as [dates [[[s p]|]|e]]; simpl in *;
    try done.
  by destruct (resolve _ _ _ _) as [[v|]|e].
Qed.

(** C7, amended.  After the loop every candidate still has the string, the
    span, the digits, the months, the days and the delimiters that the
    locator gave it, and its extra tokens are as given or cleared; the digit
    modifiers are only moved between candidates, none is added or lost. *)
Theorem loop_keeps_located_fields text strict base_date locale j before :
  located text strict base_date !! j = Some before ->
  (exists after,
     possible_dates (raw_dates_loop text strict base_date locale) !! j
     = Some after
     /\ cand_string after = cand_string before
     /\ cand_index after = cand_index before
     /\ digits (cand_props after) = digits (cand_props before)
     /\ months (cand_props after) = months (cand_props before)
     /\ days (cand_props after) = days (cand_props before)
     /\ delimiters (cand_props after) = delimiters (cand_props before)
     /\ (extra_tokens (cand_props after) = extra_tokens (cand_props before)
         \/ extra_tokens (cand_props after) = []))
  /\ all_modifiers
       (possible_dates (raw_dates_loop text strict base_date locale))
     ≡ₚ all_modifiers (located text strict base_date).
Proof.
  intros Hbefore. split.
  - assert (Forall2 kept (located text strict base_date)
              (possible_dates (raw_dates_loop text strict base_date locale)))
      as Hkept.
    { unfold raw_dates_loop.
      apply (fold_left_preserves
               (fun st => Forall2 kept (located text strict base_date)
                            (possible_dates st))).
      - apply kept_refl.
      - intros st i. apply loop_body_kept. }
    destruct (Forall2_lookup_l _ _ _ _ _ Hkept Hbefore)
      as (after & Hafter & Hframe & Hextra).
    exists after. unfold frame in Hframe.
    injection Hframe as -> -> -> -> -> -> _. done.
  - unfold raw_dates_loop.
    apply (fold_left_preserves
             (fun st => all_modifiers (possible_dates st)
                        ≡ₚ all_modifiers (located text strict base_date))).
    + done.
    + intros st i Hst. by rewrite loop_body_modifiers.
Qed.

(** ** Dates and datetimes *)

Lemma loop_body_extends date_finder locale st i :
  exists later,
    produced (loop_body date_finder locale st i) = produced st ++ later.
Proof.
  unfold loop_body.
  destruct (failure st); [exists []; by rewrite app_nil_r|].
  destruct (possible_dates st !! i) as [c|]; [|exists []; by rewrite app_nil_r].
  destruct (filter_chain _ _ _ _) as [dates [[[s p]|]|e]]; simpl;
    try (exists []; by rewrite app_nil_r).
  destruct (resolve _ _ _ _) as [[v|]|e]; simpl;
    try (exists []; by rewrite app_nil_r).
  by eexists.
Qed.

Lemma loop_extends date_finder locale (rounds : list nat) st :
  exists later,
    produced (fold_left (loop_body date_finder locale) rounds st)
    = produced st ++ later.
Proof.
  revert st. induction rounds as [|i rounds IH]; intros st; simpl.
  - exists []. by rewrite app_nil_r.
  - destruct (IH (loop_body date_finder locale st i)) as [later ->].
    destruct (loop_body_extends date_finder locale st i) as [now_ ->].
    exists (now_ ++ later). by rewrite app_assoc.
Qed.

Lemma resolve_accepts date_finder locale date_string date_props d :
  parse_with_retry date_finder date_string date_props locale = Ok (Some d) ->
  check_date_parts_are_in_date d date_props = Ok true ->
  isoformat_raises d = false ->
  resolve date_finder locale date_string date_props
  = Ok (Some (as_yielded d)).
Proof. intros Hparse Hcheck Hiso. unfold resolve. by rewrite Hparse, Hcheck, Hiso. Qed.

Lemma rounds_split (i n : nat) :
  (i < n)%nat -> seq 0 n = seq 0 i ++ i :: seq (S i) (n - S i).
Proof.
  intros Hi. replace n with (i + S (n - S i))%nat at 1 by lia.
  by rewrite seq_app.
Qed.

(** C9.  Every value that [get_raw_dates] yields comes from a datetime
    returned by the parser: when its hour and minute are both zero the value
    is the plain date of its year, month and day (seconds and time zone are
    gone), otherwise it is that datetime itself.  And every datetime that
    is accepted is yielded so: when a candidate passes the filter rules, the
    parse loop returns a datetime for it, the date-parts check accepts it
    and [isoformat] does not raise, the next value of the run is that
    datetime, as a plain date when its hour and minute are both zero and in
    full otherwise. *)
Theorem yielded_midnight_is_date text strict base_date return_source locale :
  Forall
    (fun r =>
       exists base s p l d,
         parse_date_string (DateFinder_init base) s p l = Ok (Some d)
         /\ ((hour d = 0 /\ minute d = 0
              /\ raw_value r = PyDate (year d) (month d) (day d))
             \/ ((hour d <> 0 \/ minute d <> 0)
                 /\ raw_value r = PyDateTime d)))
    (yielded (get_raw_dates text strict base_date return_source locale))
  /\ (forall i possible_date dates date_string date_props d,
        let st := state_before text strict base_date locale i in
        failure st = None ->
        possible_dates st !! i = Some possible_date ->
        filter_chain i (possible_dates st) (possible_matched st) possible_date
        = (dates, Ok (Some (date_string, date_props))) ->
        parse_with_retry (DateFinder_init (base_date_or_default base_date))
          date_string date_props (locale_object locale) = Ok (Some d) ->
        check_date_parts_are_in_date d date_props = Ok true ->
        isoformat_raises d = false ->
        exists v later,
          yielded (get_raw_dates text strict base_date return_source locale)
          = map (as_raw return_source) (produced st)
            ++ as_raw return_source (v, cand_index possible_date) :: later
          /\ (hour d = 0 -> minute d = 0 ->
              v = PyDate (year d) (month d) (day d))
          /\ (hour d <> 0 \/ minute d <> 0 -> v = PyDateTime d)).
Proof.
  split.
  - unfold get_raw_dates, raw_dates_loop. simpl.
    set (loc := locale_object locale).
    set (base := base_date_or_default base_date).
    apply Forall_fmap.
    eapply Forall_impl.
    + apply (fold_left_preserves
               (fun st => Forall (fun r => from_parser (DateFinder_init base)
                                             loc (fst r))
                            (produced st))).
      * simpl. constructor.
      * intros st i. apply loop_body_produced.
    + intros [v idx] (s & p & d & Hp & Hv). simpl in Hv.
      exists base, s, p, loc, d. split; [done|].
      replace (raw_value _) with v by (by destruct return_source).
      subst v. unfold as_yielded.
      destruct (Z.eqb_spec (hour d) 0) as [Hh|Hh];
        destruct (Z.eqb_spec (minute d) 0) as [Hm|Hm]; simpl.
      * left. by rewrite Hh, Hm.
      * right. split; [by right|done].
      * right. split; [by left|done].
      * right. split; [by left|done].
  - intros i cur dates s p d st Hfail Hcur Hchain Hparse Hcheck Hiso.
    set (loc := locale_object locale) in *.
    set (finder := DateFinder_init (base_date_or_default base_date)) in *.
    assert (Forall2 kept (located text strict base_date) (possible_dates st))
      as Hkept.
    { unfold st, state_before.
      apply (fold_left_preserves
               (fun st => Forall2 kept (located text strict base_date)
                            (possible_dates st))).
      - apply kept_refl.
      - intros st' j. apply loop_body_kept. }
    assert (i < length (located text strict base_date))%nat as Hi.
    { rewrite (Forall2_length _ _ _ Hkept). by eapply lookup_lt_Some. }
    assert (produced (loop_body finder loc st i)
            = produced st ++ [(as_yielded d, cand_index cur)]) as Hstep.
    { unfold loop_body. rewrite Hfail, Hcur, Hchain.
      by rewrite (resolve_accepts _ _ _ _ _ Hparse Hcheck Hiso). }
    destruct (loop_extends finder loc
                (seq (S i) (length (located text strict base_date) - S i))
                (loop_body finder loc st i)) as [later Hlater].
    exists (as_yielded d), (map (as_raw return_source) later).
    split; [|split].
    + unfold get_raw_dates, raw_dates_loop. cbn [yielded].
      fold loc finder. rewrite (rounds_split i _ Hi), fold_left_app.
      cbn [fold_left].
      change (fold_left (loop_body finder loc) (seq 0 i) _) with st.
      rewrite Hlater, Hstep, <- app_assoc, !map_app. done.
    + intros Hh Hm. unfold as_yielded. by rewrite Hh, Hm.
    + intros Hnot. unfold as_yielded.
      destruct (Z.eqb_spec (hour d) 0), (Z.eqb_spec (minute d) 0);
        simpl; try done. lia.
Qed.

(** ** The rule on decimal-looking candidates *)

Lemma match_void s : Re.match_ Re.Void s = false.
Proof. induction s as [|c s IH]; simpl; auto. Qed.

Lemma match_nullable r s : Re.nullable r = true -> Re.match_ r s = true.
Proof. intros H. destruct s; simpl; by rewrite H. Qed.

(** A derivative that is [Void] matches nothing, whatever the rest of the
    string is. *)
Ltac dead_end s :=
  rewrite match_void; repeat first [reflexivity | destruct s as [|? s]].

Lemma match_dotted_shape (dig dot : ascii -> bool) s :
  Re.match_ (dotted_shape dig dot) s =
  match s with
  | String a (String b (String p (String c (String d (String q
      (String e (String f _))))))) =>
      dig a && dig b && dot p && dig c && dig d && dot q && dig e && dig f
  | _ => false
  end.
Proof.
  unfold dotted_shape.
  destruct s as [|a s]; [reflexivity|].
  cbn. destruct (dig a); cbn; [|dead_end s].
  destruct s as [|b s]; [reflexivity|].
  cbn. destruct (dig b); cbn; [|dead_end s].
  destruct s as [|p s]; [reflexivity|].
  cbn. destruct (dot p); cbn; [|dead_end s].
  destruct s as [|c s]; [reflexivity|].
  cbn. destruct (dig c); cbn; [|dead_end s].
  destruct s as [|d s]; [reflexivity|].
  cbn. destruct (dig d); cbn; [|dead_end s].
  destruct s as [|q s]; [reflexivity|].
  cbn. destruct (dot q); cbn; [|dead_end s].
  destruct s as [|e s]; [reflexivity|].
  cbn. destruct (dig e); cbn; [|dead_end s].
  destruct s as [|f s]; [reflexivity|].
  cbn. destruct (dig f); cbn; [|dead_end s].
  apply match_nullable. reflexivity.
Qed.

(** [\d{2}\.\d{2}\.\d{2,4}] matches at the start of a string exactly when the
    string begins with two digits, a dot, two digits, a dot and two digits. *)
Lemma match_dotted_date s : Re.match_ RE_DOTTED_DATE s = begins_dotted s.
Proof. apply (match_dotted_shape Py.isdecimal (Ascii.eqb ".")). Qed.

Lemma list_count_pos x l : x ∈ l -> (Py.list_count x l =? 0) = false.
Proof.
  intros Hin. unfold Py.list_count.
  assert (x ∈ filter (fun y => y = x) l) as H
    by (by apply list_elem_of_filter).
  destruct (filter _ l); [by apply elem_of_nil in H|done].
Qed.

Lemma floats_are_rejected date_string date_props :
  "." ∈ delimiters date_props ->
  months date_props = [] ->
  begins_dotted date_string = false ->
  rejected_before_cleanup date_string date_props = true.
Proof.
  intros Hpoint Hmonth Hshape.
  assert (negb (Py.list_count "." (delimiters date_props) =? 0)
          && bool_decide (length (months date_props) = 0%nat)
          && negb (Re.match_ RE_DOTTED_DATE date_string) = true) as Hrule.
  { by rewrite match_dotted_date, Hshape, (list_count_pos _ _ Hpoint), Hmonth. }
  unfold rejected_before_cleanup. cbv zeta. rewrite Hrule.
  repeat match goal with
         | |- (if true then true else _) = true => reflexivity
         | |- (if ?c then true else _) = true => destruct c; [reflexivity|]
         end.
  reflexivity.
Qed.

(** C5, amended.  A candidate with a "." among its delimiters and no month
    is dropped by the filter chain unless the date string that reaches the
    rules begins with two digits, a dot, two digits, a dot and two digits;
    what follows those eight characters is not looked at. *)
Theorem dotted_without_month_needs_prefix
    i possible_dates possible_matched possible_date date_string dates :
  possible_dates !! i = Some possible_date ->
  day_of_merge i possible_dates possible_matched possible_date
  = Ok (date_string, dates) ->
  "." ∈ delimiters (cand_props possible_date) ->
  months (cand_props possible_date) = [] ->
  begins_dotted date_string = false ->
  snd (filter_chain i possible_dates possible_matched possible_date) = Ok None.
Proof.
  intros Hcur Hmerge Hpoint Hmonth Hshape. unfold filter_chain.
  rewrite Hmerge.
  destruct (day_of_merge_kept _ _ _ _ _ _ _ (kept_refl possible_dates)
              Hcur Hmerge) as (_ & cur' & -> & Hframe & _).
  unfold frame in Hframe. injection Hframe as _ _ _ Hm _ Hd _.
  rewrite floats_are_rejected; [done| | |done].
  - by rewrite Hd.
  - by rewrite Hm.
Qed.

(** ** Rounding to the nearest float *)

Section Rounding.
Local Open Scope Q_scope.

Lemma pow2_pos e : 0 < (2 # 1) ^ e.
Proof. apply Qpower_0_lt. reflexivity. Qed.

Lemma pow2_plus a b : (2 # 1) ^ (a + b) == (2 # 1) ^ a * (2 # 1) ^ b.
Proof. apply Qpower_plus. discriminate. Qed.

Lemma pow2_le a b : (a <= b)%Z -> (2 # 1) ^ a <= (2 # 1) ^ b.
Proof. intros H. apply Qpower_le_compat_l; [exact H|]. unfold Qle. simpl. lia. Qed.

Lemma pow2_lt_inv a b : (2 # 1) ^ a < (2 # 1) ^ b -> (a < b)%Z.
Proof. intros H. apply (Qpower_lt_compat_l_inv _ _ _ H). reflexivity. Qed.

Lemma pow2_Z a : (0 <= a)%Z -> (2 # 1) ^ a == inject_Z (2 ^ a).
Proof. intros H. rewrite Zpower_Qpower by exact H. reflexivity. Qed.

Lemma nearest_even_near m :
  m - (1 # 2) <= inject_Z (Binary64.nearest_even m)
  /\ inject_Z (Binary64.nearest_even m) <= m + (1 # 2).
Proof.
  unfold Binary64.nearest_even.
  pose proof (Qfloor_le m) as Hlo. pose proof (Qlt_floor m) as Hhi.
  rewrite inject_Z_plus in Hhi. change (inject_Z 1) with 1 in Hhi.
  destruct (Qcompare_spec (m - inject_Z (Qfloor m)) (1 # 2)) as [He|Hl|Hg];
    [destruct (Z.even (Qfloor m))|..];
    rewrite ?inject_Z_plus; change (inject_Z 1) with 1; try lra.
Qed.

Lemma nearest_even_ge (a : Z) m :
  inject_Z a <= m -> (a <= Binary64.nearest_even m)%Z.
Proof.
  intros H. destruct (nearest_even_near m) as [Hlo _].
  assert (inject_Z a < inject_Z (Binary64.nearest_even m + 1)) as Hlt.
  { rewrite inject_Z_plus. change (inject_Z 1) with 1. lra. }
  rewrite <- Zlt_Qlt in Hlt. lia.
Qed.

Lemma nearest_even_le m (b : Z) :
  m <= inject_Z b -> (Binary64.nearest_even m <= b)%Z.
Proof.
  intros H. destruct (nearest_even_near m) as [_ Hhi].
  assert (inject_Z (Binary64.nearest_even m) < inject_Z (b + 1)) as Hlt.
  { rewrite inject_Z_plus. change (inject_Z 1) with 1. lra. }
  rewrite <- Zlt_Qlt in Hlt. lia.
Qed.

Lemma nearest_even_comp x y :
  x == y -> Binary64.nearest_even x = Binary64.nearest_even y.
Proof.
  intros H. unfold Binary64.nearest_even. rewrite (Qfloor_comp x y H).
  assert ((x - inject_Z (Qfloor y) ?= 1 # 2)
          = (y - inject_Z (Qfloor y) ?= 1 # 2)) as ->; [|reflexivity].
  apply Qcompare_comp; [|reflexivity]. rewrite H. reflexivity.
Qed.

Lemma nearest_even_int z : Binary64.nearest_even (inject_Z z) = z.
Proof.
  unfold Binary64.nearest_even. rewrite Qfloor_Z.
  destruct (Qcompare_spec (inject_Z z - inject_Z z) (1 # 2)) as [He|Hl|Hg];
    [exfalso; lra|reflexivity|exfalso; lra].
Qed.

Lemma nearest_even_mono m1 m2 :
  m1 <= m2 -> (Binary64.nearest_even m1 <= Binary64.nearest_even m2)%Z.
Proof.
  intros H. pose proof (Qfloor_resp_le _ _ H) as Hf.
  unfold Binary64.nearest_even.
  pose proof (Qfloor_le m1) as Hlo1. pose proof (Qlt_floor m1) as Hhi1.
  pose proof (Qfloor_le m2) as Hlo2. pose proof (Qlt_floor m2) as Hhi2.
  rewrite inject_Z_plus in Hhi1, Hhi2.
  change (inject_Z 1) with 1 in Hhi1, Hhi2.
  destruct (Z.eq_dec (Qfloor m1) (Qfloor m2)) as [Heq|Hne].
  - rewrite <- Heq in *.
    destruct (Qcompare_spec (m1 - inject_Z (Qfloor m1)) (1 # 2));
      destruct (Qcompare_spec (m2 - inject_Z (Qfloor m1)) (1 # 2));
      destruct (Z.even (Qfloor m1)); try lia; exfalso; lra.
  - assert (Qfloor m1 + 1 <= Qfloor m2)%Z as Hstep by lia.
    destruct (Qcompare_spec (m1 - inject_Z (Qfloor m1)) (1 # 2));
      destruct (Qcompare_spec (m2 - inject_Z (Qfloor m2)) (1 # 2));
      destruct (Z.even (Qfloor m1)); destruct (Z.even (Qfloor m2)); lia.
Qed.


Lemma Qdiv_lt_cross (x y n d : Z) :
  (0 < y)%Z -> (0 < d)%Z -> (x * d < n * y)%Z ->
  inject_Z x / inject_Z y < inject_Z n / inject_Z d.
Proof.
  intros Hy Hd H.
  assert (0 < inject_Z y) as Hy' by (rewrite Zlt_Qlt in Hy; exact Hy).
  assert (0 < inject_Z d) as Hd' by (rewrite Zlt_Qlt in Hd; exact Hd).
  apply Qlt_shift_div_r; [exact Hy'|].
  assert (inject_Z n / inject_Z d * inject_Z y
          == inject_Z n * inject_Z y / inject_Z d) as ->
    by (field; intros Hz; rewrite Hz in Hd'; apply (Qlt_irrefl _ Hd')).
  apply Qlt_shift_div_l; [exact Hd'|].
  rewrite <- !inject_Z_mult, <- Zlt_Qlt. exact H.
Qed.

Lemma exponent_rough (n : Z) (d : positive) :
  (0 < n)%Z ->
  (2 # 1) ^ (Z.log2 n - Z.log2 (Zpos d) - 1) < n # d
  /\ n # d < (2 # 1) ^ (Z.log2 n - Z.log2 (Zpos d) + 1).
Proof.
  intros Hn.
  destruct (Z.log2_spec n Hn) as [Hn1 Hn2].
  destruct (Z.log2_spec (Zpos d) eq_refl) as [Hd1 Hd2].
  pose proof (Z.log2_nonneg n) as Ha. pose proof (Z.log2_nonneg (Zpos d)) as Hb.
  set (a := Z.log2 n) in *. set (b := Z.log2 (Zpos d)) in *.
  assert (0 < 2 ^ a)%Z as Hpa by (apply Z.pow_pos_nonneg; lia).
  assert (0 < 2 ^ b)%Z as Hpb by (apply Z.pow_pos_nonneg; lia).
  rewrite (Qmake_Qdiv n d). split.
  - replace (a - b - 1)%Z with (a - Z.succ b)%Z by lia.
    rewrite Qpower_minus by discriminate.
    rewrite (pow2_Z a), (pow2_Z (Z.succ b)) by lia.
    apply Qdiv_lt_cross; [apply Z.pow_pos_nonneg; lia|lia|nia].
  - replace (a - b + 1)%Z with (Z.succ a - b)%Z by lia.
    rewrite Qpower_minus by discriminate.
    rewrite (pow2_Z (Z.succ a)), (pow2_Z b) by lia.
    apply Qdiv_lt_cross; [lia|lia|nia].
Qed.

Lemma exponent_spec q :
  0 < q ->
  (2 # 1) ^ Binary64.exponent q <= q
  /\ q < (2 # 1) ^ (Binary64.exponent q + 1).
Proof.
  intros Hq. destruct q as [n d].
  assert (0 < n)%Z as Hn by (unfold Qlt in Hq; simpl in Hq; lia).
  destruct (exponent_rough n d Hn) as [Hlo Hhi].
  unfold Binary64.exponent. cbn [Qnum Qden].
  set (e := (Z.log2 n - Z.log2 (Zpos d))%Z) in *.
  destruct (Qle_bool ((2 # 1) ^ e) (n # d)) eqn:Hle.
  - apply Qle_bool_iff in Hle. split; [exact Hle|exact Hhi].
  - split; [apply Qlt_le_weak; exact Hlo|].
    replace (e - 1 + 1)%Z with e by lia.
    apply Qnot_le_lt. intros H. apply Qle_bool_iff in H. congruence.
Qed.

Lemma exponent_unique q e :
  (2 # 1) ^ e <= q -> q < (2 # 1) ^ (e + 1) -> Binary64.exponent q = e.
Proof.
  intros Hlo Hhi.
  assert (0 < q) as Hq by (apply (Qlt_le_trans _ ((2 # 1) ^ e)); [apply pow2_pos|exact Hlo]).
  destruct (exponent_spec q Hq) as [Hlo' Hhi'].
  assert (Binary64.exponent q < e + 1)%Z
    by (apply pow2_lt_inv; apply (Qle_lt_trans _ q); assumption).
  assert (e < Binary64.exponent q + 1)%Z
    by (apply pow2_lt_inv; apply (Qle_lt_trans _ q); assumption).
  lia.
Qed.

Lemma exponent_comp x y :
  0 < x -> x == y -> Binary64.exponent x = Binary64.exponent y.
Proof.
  intros Hx H. destruct (exponent_spec x Hx) as [Hlo Hhi].
  symmetry. apply exponent_unique; rewrite <- H; assumption.
Qed.

Lemma exponent_mono x y :
  0 < x -> x <= y -> (Binary64.exponent x <= Binary64.exponent y)%Z.
Proof.
  intros Hx H.
  assert (0 < y) as Hy by (apply (Qlt_le_trans _ x); assumption).
  destruct (exponent_spec x Hx) as [Hlo _].
  destruct (exponent_spec y Hy) as [_ Hhi].
  assert (Binary64.exponent x < Binary64.exponent y + 1)%Z; [|lia].
  apply pow2_lt_inv. apply (Qle_lt_trans _ x); [exact Hlo|].
  apply (Qle_lt_trans _ y); assumption.
Qed.

Lemma quantum_pos q : 0 < Binary64.quantum q.
Proof. apply pow2_pos. Qed.

Lemma quantum_normal q :
  (Binary64.emin <= Binary64.exponent q)%Z ->
  Binary64.quantum q = (2 # 1) ^ (Binary64.exponent q - 52).
Proof. intros H. unfold Binary64.quantum. by rewrite Z.max_l. Qed.

Lemma quantum_scale q k :
  (0 <= k)%Z ->
  (2 # 1) ^ (Z.max (Binary64.exponent q) Binary64.emin - 52 + k)
  == inject_Z (2 ^ k) * Binary64.quantum q.
Proof.
  intros Hk. unfold Binary64.quantum. rewrite <- (pow2_Z k) by exact Hk.
  rewrite <- pow2_plus. f_equiv. lia.
Qed.

Lemma Qdiv_mult_cancel x y : 0 < y -> x / y * y == x.
Proof.
  intros Hy. field. intros Hz. rewrite Hz in Hy. apply (Qlt_irrefl _ Hy).
Qed.

(** The scaled significand is below 2^53, and from 2^52 on for a number in
    the normal range. *)
Lemma significand_upper q :
  0 < q -> q / Binary64.quantum q < inject_Z (2 ^ 53).
Proof.
  intros Hq. destruct (exponent_spec q Hq) as [_ Hhi].
  apply Qlt_shift_div_r; [apply quantum_pos|].
  rewrite <- quantum_scale by lia.
  apply (Qlt_le_trans _ _ _ Hhi). apply pow2_le. lia.
Qed.

Lemma significand_lower q :
  0 < q -> (Binary64.emin <= Binary64.exponent q)%Z ->
  inject_Z (2 ^ 52) <= q / Binary64.quantum q.
Proof.
  intros Hq He. destruct (exponent_spec q Hq) as [Hlo _].
  apply Qle_shift_div_l; [apply quantum_pos|].
  rewrite <- quantum_scale by lia.
  replace (Z.max (Binary64.exponent q) Binary64.emin - 52 + 52)%Z
    with (Binary64.exponent q) by lia.
  exact Hlo.
Qed.

Lemma round_positive_eq q :
  Binary64.round_positive q
  == inject_Z (Binary64.nearest_even (q / Binary64.quantum q))
     * Binary64.quantum q.
Proof. unfold Binary64.round_positive. apply Qred_correct. Qed.

Lemma round_positive_upper q :
  0 < q ->
  Binary64.round_positive q
  <= (2 # 1) ^ (Z.max (Binary64.exponent q) Binary64.emin + 1).
Proof.
  intros Hq. rewrite round_positive_eq.
  pose proof (nearest_even_le _ _ (Qlt_le_weak _ _ (significand_upper q Hq)))
    as Hm.
  replace (Z.max (Binary64.exponent q) Binary64.emin + 1)%Z
    with (Z.max (Binary64.exponent q) Binary64.emin - 52 + 53)%Z by lia.
  rewrite quantum_scale by lia. rewrite Zle_Qle in Hm.
  apply Qmult_le_compat_r; [exact Hm|apply Qlt_le_weak, quantum_pos].
Qed.

Lemma round_positive_lower q :
  0 < q -> (Binary64.emin <= Binary64.exponent q)%Z ->
  (2 # 1) ^ Binary64.exponent q <= Binary64.round_positive q.
Proof.
  intros Hq He. rewrite round_positive_eq.
  pose proof (nearest_even_ge _ _ (significand_lower q Hq He)) as Hm.
  replace (Binary64.exponent q)
    with (Z.max (Binary64.exponent q) Binary64.emin - 52 + 52)%Z at 1 by lia.
  rewrite quantum_scale by lia. rewrite Zle_Qle in Hm.
  apply Qmult_le_compat_r; [exact Hm|apply Qlt_le_weak, quantum_pos].
Qed.

Lemma round_positive_nonneg q : 0 < q -> 0 <= Binary64.round_positive q.
Proof.
  intros Hq. rewrite round_positive_eq.
  assert (inject_Z 0 <= q / Binary64.quantum q) as Hm.
  { apply Qle_shift_div_l; [apply quantum_pos|].
    rewrite Qmult_0_l. by apply Qlt_le_weak. }
  apply nearest_even_ge in Hm. rewrite Zle_Qle in Hm.
  apply Qmult_le_0_compat; [exact Hm|apply Qlt_le_weak, quantum_pos].
Qed.

(** In the normal range the relative error of rounding is at most 2^-53. *)
Lemma round_positive_error q :
  (2 # 1) ^ Binary64.emin <= q ->
  q - Binary64.unit_roundoff * q <= Binary64.round_positive q
  /\ Binary64.round_positive q <= q + Binary64.unit_roundoff * q.
Proof.
  intros Hmin.
  assert (0 < q) as Hq
    by (apply (Qlt_le_trans _ ((2 # 1) ^ Binary64.emin));
        [apply pow2_pos|exact Hmin]).
  rewrite round_positive_eq.
  destruct (exponent_spec q Hq) as [Hlo Hhi].
  assert (Binary64.emin <= Binary64.exponent q)%Z as He.
  { assert (Binary64.emin < Binary64.exponent q + 1)%Z; [|lia].
    apply pow2_lt_inv. by apply (Qle_lt_trans _ q). }
  rewrite (quantum_normal q He).
  set (e := Binary64.exponent q) in *.
  set (ulp := (2 # 1) ^ (e - 52)) in *.
  assert (0 < ulp) as Hulp by apply pow2_pos.
  destruct (nearest_even_near (q / ulp)) as [Hn1 Hn2].
  set (M := inject_Z (Binary64.nearest_even (q / ulp))) in *.
  assert ((1 # 2) * ulp <= Binary64.unit_roundoff * q) as Hhalf.
  { assert ((1 # 2) * ulp == Binary64.unit_roundoff * (2 # 1) ^ e) as ->.
    { unfold ulp. replace (e - 52)%Z with (e + -52)%Z by lia.
      rewrite pow2_plus. unfold Binary64.unit_roundoff.
      change ((2 # 1) ^ (-52)) with (/ (4503599627370496 # 1)). field. }
    apply Qmult_le_l; [reflexivity|exact Hlo]. }
  assert ((q / ulp - (1 # 2)) * ulp <= M * ulp) as H1
    by (apply Qmult_le_compat_r; [exact Hn1|apply Qlt_le_weak, Hulp]).
  assert (M * ulp <= (q / ulp + (1 # 2)) * ulp) as H2
    by (apply Qmult_le_compat_r; [exact Hn2|apply Qlt_le_weak, Hulp]).
  assert ((q / ulp - (1 # 2)) * ulp == q - (1 # 2) * ulp) as E1
    by (field; intros Hz; rewrite Hz in Hulp; apply (Qlt_irrefl _ Hulp)).
  assert ((q / ulp + (1 # 2)) * ulp == q + (1 # 2) * ulp) as E2
    by (field; intros Hz; rewrite Hz in Hulp; apply (Qlt_irrefl _ Hulp)).
  rewrite E1 in H1. rewrite E2 in H2.
  split; lra.
Qed.

Lemma quantum_comp x y :
  0 < x -> x == y -> Binary64.quantum x = Binary64.quantum y.
Proof.
  intros Hx H. unfold Binary64.quantum. by rewrite (exponent_comp x y Hx H).
Qed.

Lemma round_positive_comp x y :
  0 < x -> x == y -> Binary64.round_positive x == Binary64.round_positive y.
Proof.
  intros Hx H. rewrite !round_positive_eq.
  rewrite <- (quantum_comp x y Hx H).
  set (ulp := Binary64.quantum x).
  assert (x / ulp == y / ulp) as Hm by (rewrite H; reflexivity).
  rewrite (nearest_even_comp _ _ Hm). reflexivity.
Qed.

Lemma round_positive_mono x y :
  0 < x -> x <= y -> Binary64.round_positive x <= Binary64.round_positive y.
Proof.
  intros Hx H.
  assert (0 < y) as Hy by (apply (Qlt_le_trans _ x); assumption).
  pose proof (exponent_mono x y Hx H) as He.
  destruct (Z.eq_dec (Z.max (Binary64.exponent x) Binary64.emin)
              (Z.max (Binary64.exponent y) Binary64.emin)) as [Heq|Hne].
  - rewrite !round_positive_eq.
    assert (Binary64.quantum y = Binary64.quantum x) as ->
      by (unfold Binary64.quantum; by rewrite Heq).
    pose proof (quantum_pos x) as Hulp.
    set (ulp := Binary64.quantum x) in *.
    apply Qmult_le_compat_r; [|apply Qlt_le_weak, Hulp].
    rewrite <- Zle_Qle. apply nearest_even_mono.
    apply Qle_shift_div_l; [exact Hulp|].
    by rewrite Qdiv_mult_cancel.
  - assert (Binary64.emin <= Binary64.exponent y)%Z as Hn by lia.
    apply (Qle_trans _ _ _ (round_positive_upper x Hx)).
    apply (Qle_trans _ ((2 # 1) ^ Binary64.exponent y));
      [|by apply round_positive_lower].
    apply pow2_le. lia.
Qed.

(** Rounding of numbers that are not negative. *)

Lemma round_zero q : q == 0 -> Binary64.round q = 0.
Proof.
  destruct q as [n d]. unfold Qeq. simpl. intros H.
  assert (n = 0%Z) as -> by lia. reflexivity.
Qed.

Lemma round_pos q : 0 < q -> Binary64.round q = Binary64.round_positive q.
Proof.
  destruct q as [n d]. unfold Qlt. simpl. intros H.
  unfold Binary64.round. simpl. destruct n; try lia. reflexivity.
Qed.

Lemma round_nonneg q : 0 <= q -> 0 <= Binary64.round q.
Proof.
  intros H. destruct (Qlt_le_dec 0 q) as [Hpos|Hle].
  - rewrite (round_pos q Hpos). by apply round_positive_nonneg.
  - rewrite (round_zero q); [apply Qle_refl|]. apply Qle_antisym; assumption.
Qed.

Lemma round_error q :
  (2 # 1) ^ Binary64.emin <= q ->
  q - Binary64.unit_roundoff * q <= Binary64.round q
  /\ Binary64.round q <= q + Binary64.unit_roundoff * q.
Proof.
  intros H.
  assert (0 < q) as Hpos
    by (apply (Qlt_le_trans _ ((2 # 1) ^ Binary64.emin));
        [apply pow2_pos|exact H]).
  rewrite (round_pos q Hpos). by apply round_positive_error.
Qed.

Lemma round_comp x y : 0 <= x -> x == y -> Binary64.round x == Binary64.round y.
Proof.
  intros Hx H. destruct (Qlt_le_dec 0 x) as [Hpos|Hle].
  - rewrite (round_pos x Hpos), (round_pos y) by (rewrite <- H; exact Hpos).
    by apply round_positive_comp.
  - assert (x == 0) as Hz by (apply Qle_antisym; assumption).
    rewrite (round_zero x Hz), (round_zero y) by (rewrite <- H; exact Hz).
    reflexivity.
Qed.

Lemma round_mono x y :
  0 <= x -> x <= y -> Binary64.round x <= Binary64.round y.
Proof.
  intros Hx H. destruct (Qlt_le_dec 0 x) as [Hpos|Hle].
  - rewrite (round_pos x Hpos), (round_pos y)
      by (apply (Qlt_le_trans _ x); assumption).
    by apply round_positive_mono.
  - assert (x == 0) as Hz by (apply Qle_antisym; assumption).
    rewrite (round_zero x Hz). apply round_nonneg.
    apply (Qle_trans _ x); assumption.
Qed.

(** An integer of at most 53 bits is a float. *)
Lemma round_int z :
  (0 <= z <= 2 ^ 53)%Z -> Binary64.round (inject_Z z) == inject_Z z.
Proof.
  intros Hz. destruct (Z.eq_dec z 0%Z) as [->|Hne]; [reflexivity|].
  assert (0 < inject_Z z) as Hpos by (unfold Qlt; simpl; lia).
  rewrite (round_pos _ Hpos), round_positive_eq.
  destruct (exponent_spec _ Hpos) as [Hlo Hhi].
  assert (0 <= Binary64.exponent (inject_Z z))%Z as He0.
  { assert (0 < Binary64.exponent (inject_Z z) + 1)%Z; [|lia].
    apply pow2_lt_inv. apply (Qle_lt_trans _ (inject_Z z)); [|exact Hhi].
    change ((2 # 1) ^ 0) with (inject_Z 1). rewrite <- Zle_Qle. lia. }
  rewrite quantum_normal by (unfold Binary64.emin; lia).
  set (e := Binary64.exponent (inject_Z z)) in *.
  assert (e <= 53)%Z as He.
  { assert (e < 54)%Z; [|lia]. apply pow2_lt_inv.
    apply (Qle_lt_trans _ _ _ Hlo).
    rewrite (pow2_Z 54) by lia. rewrite <- Zlt_Qlt. lia. }
  destruct (Z.eq_dec e 53%Z) as [He53|He53].
  - assert (z = 2 ^ 53)%Z as ->.
    { rewrite He53, (pow2_Z 53) in Hlo by lia. rewrite <- Zle_Qle in Hlo. lia. }
    rewrite He53. vm_compute. reflexivity.
  - set (k := (52 - e)%Z).
    assert (0 <= k)%Z as Hk by (unfold k; lia).
    assert ((2 # 1) ^ (e - 52) == / inject_Z (2 ^ k)) as Hulp.
    { replace (e - 52)%Z with (- k)%Z by (unfold k; lia).
      rewrite Qpower_opp, (pow2_Z k) by lia. reflexivity. }
    assert (0 < 2 ^ k)%Z as Hpz by (apply Z.pow_pos_nonneg; lia).
    assert (0 < inject_Z (2 ^ k)) as Hpk by (unfold Qlt; simpl; lia).
    assert (inject_Z z / (2 # 1) ^ (e - 52) == inject_Z (z * 2 ^ k)) as Hm.
    { rewrite Hulp, inject_Z_mult. field.
      intros H0. rewrite H0 in Hpk. apply (Qlt_irrefl _ Hpk). }
    rewrite (nearest_even_comp _ _ Hm), nearest_even_int, Hulp, inject_Z_mult.
    field. intros H0. rewrite H0 in Hpk. apply (Qlt_irrefl _ Hpk).
Qed.

Lemma round_le_one q : 0 <= q -> q <= 1 -> Binary64.round q <= 1.
Proof.
  intros H0 H1. apply (Qle_trans _ (Binary64.round 1)).
  - by apply round_mono.
  - vm_compute. discriminate.
Qed.

End Rounding.

(** A quotient of a smaller by a larger number is a float between 0
    and 1. *)
Lemma div_in_unit a t :
  (0 <= a)%Q -> (a <= t)%Q ->
  (0 <= Binary64.div a (Binary64.round t))%Q
  /\ (Binary64.div a (Binary64.round t) <= 1)%Q.
Proof.
  intros Ha Hat.
  assert (0 <= t)%Q as Ht by (by apply (Qle_trans _ a)).
  pose proof (round_nonneg a Ha) as Ha'.
  pose proof (round_nonneg t Ht) as Ht'.
  pose proof (round_mono a t Ha Hat) as Hle.
  assert (0 <= Binary64.round a / Binary64.round t
          /\ Binary64.round a / Binary64.round t <= 1)%Q as [H0 H1].
  { destruct (Qlt_le_dec 0 (Binary64.round t)) as [Hpos|Hz].
    - split.
      + apply Qle_shift_div_l; [exact Hpos|]. by rewrite Qmult_0_l.
      + apply Qle_shift_div_r; [exact Hpos|]. by rewrite Qmult_1_l.
    - assert (Binary64.round t == 0)%Q as -> by (by apply Qle_antisym).
      unfold Qdiv. change (/ 0)%Q with 0%Q. rewrite Qmult_0_r. done. }
  unfold Binary64.div. split; [by apply round_nonneg|by apply round_le_one].
Qed.

Lemma int_div_in_unit k n :
  0 <= k <= n -> 0 < n ->
  (0 <= Binary64.int_div k n)%Q /\ (Binary64.int_div k n <= 1)%Q.
Proof.
  intros Hk Hn.
  assert (0 < inject_Z n)%Q as Hn' by (unfold Qlt; simpl; lia).
  assert (0 <= inject_Z k / inject_Z n)%Q as H0.
  { apply Qle_shift_div_l; [exact Hn'|]. rewrite Qmult_0_l.
    unfold Qle. simpl. lia. }
  assert (inject_Z k / inject_Z n <= 1)%Q as H1.
  { apply Qle_shift_div_r; [exact Hn'|]. rewrite Qmult_1_l.
    rewrite <- Zle_Qle. lia. }
  unfold Binary64.int_div. split; [by apply round_nonneg|by apply round_le_one].
Qed.

(** ** The feature row, group by group *)

(** *** Sums of rationals *)

Lemma Qsum_from (l : list Q) (a : Q) : (fold_left Qplus l a == a + Qsum l)%Q.
Proof.
  unfold Qsum. revert a.
  induction l as [|x l IH]; intros a; simpl.
  - ring.
  - rewrite (IH (a + x)%Q), (IH (0 + x)%Q). ring.
Qed.

Lemma Qsum_cons (x : Q) (l : list Q) : (Qsum (x :: l) == x + Qsum l)%Q.
Proof. unfold Qsum at 1. simpl. rewrite Qsum_from. ring. Qed.

Lemma Qsum_app (l1 l2 : list Q) : (Qsum (l1 ++ l2) == Qsum l1 + Qsum l2)%Q.
Proof.
  induction l1 as [|x l1 IH]; simpl.
  - unfold Qsum at 2. simpl. ring.
  - rewrite !Qsum_cons, IH. ring.
Qed.

(** *** Counting occurrences *)

Lemma count_from_nonneg sub pending s : 0 <= Py.count_from sub pending s.
Proof.
  revert pending. induction s as [|c s IH]; intros pending; simpl; [lia|].
  destruct pending; [|apply IH].
  destruct (Py.startswith sub (String c s)); [|apply IH].
  specialize (IH (String.length sub - 1)%nat). lia.
Qed.

Lemma count_nonneg s sub : 0 <= Py.count s sub.
Proof.
  unfold Py.count. destruct sub; [unfold Py.len; lia|].
  apply count_from_nonneg.
Qed.

(** *** Dictionaries with distinct keys *)

Lemma dict_set_fresh {V} (k : string) (v : V) (d : dict V) :
  k ∉ dict_keys d -> dict_set k v d = d ++ [(k, v)].
Proof.
  induction d as [|[k' v'] d IH]; simpl; [done|].
  intros Hk. apply not_elem_of_cons in Hk as [Hne Hk].
  destruct (String.eqb_spec k k'); [done|].
  by rewrite IH.
Qed.

Lemma dict_set_here {V} (k : string) (v0 v : V) (pre post : dict V) :
  k ∉ dict_keys pre ->
  dict_set k v (pre ++ (k, v0) :: post) = pre ++ (k, v) :: post.
Proof.
  induction pre as [|[k' v'] pre IH]; simpl.
  - intros _. by rewrite String.eqb_refl.
  - intros Hk. apply not_elem_of_cons in Hk as [Hne Hk].
    destruct (String.eqb_spec k k'); [done|].
    by rewrite IH.
Qed.

Lemma dict_get_here {V} (k : string) (v0 : V) (pre post : dict V) :
  k ∉ dict_keys pre -> dict_get k (pre ++ (k, v0) :: post) = Some v0.
Proof.
  induction pre as [|[k' v'] pre IH]; simpl.
  - intros _. by rewrite String.eqb_refl.
  - intros Hk. apply not_elem_of_cons in Hk as [Hne Hk].
    destruct (String.eqb_spec k k'); [done|].
    by apply IH.
Qed.

Lemma dict_item_here (k : string) (v0 : Q) (pre post : dict Q) :
  k ∉ dict_keys pre -> dict_item (pre ++ (k, v0) :: post) k = v0.
Proof. intros Hk. unfold dict_item. by rewrite dict_get_here. Qed.

Lemma count_into_fresh feature_text (key : string -> string)
    (items : list string) (d : dict Q) :
  NoDup (dict_keys d ++ map key items) ->
  count_into feature_text key items d
  = d ++ map (fun x => (key x, inject_Z (Py.count feature_text x))) items.
Proof.
  unfold count_into. revert d.
  induction items as [|x items IH]; intros d Hnd; simpl.
  - by rewrite app_nil_r.
  - assert (key x ∉ dict_keys d) as Hfresh.
    { apply NoDup_app in Hnd as (_ & Hdis & _).
      intros Hin. apply (Hdis _ Hin). left. }
    rewrite (dict_set_fresh _ _ _ Hfresh), IH.
    + by rewrite <- app_assoc.
    + unfold dict_keys in *. rewrite fmap_app, <- app_assoc. exact Hnd.
Qed.

Lemma scaled_keys seg : dict_keys (scaled seg) = dict_keys seg.
Proof.
  unfold scaled. destruct (Qpositive _); [|done].
  unfold dict_keys. rewrite <- list_fmap_compose. done.
Qed.

Lemma items_of_segment (pre seg post : dict Q) :
  NoDup (dict_keys pre ++ dict_keys seg) ->
  map (dict_item (pre ++ seg ++ post)) (dict_keys seg) = map snd seg.
Proof.
  revert pre. induction seg as [|[k v] seg IH]; intros pre Hnd; [done|].
  simpl. f_equal.
  - rewrite dict_item_here; [done|].
    apply NoDup_app in Hnd as (_ & Hdis & _).
    intros Hin. apply (Hdis _ Hin). left.
  - specialize (IH (pre ++ [(k, v)])).
    rewrite <- app_assoc in IH. apply IH.
    unfold dict_keys in *. rewrite fmap_app, <- app_assoc. exact Hnd.
Qed.

Lemma divide_segment (t : Q) (pre seg post : dict Q) :
  NoDup (dict_keys pre ++ dict_keys seg) ->
  fold_left (fun vec k => dict_set k (Binary64.div (dict_item vec k) t) vec)
    (dict_keys seg) (pre ++ seg ++ post)
  = pre ++ map (fun kv => (fst kv, Binary64.div (snd kv) t)) seg ++ post.
Proof.
  revert pre. induction seg as [|[k v] seg IH]; intros pre Hnd; [done|].
  assert (k ∉ dict_keys pre) as Hfresh.
  { apply NoDup_app in Hnd as (_ & Hdis & _).
    intros Hin. apply (Hdis _ Hin). left. }
  cbn [dict_keys map fst snd fold_left app].
  rewrite dict_item_here, dict_set_here by done.
  specialize (IH (pre ++ [(k, Binary64.div v t)])).
  rewrite <- !app_assoc in IH. simpl in IH. apply IH.
  unfold dict_keys in *. rewrite fmap_app, <- app_assoc. exact Hnd.
Qed.

Lemma norm_group_segment (pre seg post : dict Q) :
  NoDup (dict_keys pre ++ dict_keys seg) ->
  norm_group (dict_keys seg) (pre ++ seg ++ post) = pre ++ scaled seg ++ post.
Proof.
  intros Hnd. unfold norm_group, scaled.
  rewrite (items_of_segment _ _ _ Hnd).
  destruct (Qpositive _); [|done].
  by apply divide_segment.
Qed.

(** *** Feature names *)

Lemma char_key_inj c1 c2 : char_key c1 = char_key c2 -> c1 = c2.
Proof. unfold char_key. cbv [String.append]. by intros [= ?]. Qed.

Lemma bigram_key_inj b1 b2 : bigram_key b1 = bigram_key b2 -> b1 = b2.
Proof. unfold bigram_key. cbv [String.append]. by intros [= ?]. Qed.

Lemma keys_of_counts (key : string -> string) (f : string -> Q)
    (items : list string) :
  dict_keys (map (fun x => (key x, f x)) items) = map key items.
Proof. unfold dict_keys. by rewrite map_map. Qed.

Lemma feature_keys_distinct (characters bigrams : list string) :
  NoDup characters -> NoDup bigrams ->
  NoDup (map char_key characters ++ map bigram_key bigrams).
Proof.
  intros Hc Hb. apply NoDup_app. repeat split.
  - apply NoDup_fmap_2; [|done]. intros ? ?. apply char_key_inj.
  - intros k (c & -> & _)%list_elem_of_fmap (b & Hk & _)%list_elem_of_fmap.
    discriminate Hk.
  - apply NoDup_fmap_2; [|done]. intros ? ?. apply bigram_key_inj.
Qed.

(** *** Ordered pairs of distinct characters *)

Lemma permutations2_from_members {A} (before l : list A) x y :
  (x, y) ∈ permutations2_from before l -> x ∈ l /\ y ∈ before ++ l.
Proof.
  revert before. induction l as [|z after IH]; intros before; simpl.
  - by intros ?%elem_of_nil.
  - intros [Hin|Hin]%elem_of_app.
    + apply list_elem_of_fmap in Hin as (y' & [= -> ->] & Hy).
      split; [left|]. rewrite elem_of_app in *.
      destruct Hy as [Hy|Hy]; [by left|right; by right].
    + apply IH in Hin as [Hx Hy]. split; [by right|].
      rewrite <- app_assoc in Hy. exact Hy.
Qed.

Lemma permutations2_from_NoDup {A} (before l : list A) :
  NoDup (before ++ l) -> NoDup (permutations2_from before l).
Proof.
  revert before. induction l as [|z after IH]; intros before Hnd; simpl.
  - constructor.
  - apply NoDup_app. repeat split.
    + apply NoDup_fmap_2; [by intros ? ? [= ->]|].
      apply NoDup_app in Hnd as (Hb & Hdis & Hza).
      apply NoDup_cons in Hza as [_ Ha].
      apply NoDup_app. repeat split; [done| |done].
      intros x Hx Hxa. apply (Hdis x Hx). by right.
    + intros [x y] (y' & [= -> ->] & _)%list_elem_of_fmap Hin.
      apply permutations2_from_members in Hin as [Hx _].
      apply NoDup_app in Hnd as (_ & _ & Hza).
      by apply NoDup_cons in Hza as [Hnot _].
    + apply IH. by rewrite <- app_assoc.
Qed.

Lemma single_chars_join (a b c d : string) :
  String.length a = 1%nat -> String.length c = 1%nat ->
  a +:+ b = c +:+ d -> a = c /\ b = d.
Proof.
  destruct a as [|x [|? ?]]; try discriminate.
  destruct c as [|y [|? ?]]; try discriminate.
  intros _ _ H. cbv [String.append] in H. by injection H as -> ->.
Qed.

Lemma bigram_set_NoDup (characters : list string) :
  NoDup characters ->
  Forall (fun c => String.length c = 1%nat) characters ->
  NoDup (bigram_set characters).
Proof.
  intros Hnd Hone. unfold bigram_set, permutations2.
  apply NoDup_fmap_2_strong; [|by apply permutations2_from_NoDup].
  intros [a b] [c d] Hab Hcd Heq. simpl in Heq.
  apply permutations2_from_members in Hab as [Ha _].
  apply permutations2_from_members in Hcd as [Hc _].
  rewrite Forall_forall in Hone.
  destruct (single_chars_join a b c d) as [-> ->]; auto.
Qed.

(** *** The normalized vector *)

Lemma counted_chars_only feature_text characters :
  NoDup characters ->
  norm_group (map char_key characters)
    (count_into feature_text char_key characters [])
  = scaled (counted feature_text char_key characters).
Proof.
  intros Hc.
  rewrite count_into_fresh
    by (simpl; apply NoDup_fmap_2; [intros ? ?; apply char_key_inj|done]).
  simpl. fold (counted feature_text char_key characters).
  rewrite <- (keys_of_counts char_key
                (fun x => inject_Z (Py.count feature_text x)) characters).
  fold (counted feature_text char_key characters).
  pose proof (norm_group_segment [] (counted feature_text char_key characters) [])
    as H.
  simpl in H. rewrite !app_nil_r in H. apply H.
  unfold counted. rewrite keys_of_counts.
  apply NoDup_fmap_2; [intros ? ?; apply char_key_inj|done].
Qed.

Lemma counted_chars_and_bigrams feature_text characters :
  NoDup characters -> NoDup (bigram_set characters) ->
  norm_group (map bigram_key (bigram_set characters))
    (norm_group (map char_key characters)
       (count_into feature_text bigram_key (bigram_set characters)
          (count_into feature_text char_key characters [])))
  = scaled (counted feature_text char_key characters)
    ++ scaled (counted feature_text bigram_key (bigram_set characters)).
Proof.
  intros Hc Hb.
  pose proof (feature_keys_distinct _ _ Hc Hb) as Hkeys.
  rewrite (count_into_fresh feature_text char_key)
    by (simpl; apply NoDup_fmap_2; [intros ? ?; apply char_key_inj|done]).
  simpl. fold (counted feature_text char_key characters).
  rewrite count_into_fresh
    by (unfold counted; by rewrite keys_of_counts).
  fold (counted feature_text bigram_key (bigram_set characters)).
  rewrite <- (keys_of_counts char_key
                (fun x => inject_Z (Py.count feature_text x)) characters).
  rewrite <- (keys_of_counts bigram_key
                (fun x => inject_Z (Py.count feature_text x))
                (bigram_set characters)).
  fold (counted feature_text char_key characters).
  fold (counted feature_text bigram_key (bigram_set characters)).
  pose proof (norm_group_segment [] (counted feature_text char_key characters)
                (counted feature_text bigram_key (bigram_set characters))) as H1.
  simpl in H1. rewrite H1.
  2:{ unfold counted. rewrite keys_of_counts.
      apply NoDup_fmap_2; [intros ? ?; apply char_key_inj|done]. }
  pose proof (norm_group_segment
                (scaled (counted feature_text char_key characters))
                (counted feature_text bigram_key (bigram_set characters)) [])
    as H2.
  rewrite !app_nil_r in H2. apply H2.
  rewrite scaled_keys. unfold counted. by rewrite !keys_of_counts.
Qed.


(** * Further properties of the code *)

(** ** Raising the threshold *)

Lemma annotate_threshold text (t1 t2 : Q) raw_date :
  (t1 <= t2)%Q ->
  match annotate text t2 raw_date with
  | Raise e => annotate text t1 raw_date = Raise e
  | Ok (Some a) => annotate text t1 raw_date = Ok (Some a)
  | Ok None => exists r, annotate text t1 raw_date = Ok r
  end.
Proof.
  intros Hle. unfold annotate. destruct raw_date as [d idx|d]; [|done].
  destruct (get_date_features _ _ _ _ _ _ _ _ _) as [row|e]; [|done].
  cbn [rbind].
  destruct (fill_features _ _ _ _) as [fl|e]; [|done].
  cbn [rbind].
  destruct (Qle_bool t2 _) eqn:H2.
  - apply Qle_bool_iff in H2.
    assert (Qle_bool t1 (snd (predict_proba MODEL_DATE fl)) = true) as ->; [|done].
    apply Qle_bool_iff. by apply (Qle_trans _ t2).
  - destruct (Qle_bool t1 _); eauto.
Qed.

(** X1.  Raising the threshold never adds a result: the annotations yielded
    at the higher threshold are a sublist of those yielded at the lower one,
    the run ends with the same exception or none, and the same holds for
    the values of [get_dates]. *)
Theorem threshold_is_monotone
    text strict locale base_date return_source (t1 t2 : Q) :
  (t1 <= t2)%Q ->
  (yielded (get_date_annotations text (Some strict) locale base_date t2)
     `sublist_of`
   yielded (get_date_annotations text (Some strict) locale base_date t1))
  /\ raised (get_date_annotations text (Some strict) locale base_date t2)
     = raised (get_date_annotations text (Some strict) locale base_date t1)
  /\ (yielded (get_dates text strict base_date return_source t2 locale)
        `sublist_of`
      yielded (get_dates text strict base_date return_source t1 locale)).
Proof.
  intros Hle.
  assert (forall raws ended,
            yielded (annotate_all text t2 raws ended)
              `sublist_of` yielded (annotate_all text t1 raws ended)
            /\ raised (annotate_all text t2 raws ended)
               = raised (annotate_all text t1 raws ended)) as Hall.
  { intros raws ended. induction raws as [|raw raws [IHy IHr]]; simpl; [done|].
    pose proof (annotate_threshold text t1 t2 raw Hle) as H.
    destruct (annotate text t2 raw) as [[a|]|e].
    - rewrite H. simpl. split; [by apply sublist_skip|done].
    - destruct H as [[a|] ->]; simpl; [|done].
      split; [by apply sublist_cons|done].
    - rewrite H. done. }
  unfold get_dates, get_date_annotations. simpl.
  destruct (Hall (yielded (get_raw_dates text strict base_date true
                             (LocaleObject (Locale_init locale))))
              (raised (get_raw_dates text strict base_date true
                         (LocaleObject (Locale_init locale)))))
    as [Hy Hr].
  repeat split; [done|done|].
  by apply fmap_sublist.
Qed.

(** ** The loop over the candidates, round by round *)

Lemma fold_left_seq_ind {S} (P : nat -> S -> Prop) (f : S -> nat -> S)
    (start len : nat) (s : S) :
  P start s ->
  (forall i st, (start <= i < start + len)%nat -> P i st -> P (Datatypes.S i) (f st i)) ->
  P (start + len)%nat (fold_left f (seq start len) s).
Proof.
  revert start s. induction len as [|len IH]; intros start s Hs Hstep; simpl.
  - by rewrite Nat.add_0_r.
  - rewrite <- Nat.add_succ_comm. apply IH.
    + apply Hstep; [lia|done].
    + intros i st Hi. apply Hstep. lia.
Qed.

Lemma day_of_merge_returns i dates matched cur :
  dates !! i = Some cur ->
  length matched = i ->
  exists s dates', day_of_merge i dates matched cur = Ok (s, dates').
Proof.
  intros Hcur Hlen. unfold day_of_merge.
  destruct (_ || _); [|eauto].
  destruct i as [|i].
  - destruct (index_last_exists _ _ Hcur) as [previous ->].
    rewrite bool_decide_eq_false_2 by lia. eauto.
  - rewrite index_previous by lia.
    assert (is_Some (dates !! (S i - 1)%nat)) as [previous ->].
    { apply lookup_lt_is_Some. apply lookup_lt_Some in Hcur. lia. }
    rewrite bool_decide_eq_true_2 by lia.
    assert (is_Some (matched !! (S i - 1)%nat)) as [m ->].
    { apply lookup_lt_is_Some. lia. }
    destruct (negb m && _) eqn:Hcond; [|eauto].
    apply andb_prop in Hcond as [_ Hone%bool_decide_eq_true].
    destruct (digits_modifier (cand_props previous)) as [|modifier [|? ?]];
      try discriminate Hone.
    cbn. eauto.
Qed.

Lemma filter_chain_returns i dates matched cur :
  dates !! i = Some cur ->
  length matched = i ->
  exists r, snd (filter_chain i dates matched cur) = Ok r.
Proof.
  intros Hcur Hlen. unfold filter_chain.
  destruct (day_of_merge_returns _ _ _ _ Hcur Hlen) as (s & dates' & Hmerge).
  rewrite Hmerge.
  destruct (day_of_merge_kept _ _ _ _ _ _ _ (kept_refl dates) Hcur Hmerge)
    as (_ & cur' & -> & _).
  destruct (rejected_before_cleanup _ _); [simpl; eauto|].
  destruct (rejected_after_cleanup _ _); simpl; eauto.
Qed.

Lemma loop_body_matched date_finder locale st i cur :
  possible_dates st !! i = Some cur ->
  failure st = None ->
  failure (loop_body date_finder locale st i) = None ->
  length (possible_matched (loop_body date_finder locale st i))
  = Datatypes.S (length (possible_matched st)).
Proof.
  intros Hcur Hfail. unfold loop_body. rewrite Hfail, Hcur.
  destruct (filter_chain _ _ _ _) as [dates [[[s p]|]|e]]; simpl;
    [|by rewrite length_app; simpl; lia|done].
  destruct (resolve _ _ _ _) as [[v|]|e]; simpl; try done;
    rewrite length_app; simpl; lia.
Qed.

Lemma loop_inv_step located date_finder locale i st :
  (i < length located)%nat ->
  loop_inv located i st ->
  loop_inv located (Datatypes.S i) (loop_body date_finder locale st i).
Proof.
  intros Hi [Hkept Hlen]. split; [by apply loop_body_kept|].
  intros Hnone.
  assert (is_Some (possible_dates st !! i)) as [cur Hcur].
  { apply lookup_lt_is_Some. by rewrite <- (Forall2_length _ _ _ Hkept). }
  destruct (failure st) eqn:Hfail.
  - unfold loop_body in Hnone. rewrite Hfail in Hnone. congruence.
  - rewrite (loop_body_matched _ _ _ _ _ Hcur Hfail Hnone). by rewrite Hlen.
Qed.

(** An invariant that holds at the start and is kept by every round, given
    the basic invariant, holds of the final state. *)
Lemma raw_dates_loop_ind (P : nat -> loop_state -> Prop)
    text strict base_date locale :
  let located := located text strict base_date in
  let date_finder := DateFinder_init (base_date_or_default base_date) in
  P 0%nat (loop_start located) ->
  (forall i st,
     (i < length located)%nat -> loop_inv located i st -> P i st ->
     P (Datatypes.S i) (loop_body date_finder (locale_object locale) st i)) ->
  P (length located) (raw_dates_loop text strict base_date locale)
  /\ loop_inv located (length located)
       (raw_dates_loop text strict base_date locale).
Proof.
  intros loc df H0 Hstep. unfold raw_dates_loop. fold loc df.
  apply and_comm.
  apply (fold_left_seq_ind
           (fun i st => loop_inv loc i st /\ P i st)
           (loop_body df (locale_object locale)) 0 (length loc)).
  - split; [|done]. split; [apply kept_refl|done].
  - intros i st Hi [Hinv HP]. split.
    + apply loop_inv_step; [lia|done].
    + apply Hstep; [lia|done|done].
Qed.

(** ** The spans of the yielded dates *)

Lemma loop_body_spans located date_finder locale i st :
  (i < length located)%nat ->
  loop_inv located i st ->
  map snd (produced st) `sublist_of` map cand_index (take i located) ->
  map snd (produced (loop_body date_finder locale st i))
    `sublist_of` map cand_index (take (Datatypes.S i) located).
Proof.
  intros Hi [Hkept _] Hsub.
  destruct (lookup_lt_is_Some_2 located i Hi) as [before Hbefore].
  rewrite (take_S_r _ _ _ Hbefore), map_app.
  destruct (Forall2_lookup_l _ _ _ _ _ Hkept Hbefore) as (cur & Hcur & Hframe & _).
  unfold loop_body. rewrite Hcur.
  destruct (failure st); [by apply sublist_inserts_r|].
  destruct (filter_chain _ _ _ _) as [dates [[[s p]|]|e]]; simpl;
    try by apply sublist_inserts_r.
  destruct (resolve _ _ _ _) as [[v|]|e]; simpl;
    try by apply sublist_inserts_r.
  rewrite map_app. apply sublist_app; [done|]. simpl.
  unfold frame in Hframe. injection Hframe as _ -> _ _ _ _ _. done.
Qed.

Lemma omap_with_source (l : list (date_value * (Z * Z))) :
  omap raw_index (map (fun r => WithSource (fst r) (snd r)) l) = map snd l.
Proof. induction l as [|r l IH]; [done|]. cbn. by f_equal. Qed.

(** X2.  The dates come out in the order of the candidates: the spans
    yielded with [return_source=True] are a sublist of
    the spans of the located candidates, and whatever [return_source] is,
    no more values are yielded than there are candidates. *)
Theorem yielded_spans_follow_candidates
    text strict base_date return_source locale :
  (omap raw_index (yielded (get_raw_dates text strict base_date true locale))
     `sublist_of` map cand_index (located text strict base_date))
  /\ (length (yielded (get_raw_dates text strict base_date return_source locale))
      <= length (located text strict base_date))%nat.
Proof.
  destruct (raw_dates_loop_ind
              (fun i st =>
                 map snd (produced st)
                   `sublist_of` map cand_index
                                  (take i (located text strict base_date)))
              text strict base_date locale) as [Hsub _].
  { done. }
  { intros i st Hi Hinv. by apply loop_body_spans. }
  rewrite firstn_all in Hsub.
  unfold get_raw_dates. simpl. split.
  - by rewrite omap_with_source.
  - rewrite length_map.
    apply sublist_length in Hsub. by rewrite !length_map in Hsub.
Qed.

(** ** The exceptions of a run *)

Lemma try_parse_raises date_finder date_string date_props locale e :
  try_parse date_finder date_string date_props locale = Raise e ->
  e = AttributeError.
Proof.
  unfold try_parse.
  destruct (parse_date_string _ _ _ _) as [d|e']; [done|].
  change (Locale_getattr locale "Error") with (@None attribute).
  by intros [= <-].
Qed.

Lemma first_parse_raises date_finder date_props locale attempts e :
  first_parse date_finder date_props locale attempts = Raise e ->
  e = AttributeError.
Proof.
  induction attempts as [|s attempts IH]; simpl; [done|].
  destruct (try_parse date_finder s date_props locale) as [[d|]|e'] eqn:Htry;
    simpl; [done|done|].
  intros [= <-]. by eapply try_parse_raises.
Qed.

Lemma int_raises s e : Py.int s = Raise e -> e = ValueError.
Proof.
  unfold Py.int.
  destruct (match Py.int_rstrip (Py.int_lstrip s) with
            | String "-" r => (-1, r)
            | String "+" r => (1, r)
            | _ => (1, Py.int_rstrip (Py.int_lstrip s))
            end) as [sign ds].
  destruct (Py.ungroup false ds) as [ds'|]; [|by intros [= <-]].
  destruct (Py.int_max_str_digits <? Py.len ds'); [by intros [= <-]|].
  destruct (Py.digits_value 0 ds'); [done|by intros [= <-]].
Qed.

Lemma ordinal_to_cardinal_raises s e :
  ordinal_to_cardinal s = Raise e -> e = ValueError.
Proof.
  unfold ordinal_to_cardinal. destruct (String.eqb _ ""); [done|].
  destruct (Py.int _) as [v|e'] eqn:Hint; simpl; [done|].
  intros [= <-]. by eapply int_raises.
Qed.

Lemma mapR_raises {A B} (f : A -> result B) (l : list A) (P : exn -> Prop) e :
  (forall x e, f x = Raise e -> P e) -> mapR f l = Raise e -> P e.
Proof.
  intros Hf. induction l as [|x l IH]; simpl; [done|].
  destruct (f x) as [y|e'] eqn:Hx; simpl; [|intros [= <-]; by eapply Hf].
  destruct (mapR f l) as [ys|e']; simpl; [done|].
  intros [= <-]. by apply IH.
Qed.

Lemma check_raises date date_props e :
  check_date_parts_are_in_date date date_props = Raise e -> e = ValueError.
Proof.
  unfold check_date_parts_are_in_date.
  destruct (mapR Py.int (digits date_props)) as [ds|e'] eqn:Hd; cbn [rbind].
  2:{ intros [= <-].
      by apply (mapR_raises _ _ (fun e => e = ValueError) _ int_raises Hd). }
  destruct (mapR ordinal_to_cardinal (digits_modifier date_props))
    as [cs|e'] eqn:Hc; cbn [rbind].
  2:{ intros [= <-].
      by apply (mapR_raises _ _ (fun e => e = ValueError) _
                  ordinal_to_cardinal_raises Hc). }
  cbv zeta.
  destruct (match date_prop_months date_props with [] => false | _ => _ end);
    [done|].
  destruct (fold_left _ _ _) as [removeable reassembled].
  destruct (existsb _ _); [|done].
  by destruct (filter _ _).
Qed.

Lemma resolve_raises date_finder locale date_string date_props e :
  resolve date_finder locale date_string date_props = Raise e ->
  e = AttributeError \/ e = ValueError.
Proof.
  unfold resolve. rewrite retry_is_first_parse.
  destruct (first_parse _ _ _ _) as [[d|]|e'] eqn:Hparse.
  - destruct (check_date_parts_are_in_date d date_props) as [ok|e'] eqn:Hcheck;
      cbn [rbind].
    + destruct (negb ok); [done|]. by destruct (isoformat_raises d).
    + intros [= <-]. right. by eapply check_raises.
  - done.
  - apply first_parse_raises in Hparse as ->. intros [= <-]. by left.
Qed.

Lemma loop_failure_kinds text strict base_date locale e :
  failure (raw_dates_loop text strict base_date locale) = Some e ->
  e = AttributeError \/ e = ValueError.
Proof.
  destruct (raw_dates_loop_ind
              (fun _ st => forall e, failure st = Some e ->
                                     e = AttributeError \/ e = ValueError)
              text strict base_date locale) as [H _]; [done| |by apply H].
  intros i st Hi [Hkept Hlen] IH e'.
  unfold loop_body.
  destruct (failure st) eqn:Hfail; [rewrite Hfail; by apply IH|].
  destruct (possible_dates st !! i) as [cur|] eqn:Hcur; [|by rewrite Hfail].
  destruct (filter_chain_returns _ _ _ _ Hcur (Hlen eq_refl)) as [r Hr].
  destruct (filter_chain _ _ _ _) as [dates [[[s p]|]|e'']]; simpl in *;
    [|done|done].
  destruct (resolve _ _ _ _) as [[v|]|e''] eqn:Hres; simpl; [done|done|].
  intros [= <-]. by eapply resolve_raises.
Qed.

(** X3.  A run of [get_raw_dates] ends normally, or with AttributeError (the
    parser raised and the handler could not read [locale.Error]), or with
    ValueError (a digit token that [int] refuses): the look-backs
    [possible_dates[i - 1]] and [possible_matched[i - 1]] never raise
    IndexError, and the TypeError handler lets nothing else through. *)
Theorem run_raises_only_attribute_or_value_error
    text strict base_date return_source locale e :
  raised (get_raw_dates text strict base_date return_source locale) = Some e ->
  e = AttributeError \/ e = ValueError.
Proof. apply loop_failure_kinds. Qed.

(** ** Ordinals as cardinals *)

Lemma digit_char_plain c :
  Py.isdigit c = true ->
  Py.int_space c = false /\ c <> "-"%char /\ c <> "+"%char /\ c <> "_"%char.
Proof.
  destruct c as [[] [] [] [] [] [] [] []]; vm_compute; intros H;
    try discriminate H; repeat split; discriminate.
Qed.

Lemma int_rstrip_digits s :
  all_chars Py.isdigit s = true -> Py.int_rstrip s = s.
Proof.
  induction s as [|c s IH]; simpl; [done|].
  intros [Hc Hs]%andb_prop. rewrite (IH Hs).
  destruct s; [|done].
  by destruct (digit_char_plain c Hc) as [-> _].
Qed.

Lemma int_strip_digits s :
  all_chars Py.isdigit s = true -> Py.int_rstrip (Py.int_lstrip s) = s.
Proof.
  intros H.
  assert (Py.int_lstrip s = s) as ->; [|by apply int_rstrip_digits].
  destruct s as [|c s]; simpl; [done|].
  simpl in H. apply andb_prop in H as [Hc _].
  by destruct (digit_char_plain c Hc) as [-> _].
Qed.

Lemma ungroup_digits s :
  all_chars Py.isdigit s = true -> Py.ungroup true s = Some s.
Proof.
  induction s as [|c s IH]; simpl; [done|].
  intros [Hc Hs]%andb_prop.
  destruct (digit_char_plain c Hc) as (_ & _ & _ & Hu).
  destruct (Ascii.eqb_spec c "_"); [done|].
  by rewrite (IH Hs).
Qed.

(** On a non-empty string of [isdigit] characters, [int] is the value of
    the digits, and ValueError when one of them is not decimal or when
    there are more than [int_max_str_digits] of them. *)
Lemma int_of_digit_chars s :
  s <> "" -> all_chars Py.isdigit s = true ->
  Py.int s = if Py.int_max_str_digits <? Py.len s then Raise ValueError
             else match Py.digits_value 0 s with
                  | Some v => Ok v
                  | None => Raise ValueError
                  end.
Proof.
  intros Hne Hall. unfold Py.int. rewrite (int_strip_digits s Hall).
  destruct s as [|c s]; [done|].
  pose proof Hall as Hall'. simpl in Hall'.
  apply andb_prop in Hall' as [Hc Hs].
  destruct (digit_char_plain c Hc) as (_ & Hm & Hp & Hu).
  assert (match String c s with
          | String "-" r => (-1, r)
          | String "+" r => (1, r)
          | _ => (1, String c s)
          end = (1, String c s)) as ->.
  { clear -Hc. destruct c as [[] [] [] [] [] [] [] []];
      try discriminate Hc; reflexivity. }
  cbn [Py.ungroup]. destruct (Ascii.eqb_spec c "_"); [done|].
  rewrite (ungroup_digits s Hs). cbn [option_map].
  destruct (Py.int_max_str_digits <? Py.len (String c s)); [done|].
  destruct (Py.digits_value 0 (String c s)) as [v|]; [|done].
  f_equal. lia.
Qed.

Lemma digits_value_decimal s acc :
  is_Some (Py.digits_value acc s) <-> all_chars Py.isdecimal s = true.
Proof.
  revert acc. induction s as [|c s IH]; intros acc; simpl.
  - split; [done|by eexists].
  - destruct (Py.isdecimal c); simpl; [apply IH|].
    split; [by intros [? ?]|done].
Qed.

Lemma digits_value_nonneg s acc v :
  0 <= acc -> Py.digits_value acc s = Some v -> 0 <= v.
Proof.
  revert acc. induction s as [|c s IH]; intros acc Hacc; simpl.
  - intros [= <-]. done.
  - destruct (Py.isdecimal c); [|done]. apply IH. lia.
Qed.

Lemma keep_chars_all p s : all_chars p (keep_chars p s) = true.
Proof.
  induction s as [|c s IH]; simpl; [done|].
  destruct (p c) eqn:Hc; simpl; [by rewrite Hc|done].
Qed.

Lemma keep_chars_app p s1 s2 :
  keep_chars p (s1 +:+ s2) = keep_chars p s1 +:+ keep_chars p s2.
Proof.
  induction s1 as [|c s1 IH]; [done|].
  change (String c s1 +:+ s2) with (String c (s1 +:+ s2)).
  cbn [keep_chars]. rewrite IH. by destruct (p c).
Qed.

Lemma keep_chars_id p s : all_chars p s = true -> keep_chars p s = s.
Proof.
  induction s as [|c s IH]; simpl; [done|].
  intros [-> Hs]%andb_prop. by rewrite IH.
Qed.

Lemma keep_chars_none p s :
  all_chars (fun c => negb (p c)) s = true -> keep_chars p s = "".
Proof.
  induction s as [|c s IH]; simpl; [done|].
  intros [Hc Hs]%andb_prop. apply negb_true_iff in Hc. by rewrite Hc, IH.
Qed.

Lemma decimal_is_digit s :
  all_chars Py.isdecimal s = true -> all_chars Py.isdigit s = true.
Proof.
  induction s as [|c s IH]; simpl; [done|].
  intros [Hc Hs]%andb_prop. rewrite (IH Hs).
  unfold Py.isdigit. by rewrite Hc.
Qed.

Lemma string_app_nil_r (s : string) : s +:+ "" = s.
Proof.
  induction s as [|c s IH]; [done|].
  change (String c s +:+ "") with (String c (s +:+ "")). by rewrite IH.
Qed.

(** X4.  [_ordinal_to_cardinal] keeps the characters that [str.isdigit]
    accepts: without any it returns [None]; when they are decimal digits,
    at most 4300 of them, it returns their non-negative value; when one of
    them is a superscript digit, or there are more than 4300, [int] refuses
    the string and ValueError is raised.  On a number followed by a suffix
    without digits ("22nd") it does what [int] does on the number. *)
Theorem ordinal_to_cardinal_cases (s : string) :
  let n := keep_chars Py.isdigit s in
  (n = "" -> ordinal_to_cardinal s = Ok None)
  /\ (n <> "" -> all_chars Py.isdecimal n = true ->
      Py.len n <= Py.int_max_str_digits ->
      exists v, 0 <= v /\ Py.digits_value 0 n = Some v
                /\ ordinal_to_cardinal s = Ok (Some v))
  /\ (all_chars Py.isdecimal n = false ->
      ordinal_to_cardinal s = Raise ValueError)
  /\ (Py.int_max_str_digits < Py.len n ->
      ordinal_to_cardinal s = Raise ValueError)
  /\ (forall number suffix,
        s = number +:+ suffix ->
        is_digits number = true ->
        all_chars (fun c => negb (Py.isdigit c)) suffix = true ->
        ordinal_to_cardinal s = (v <-r Py.int number ;; Ok (Some v))).
Proof.
  intros n.
  assert (n <> "" ->
          ordinal_to_cardinal s
          = if Py.int_max_str_digits <? Py.len n then Raise ValueError
            else match Py.digits_value 0 n with
                 | Some v => Ok (Some v)
                 | None => Raise ValueError
                 end) as Hcase.
  { intros Hne. unfold ordinal_to_cardinal. fold n.
    destruct (String.eqb_spec n ""); [done|].
    rewrite (int_of_digit_chars n Hne (keep_chars_all _ _)).
    destruct (Py.int_max_str_digits <? Py.len n); [done|].
    by destruct (Py.digits_value 0 n). }
  split; [|split; [|split; [|split]]].
  - intros Hn. unfold ordinal_to_cardinal. fold n. by rewrite Hn.
  - intros Hne Hdec Hlen. rewrite (Hcase Hne).
    destruct (Z.ltb_spec Py.int_max_str_digits (Py.len n)); [lia|].
    apply digits_value_decimal with (acc := 0) in Hdec as [v Hv].
    rewrite Hv. exists v. split; [|done].
    by eapply digits_value_nonneg.
  - intros Hdec.
    assert (n <> "") as Hne by (by intros Hn; rewrite Hn in Hdec).
    rewrite (Hcase Hne).
    destruct (Py.int_max_str_digits <? Py.len n); [done|].
    destruct (Py.digits_value 0 n) as [v|] eqn:Hv; [|done].
    assert (all_chars Py.isdecimal n = true); [|congruence].
    apply (digits_value_decimal n 0). by rewrite Hv.
  - intros Hlen.
    assert (n <> "") as Hne
      by (intros Hn; rewrite Hn in Hlen; vm_compute in Hlen; discriminate).
    rewrite (Hcase Hne).
    by destruct (Z.ltb_spec Py.int_max_str_digits (Py.len n)); [|lia].
  - intros number suffix -> [Hne Hdec]%andb_prop Hsuffix.
    assert (n = number) as Hn.
    { unfold n. rewrite keep_chars_app, (keep_chars_none _ _ Hsuffix),
        string_app_nil_r.
      apply keep_chars_id. by apply decimal_is_digit. }
    unfold ordinal_to_cardinal. fold n. rewrite Hn.
    destruct (String.eqb_spec number "") as [->|]; done.
Qed.

(** ** Runs that end normally *)

Lemma mapR_returns {A B} (f : A -> result B) (l : list A) :
  Forall (fun x => exists y, f x = Ok y) l -> exists ys, mapR f l = Ok ys.
Proof.
  induction 1 as [|x l [y Hy] _ [ys Hys]]; simpl; [eauto|].
  rewrite Hy. simpl. rewrite Hys. simpl. eauto.
Qed.

Lemma plain_digits_kept m :
  plain_digits m = true ->
  all_chars Py.isdecimal (keep_chars Py.isdigit m) = true
  /\ Py.len (keep_chars Py.isdigit m) <= Py.int_max_str_digits.
Proof.
  unfold plain_digits. intros [Hplain Hlen%Z.leb_le]%andb_prop.
  split; [|exact Hlen]. clear Hlen. revert Hplain.
  induction m as [|c m IH]; simpl; [done|].
  intros [Hc Hm]%andb_prop.
  destruct (Py.isdigit c); simpl in *; [|by apply IH].
  rewrite Hc. by apply IH.
Qed.

Lemma ordinal_to_cardinal_returns m :
  plain_digits m = true -> exists r, ordinal_to_cardinal m = Ok r.
Proof.
  intros [Hdec Hlen]%plain_digits_kept. unfold ordinal_to_cardinal.
  destruct (String.eqb_spec (keep_chars Py.isdigit m) "") as [|Hne]; [eauto|].
  destruct (int_decimals _ Hne Hdec Hlen) as [v ->].
  simpl. eauto.
Qed.

Lemma is_number_read d : is_number d = true -> exists v, Py.int d = Ok v.
Proof.
  unfold is_number, is_digits.
  intros [[Hne Hdec]%andb_prop Hlen%Z.leb_le]%andb_prop.
  apply int_decimals; [|done|done]. intros ->. discriminate Hne.
Qed.

Lemma check_returns date date_props :
  Forall (fun d => is_number d = true) (digits date_props) ->
  Forall (fun m => plain_digits m = true) (digits_modifier date_props) ->
  exists ok, check_date_parts_are_in_date date date_props = Ok ok.
Proof.
  intros Hd Hm.
  destruct (check_date_parts_are_in_date date date_props) as [ok|e] eqn:Hcheck;
    [eauto|exfalso].
  revert Hcheck. unfold check_date_parts_are_in_date.
  destruct (mapR_returns Py.int (digits date_props)) as [ds ->].
  { eapply Forall_impl; [exact Hd|]. intros d. apply is_number_read. }
  destruct (mapR_returns ordinal_to_cardinal (digits_modifier date_props))
    as [cs ->].
  { eapply Forall_impl; [exact Hm|]. intros m.
    apply ordinal_to_cardinal_returns. }
  cbn [rbind]. cbv zeta.
  destruct (match date_prop_months date_props with [] => false | _ => _ end);
    [done|].
  destruct (fold_left _ _ _) as [removeable reassembled].
  destruct (existsb _ _); [|done].
  by destruct (filter _ _).
Qed.

Lemma first_parse_returns date_finder date_props locale attempts :
  (forall s, exists r, parse_date_string date_finder s date_props locale = Ok r) ->
  exists r, first_parse date_finder date_props locale attempts = Ok r.
Proof.
  intros Hparse. induction attempts as [|s attempts IH]; simpl; [eauto|].
  unfold try_parse. destruct (Hparse s) as [[d|] ->]; simpl; eauto.
Qed.

Lemma resolve_returns date_finder locale date_string date_props :
  (forall s, exists r, parse_date_string date_finder s date_props locale = Ok r) ->
  Forall (fun d => is_number d = true) (digits date_props) ->
  Forall (fun m => plain_digits m = true) (digits_modifier date_props) ->
  exists r, resolve date_finder locale date_string date_props = Ok r.
Proof.
  intros Hparse Hd Hm. unfold resolve. rewrite retry_is_first_parse.
  destruct (first_parse_returns _ _ _ (attempts_back_first date_string) Hparse)
    as [[d|] ->]; [|eauto].
  destruct (check_returns d _ Hd Hm) as [ok ->]. cbn [rbind].
  destruct (negb ok); [eauto|]. destruct (isoformat_raises d); eauto.
Qed.

(** What the filter chain hands to the parser are the properties of the
    candidate as the chain leaves it. *)
Lemma filter_chain_passes i dates matched cur dates2 s p :
  dates !! i = Some cur ->
  filter_chain i dates matched cur = (dates2, Ok (Some (s, p))) ->
  exists cur2, dates2 !! i = Some cur2 /\ cand_props cur2 = p
               /\ frame cur2 = frame cur.
Proof.
  intros Hcur. unfold filter_chain.
  destruct (day_of_merge i dates matched cur) as [[s' dates']|e] eqn:Hmerge;
    [|by intros [= <- ?]].
  destruct (day_of_merge_kept _ _ _ _ _ _ _ (kept_refl dates) Hcur Hmerge)
    as (_ & cur' & Hcur' & Hframe & _).
  rewrite Hcur'.
  destruct (rejected_before_cleanup _ _); [by intros [= <- ?]|].
  destruct (rejected_after_cleanup _ _); [by intros [= <- ?]|].
  intros [= <- <- <-]. eexists. split.
  - apply list_lookup_insert_eq. by eapply lookup_lt_Some.
  - done.
Qed.

Lemma modifiers_of_candidate (dates : list candidate) i c :
  dates !! i = Some c ->
  Forall (fun m => plain_digits m = true) (all_modifiers dates) ->
  Forall (fun m => plain_digits m = true) (digits_modifier (cand_props c)).
Proof.
  intros Hc Hall. unfold all_modifiers in Hall.
  apply Forall_concat in Hall. rewrite Forall_forall in Hall.
  apply Hall.
  apply (list_elem_of_fmap_2 (fun c => digits_modifier (cand_props c))).
  by eapply list_elem_of_lookup_2.
Qed.

(** X5.  When the parser never raises, every digit token of the located
    candidates is a non-empty run of at most 4300 decimal digits and no
    digit modifier contains a superscript digit or more than 4300 digits,
    the run ends normally: every candidate gets its entry in
    [possible_matched] and [get_raw_date_list] returns the list of the
    yielded values. *)
Theorem run_ends_normally text strict base_date return_source locale :
  (forall s p l,
     exists r,
       parse_date_string (DateFinder_init (base_date_or_default base_date))
         s p l = Ok r) ->
  Forall (fun c => Forall (fun d => is_number d = true) (digits (cand_props c)))
    (located text strict base_date) ->
  Forall (fun m => plain_digits m = true)
    (all_modifiers (located text strict base_date)) ->
  raised (get_raw_dates text strict base_date return_source locale) = None
  /\ length (possible_matched (raw_dates_loop text strict base_date locale))
     = length (located text strict base_date)
  /\ get_raw_date_list text strict base_date return_source locale
     = Ok (yielded (get_raw_dates text strict base_date return_source locale)).
Proof.
  intros Hparse Hdigits Hmods.
  destruct (raw_dates_loop_ind
              (fun _ st =>
                 failure st = None
                 /\ Forall (fun m => plain_digits m = true)
                      (all_modifiers (possible_dates st)))
              text strict base_date locale) as [[Hnone _] [_ Hlen]].
  { done. }
  { intros i st Hi [Hkept Hlen] [Hfail Hall]. split.
    - assert (is_Some (possible_dates st !! i)) as [cur Hcur].
      { apply lookup_lt_is_Some. by rewrite <- (Forall2_length _ _ _ Hkept). }
      pose proof (filter_chain_modifiers _ _ (possible_matched st) _ Hcur)
        as Hperm.
      pose proof (filter_chain_kept _ _ _ (possible_matched st) _ Hkept Hcur)
        as Hkept2.
      unfold loop_body. rewrite Hfail, Hcur.
      destruct (filter_chain_returns _ _ _ _ Hcur (Hlen Hfail)) as [r Hr].
      destruct (filter_chain i (possible_dates st) (possible_matched st) cur)
        as [dates [[[s p]|]|e]] eqn:Hchain; simpl in *; [|done|done].
      destruct (filter_chain_passes _ _ _ _ _ _ _ Hcur Hchain)
        as (cur2 & Hcur2 & <- & Hframe).
      assert (exists r,
                resolve (DateFinder_init (base_date_or_default base_date))
                  (locale_object locale) s (cand_props cur2) = Ok r) as Hres.
      { apply resolve_returns.
        - intros s'. apply Hparse.
        - destruct (Forall2_lookup_r _ _ _ _ _ Hkept2 Hcur2)
            as (before & Hbefore & Hf & _).
          rewrite Forall_forall in Hdigits.
          unfold frame in Hf. injection Hf as _ _ -> _ _ _ _.
          apply Hdigits. by eapply list_elem_of_lookup_2.
        - eapply modifiers_of_candidate; [exact Hcur2|].
          by rewrite Hperm. }
      destruct Hres as [[v|] ->]; done.
    - by rewrite loop_body_modifiers. }
  unfold get_raw_date_list, list_of_run, get_raw_dates. simpl.
  rewrite Hnone. auto.
Qed.

(** ** Candidates without digits and months *)

Lemma rejected_without_evidence date_string date_props :
  digits date_props = [] -> months date_props = [] ->
  rejected_before_cleanup date_string date_props = true.
Proof.
  intros Hd Hm. unfold rejected_before_cleanup. cbv zeta.
  rewrite Hd, Hm. cbn [length].
  rewrite (bool_decide_eq_false_2 (1 < 0)%nat) by lia.
  rewrite (bool_decide_eq_false_2 (0 = 1)%nat) by lia.
  rewrite (bool_decide_eq_true_2 (0 = 0)%nat) by lia.
  rewrite (bool_decide_eq_true_2 (0 <= 1)%nat) by lia.
  cbn [andb].
  destruct (digits_modifier date_props) as [|m ms]; cbn [length].
  - rewrite (bool_decide_eq_false_2 (0 < 0)%nat) by lia. cbn [andb].
    rewrite (bool_decide_eq_true_2 (0 = 0)%nat) by lia.
    by destruct (bool_decide (0 < length (days date_props))%nat).
  - by rewrite (bool_decide_eq_true_2 (0 < Datatypes.S (length ms))%nat) by lia.
Qed.

Lemma filter_chain_without_evidence i dates matched cur :
  dates !! i = Some cur ->
  length matched = i ->
  digits (cand_props cur) = [] -> months (cand_props cur) = [] ->
  snd (filter_chain i dates matched cur) = Ok None.
Proof.
  intros Hcur Hlen Hd Hm. unfold filter_chain.
  destruct (day_of_merge_returns _ _ _ _ Hcur Hlen) as (s & dates' & Hmerge).
  rewrite Hmerge.
  destruct (day_of_merge_kept _ _ _ _ _ _ _ (kept_refl dates) Hcur Hmerge)
    as (_ & cur' & -> & Hframe & _).
  unfold frame in Hframe. injection Hframe as _ _ Hd' Hm' _ _ _.
  rewrite rejected_without_evidence; [done| |]; congruence.
Qed.

(** X6.  When no located candidate has a digit or a month (only ordinals,
    days of the week, delimiters and extra tokens), [get_raw_dates] yields
    nothing and ends normally, whatever the parser would do. *)
Theorem nothing_without_digits_and_months
    text strict base_date return_source locale :
  Forall (fun c => digits (cand_props c) = [] /\ months (cand_props c) = [])
    (located text strict base_date) ->
  get_raw_dates text strict base_date return_source locale
  = {| yielded := []; raised := None |}.
Proof.
  intros Hnone.
  destruct (raw_dates_loop_ind
              (fun _ st => failure st = None /\ produced st = [])
              text strict base_date locale) as [[Hfail Hprod] _].
  { done. }
  { intros i st Hi [Hkept Hlen] [Hfail Hprod].
    destruct (lookup_lt_is_Some_2 _ i Hi) as [before Hbefore].
    destruct (Forall2_lookup_l _ _ _ _ _ Hkept Hbefore)
      as (cur & Hcur & Hframe & _).
    rewrite Forall_forall in Hnone.
    destruct (Hnone before (list_elem_of_lookup_2 _ _ _ Hbefore)) as [Hd Hm].
    unfold frame in Hframe. injection Hframe as _ _ Hd' Hm' _ _ _.
    pose proof (filter_chain_without_evidence i (possible_dates st)
                  (possible_matched st) cur Hcur (Hlen Hfail)
                  ltac:(congruence) ltac:(congruence)) as Hchain.
    unfold loop_body. rewrite Hfail, Hcur.
    destruct (filter_chain _ _ _ _) as [dates r]. simpl in Hchain.
    rewrite Hchain. done. }
  unfold get_raw_dates. by rewrite Hfail, Hprod.
Qed.

(** ** What reaches the parser *)

Lemma rstrip_idempotent s : Py.rstrip (Py.rstrip s) = Py.rstrip s.
Proof.
  induction s as [|c s IH]; simpl; [done|].
  destruct (Py.rstrip s) as [|c' r] eqn:Hr.
  - destruct (Py.isspace c) eqn:Hc; simpl; [done|]. by rewrite Hc.
  - cbn [Py.rstrip]. cbn [Py.rstrip] in IH. by rewrite IH.
Qed.

Lemma rstrip_keeps_head c s :
  Py.isspace c = false ->
  exists r, Py.rstrip (String c s) = String c r.
Proof.
  intros Hc. simpl. destruct (Py.rstrip s); [rewrite Hc|]; eauto.
Qed.

Lemma lstrip_head s :
  Py.lstrip s = "" \/ exists c r, Py.lstrip s = String c r /\ Py.isspace c = false.
Proof.
  induction s as [|c s IH]; simpl; [by left|].
  destruct (Py.isspace c) eqn:Hc; [done|]. right. eauto.
Qed.

(** [strip] does nothing to a stripped string. *)
Lemma strip_idempotent s : Py.strip (Py.strip s) = Py.strip s.
Proof.
  unfold Py.strip.
  destruct (lstrip_head s) as [->|(c & r & -> & Hc)]; [done|].
  destruct (rstrip_keeps_head c r Hc) as [r' Hr]. rewrite Hr.
  cbn [Py.lstrip]. rewrite Hc, <- Hr. apply rstrip_idempotent.
Qed.

Lemma existsb_false_Forall {A} (f : A -> bool) (l : list A) :
  existsb f l = false -> Forall (fun x => f x = false) l.
Proof.
  induction l as [|x l IH]; simpl; [constructor|].
  intros [Hx Hl]%orb_false_elim. constructor; auto.
Qed.

(** What holds of the properties of a candidate that the rules before the
    cleanup let through. *)
Lemma passes_before_cleanup date_string date_props :
  rejected_before_cleanup date_string date_props = false ->
  (length (months date_props) <= 1)%nat
  /\ (digits date_props = [] ->
      digits_modifier date_props = [] /\ days date_props = []
      /\ length (months date_props) = 1%nat
      /\ Py.lower (Py.join "" (months date_props)) <> "may")
  /\ (months date_props = [] ->
      digits_modifier date_props <> []
      \/ (2 <= length (digits date_props))%nat)
  /\ Forall (fun digit => String.length digit <> 3%nat
                          /\ Py.startswith "00" digit = false)
       (digits date_props)
  /\ Re.match_ RE_ODD_DATE date_string = false
  /\ Re.search RE_ODD_MONTH date_string = false.
Proof.
  unfold rejected_before_cleanup. cbv zeta.
  destruct (bool_decide (1 < length (months date_props))%nat) eqn:R2;
    [discriminate|].
  destruct (bool_decide (length (months date_props) = 1%nat) && _) eqn:R3;
    [discriminate|].
  destruct (bool_decide (0 < length (digits_modifier date_props))%nat && _)
    eqn:R4; [discriminate|].
  destruct (bool_decide (0 < length (days date_props))%nat && _) eqn:R5;
    [discriminate|].
  destruct (bool_decide (length (months date_props) = 0%nat) && _ && _)
    eqn:R6; [discriminate|].
  destruct (Re.match_ RE_ODD_DATE date_string) eqn:R7; [discriminate|].
  destruct (negb _ && _ && negb (Re.match_ RE_DOTTED_DATE date_string))
    eqn:R8; [discriminate|].
  destruct (Re.search RE_ODD_MONTH date_string) eqn:R9; [discriminate|].
  destruct ((_ || _) && bool_decide (2 < length (digits date_props))%nat)
    eqn:R10; [discriminate|].
  destruct (existsb _ (digits date_props) || existsb _ (digits date_props))
    eqn:R11; [discriminate|].
  destruct (bool_decide (length (digits date_props) = 0%nat) && _ && _)
    eqn:R12; [discriminate|].
  intros _. clear R3 R8 R10.
  apply bool_decide_eq_false in R2.
  assert (forall A (l : list A), length l = 0%nat -> l = []) as Hnil
    by (by intros A []).
  assert (forall A (l : list A), l = [] -> length l = 0%nat) as Hlen
    by (by intros A l ->).
  split; [lia|]. split; [|split; [|split; [|done]]].
  - intros Hd%Hlen. rewrite Hd in R4, R5, R6, R12.
    rewrite (bool_decide_eq_true_2 (0 = 0)%nat) in R4, R5, R12 by done.
    rewrite (bool_decide_eq_true_2 (0 <= 1)%nat) in R6 by lia.
    rewrite andb_true_r in R4, R5, R6. cbn [andb] in R12.
    apply bool_decide_eq_false in R4. apply bool_decide_eq_false in R5.
    assert (length (digits_modifier date_props) = 0%nat) as Hm by lia.
    assert (length (days date_props) = 0%nat) as Hdays by lia.
    rewrite Hm in R6. rewrite Hdays in R12.
    rewrite (bool_decide_eq_true_2 (0 = 0)%nat) in R6, R12 by done.
    rewrite andb_true_r in R6. cbn [andb] in R12.
    apply bool_decide_eq_false in R6. apply String.eqb_neq in R12.
    repeat split; [by apply Hnil|by apply Hnil|lia|done].
  - intros Hm%Hlen. rewrite Hm in R6.
    rewrite (bool_decide_eq_true_2 (0 = 0)%nat) in R6 by done.
    cbn [andb] in R6. apply andb_false_iff in R6 as [R6|R6];
      apply bool_decide_eq_false in R6.
    + left. intros Hmod%Hlen. lia.
    + right. lia.
  - apply orb_false_elim in R11 as [Hthree Hzero].
    apply existsb_false_Forall in Hthree. apply existsb_false_Forall in Hzero.
    rewrite Forall_forall in Hthree, Hzero. apply Forall_forall.
    intros digit Hin. split; [|by apply Hzero].
    specialize (Hthree digit Hin). by apply bool_decide_eq_false in Hthree.
Qed.

Lemma passes_after_cleanup date_string date_props :
  rejected_after_cleanup date_string date_props = false ->
  Py.len date_string <= DATE_MAX_LENGTH
  /\ (months date_props = [] ->
      exists c,
        c ∈ list_ascii_of_string (Py.join "" (delimiters date_props))
        /\ c ∉ bad_delims).
Proof.
  unfold rejected_after_cleanup.
  destruct (Z.ltb_spec DATE_MAX_LENGTH (Py.len date_string)) as [|Hlen];
    [discriminate|].
  cbv zeta. intros Hrule. split; [done|].
  intros Hm. rewrite Hm in Hrule.
  rewrite (bool_decide_eq_true_2 (length (@nil string) = 0%nat)) in Hrule
    by done.
  rewrite andb_true_r in Hrule. apply bool_decide_eq_false in Hrule.
  apply size_non_empty_iff, set_choose in Hrule as [c Hc].
  apply elem_of_difference in Hc as [Hin Hbad].
  rewrite elem_of_list_to_set in Hin. rewrite elem_of_list_to_set in Hbad.
  by exists c.
Qed.

(** X7.  What the filter chain hands to the parser: a string of at most 40
    characters that [strip] leaves alone, with properties whose extra tokens
    are cleared and whose digits, months, days and delimiters are those of
    the candidate.  There is at most one month; no digit token has three
    characters or starts with "00"; a candidate without digits is a lone
    month name other than "may", without digit modifier or day of the week;
    a candidate without month has a digit modifier or at least two digit
    tokens, and some delimiter character other than comma, space, newline
    and tab. *)
Theorem parser_input_is_filtered
    i possible_dates possible_matched possible_date dates date_string
    date_props :
  possible_dates !! i = Some possible_date ->
  filter_chain i possible_dates possible_matched possible_date
  = (dates, Ok (Some (date_string, date_props))) ->
  (Py.len date_string <= DATE_MAX_LENGTH
   /\ Py.strip date_string = date_string
   /\ extra_tokens date_props = [])
  /\ (digits date_props = digits (cand_props possible_date)
      /\ months date_props = months (cand_props possible_date)
      /\ days date_props = days (cand_props possible_date)
      /\ delimiters date_props = delimiters (cand_props possible_date))
  /\ (length (months date_props) <= 1)%nat
  /\ Forall (fun digit => String.length digit <> 3%nat
                          /\ Py.startswith "00" digit = false)
       (digits date_props)
  /\ (digits date_props = [] ->
      digits_modifier date_props = [] /\ days date_props = []
      /\ length (months date_props) = 1%nat
      /\ Py.lower (Py.join "" (months date_props)) <> "may")
  /\ (months date_props = [] ->
      (digits_modifier date_props <> []
       \/ (2 <= length (digits date_props))%nat)
      /\ exists c,
           c ∈ list_ascii_of_string (Py.join "" (delimiters date_props))
           /\ c ∉ bad_delims).
Proof.
  intros Hcur. unfold filter_chain.
  destruct (day_of_merge i possible_dates possible_matched possible_date)
    as [[s' dates']|e] eqn:Hmerge; [|by intros [= <- ?]].
  destruct (day_of_merge_kept _ _ _ _ _ _ _ (kept_refl possible_dates)
              Hcur Hmerge) as (_ & cur' & -> & Hframe & _).
  destruct (rejected_before_cleanup s' (cand_props cur')) eqn:Hbefore;
    [by intros [= <- ?]|].
  destruct (rejected_after_cleanup _ _) eqn:Hafter; [by intros [= <- ?]|].
  intros [= <- <- <-].
  apply passes_before_cleanup in Hbefore
    as (Hmonths & Hnodigit & Hnomonth & Hdigits & _ & _).
  apply passes_after_cleanup in Hafter as (Hlen & Hdelims).
  unfold frame in Hframe. injection Hframe as _ _ Hd Hm Hdays Hdel _.
  split; [|split; [|split; [|split; [|split]]]].
  - split; [done|]. split; [apply strip_idempotent|done].
  - done.
  - done.
  - done.
  - done.
  - intros Hnone. split; [by apply Hnomonth|by apply Hdelims].
Qed.

(** ** Removing the ordinal suffix *)

Lemma all_chars_app p s1 s2 :
  all_chars p (s1 +:+ s2) = all_chars p s1 && all_chars p s2.
Proof.
  induction s1 as [|c s1 IH]; [done|].
  change (String c s1 +:+ s2) with (String c (s1 +:+ s2)).
  cbn [all_chars]. by rewrite IH, andb_assoc.
Qed.

Lemma all_chars_impl (p q : ascii -> bool) s :
  (forall c, p c = true -> q c = true) ->
  all_chars p s = true -> all_chars q s = true.
Proof.
  intros Hpq. induction s as [|c s IH]; simpl; [done|].
  intros [Hc Hs]%andb_prop. by rewrite (Hpq c Hc), IH.
Qed.

(** A string in which the first character of [old] does not occur is left
    alone by [replace(old, "")]. *)
Lemma remove_absent s a old :
  all_chars (fun c => negb (Ascii.eqb a c)) s = true ->
  Py.remove s (String a old) = s.
Proof.
  unfold Py.remove. induction s as [|c s IH]; [done|].
  cbn [all_chars]. intros [Hc Hs]%andb_prop. apply negb_true_iff in Hc.
  cbn [Py.remove_from Py.startswith]. rewrite Hc. by rewrite IH.
Qed.

(** A two-letter suffix is removed from the end of a string in which its
    first letter does not occur. *)
Lemma remove_at_end s a b :
  all_chars (fun c => negb (Ascii.eqb a c)) s = true ->
  Py.remove (s +:+ String a (String b "")) (String a (String b "")) = s.
Proof.
  unfold Py.remove. induction s as [|c s IH].
  - intros _. change ("" +:+ ?t) with t.
    cbn [Py.remove_from Py.startswith]. rewrite !Ascii.eqb_refl.
    cbn [Py.remove_from Py.startswith String.length Nat.sub].
    by rewrite ?Ascii.eqb_refl.
  - cbn [all_chars]. intros [Hc Hs]%andb_prop. apply negb_true_iff in Hc.
    change (String c s +:+ ?t) with (String c (s +:+ t)).
    cbn [Py.remove_from Py.startswith]. rewrite Hc. by rewrite IH.
Qed.

Lemma decimal_is_no_letter (a : ascii) s :
  Py.isdecimal a = false ->
  all_chars Py.isdecimal s = true ->
  all_chars (fun c => negb (Ascii.eqb a c)) s = true.
Proof.
  intros Ha. apply all_chars_impl. intros c Hc.
  apply negb_true_iff. destruct (Ascii.eqb_spec a c) as [->|]; congruence.
Qed.

(** X8.  On a run of decimal digits followed by "st", "nd", "rd" or "th",
    the four replacements of the merge leave exactly the digits: this is
    what the merge puts in front of the date string for "1st", "22nd",
    "3rd", "15th". *)
Theorem strip_ordinal_of_number (number suffix : string) :
  all_chars Py.isdecimal number = true ->
  suffix ∈ ["st"; "nd"; "rd"; "th"] ->
  strip_ordinal (number +:+ suffix) = number.
Proof.
  intros Hnum Hsuffix. unfold strip_ordinal.
  assert (forall a, Py.isdecimal a = false ->
                    all_chars (fun c => negb (Ascii.eqb a c)) number = true)
    as Hno by (intros a Ha; by apply decimal_is_no_letter).
  apply list_elem_of_In in Hsuffix.
  destruct Hsuffix as [<-|[<-|[<-|[<-|[]]]]].
  - rewrite remove_at_end by (by apply Hno).
    by repeat (rewrite (remove_absent number) by (by apply Hno)).
  - rewrite (remove_absent (number +:+ "nd"))
      by (rewrite all_chars_app, Hno by done; reflexivity).
    rewrite remove_at_end by (by apply Hno).
    by repeat (rewrite (remove_absent number) by (by apply Hno)).
  - rewrite !(remove_absent (number +:+ "rd"))
      by (rewrite all_chars_app, Hno by done; reflexivity).
    rewrite remove_at_end by (by apply Hno).
    by repeat (rewrite (remove_absent number) by (by apply Hno)).
  - rewrite !(remove_absent (number +:+ "th"))
      by (rewrite all_chars_app, Hno by done; reflexivity).
    by rewrite remove_at_end by (by apply Hno).
Qed.

(** ** The feature row *)

Lemma Qpositive_lt (q : Q) : Qpositive q = true -> (0 < q)%Q.
Proof.
  unfold Qpositive. intros H%negb_true_iff.
  apply Qnot_le_lt. intros Hle. apply Qle_bool_iff in Hle. congruence.
Qed.

Lemma Qsum_bounds (l : list Q) :
  Forall (fun v => (0 <= v)%Q) l ->
  (0 <= Qsum l)%Q /\ Forall (fun v => (v <= Qsum l)%Q) l.
Proof.
  induction 1 as [|x l Hx Hl [IH0 IH]].
  - split; [apply Qle_refl|constructor].
  - assert (Qsum (x :: l) == x + Qsum l)%Q as Hsum by apply Qsum_cons.
    split.
    + rewrite Hsum. rewrite <- (Qplus_0_l 0). by apply Qplus_le_compat.
    + constructor.
      * rewrite Hsum. rewrite <- (Qplus_0_r x) at 1.
        apply Qplus_le_compat; [apply Qle_refl|done].
      * eapply Forall_impl; [exact IH|]. intros v Hv. cbv beta in *.
        rewrite Hsum. rewrite <- (Qplus_0_l v).
        by apply Qplus_le_compat.
Qed.

Lemma counted_nonneg feature_text key items :
  Forall (fun kv : string * Q => (0 <= snd kv)%Q)
    (counted feature_text key items).
Proof.
  unfold counted. apply Forall_fmap, Forall_forall. intros x _. simpl.
  pose proof (count_nonneg feature_text x).
  unfold Qle. simpl. lia.
Qed.

Lemma scaled_unit (seg : dict Q) :
  Forall (fun kv => (0 <= snd kv)%Q) seg ->
  Forall (fun kv => (0 <= snd kv)%Q /\ (snd kv <= 1)%Q) (scaled seg)
  \/ scaled seg = seg /\ Qpositive (Qsum (map snd seg)) = false.
Proof.
  intros Hnn. unfold scaled.
  destruct (Qpositive (Qsum (map snd seg))) eqn:Hpos; [left|by right].
  apply Qpositive_lt in Hpos.
  assert (Forall (fun v => (0 <= v)%Q) (map snd seg)) as Hnn'
    by (by apply Forall_fmap).
  destruct (Qsum_bounds (map snd seg) Hnn') as [_ Hle].
  apply Forall_fmap, Forall_forall. intros kv Hin. simpl.
  pose proof (proj1 (Forall_forall _ _) Hnn kv Hin) as Hnn1.
  pose proof (proj1 (Forall_forall _ _) Hle (snd kv)
                (list_elem_of_fmap_2 snd _ _ Hin)) as Hle1.
  simpl in Hnn1, Hle1.
  by apply div_in_unit.
Qed.

Lemma Qpositive_false_sum (l : list Q) :
  Forall (fun v => (0 <= v)%Q) l -> Qpositive (Qsum l) = false ->
  Forall (fun v => (v <= 1)%Q) l.
Proof.
  intros Hnn Hpos. destruct (Qsum_bounds l Hnn) as [_ Hle].
  apply negb_false_iff, Qle_bool_iff in Hpos.
  eapply Forall_impl; [exact Hle|]. intros v Hv. cbv beta in Hv.
  apply (Qle_trans _ 0); [by apply (Qle_trans _ (Qsum l))|done].
Qed.

Lemma scaled_in_unit (seg : dict Q) :
  Forall (fun kv => (0 <= snd kv)%Q) seg ->
  Forall (fun kv => (0 <= snd kv)%Q /\ (snd kv <= 1)%Q) (scaled seg).
Proof.
  intros Hnn. destruct (scaled_unit seg Hnn) as [H|[-> Hpos]]; [done|].
  assert (Forall (fun v => (v <= 1)%Q) (map snd seg)) as Hle
    by (apply Qpositive_false_sum; [by apply Forall_fmap|done]).
  apply Forall_forall. intros kv Hin. split.
  - by apply (proj1 (Forall_forall _ _) Hnn kv Hin).
  - by apply (proj1 (Forall_forall _ _) Hle (snd kv)
                (list_elem_of_fmap_2 snd _ _ Hin)).
Qed.

Lemma length_permutations2_from {A} (before l : list A) :
  length (permutations2_from before l)
  = (length l * (length before + length l - 1))%nat.
Proof.
  revert before. induction l as [|x after IH]; intros before; simpl; [done|].
  rewrite length_app, length_map, IH, !length_app. simpl. nia.
Qed.

Lemma length_bigram_set (characters : list string) :
  length (bigram_set characters)
  = (length characters * (length characters - 1))%nat.
Proof.
  unfold bigram_set, permutations2.
  by rewrite length_map, length_permutations2_from.
Qed.

Lemma dict_keys_app {V} (d1 d2 : dict V) :
  dict_keys (d1 ++ d2) = dict_keys d1 ++ dict_keys d2.
Proof. unfold dict_keys. apply fmap_app. Qed.

Lemma feature_row_explicit
    txt start_index end_index characters alphabet_char_set
    (include_bigrams : bool) window (norm : bool) :
  NoDup characters ->
  Forall (fun c => String.length c = 1%nat) characters ->
  let feature_text := feature_window txt start_index end_index window in
  get_date_features txt start_index end_index characters alphabet_char_set
    include_bigrams window norm false
  = Ok ((if norm then scaled (counted feature_text char_key characters)
         else counted feature_text char_key characters)
        ++ (if include_bigrams
            then (if norm
                  then scaled (counted feature_text bigram_key
                                 (bigram_set characters))
                  else counted feature_text bigram_key (bigram_set characters))
            else [])).
Proof.
  intros Hnd Hone feature_text.
  pose proof (bigram_set_NoDup characters Hnd Hone) as Hb.
  unfold get_date_features. cbv zeta. fold feature_text.
  destruct norm, include_bigrams.
  - by rewrite counted_chars_and_bigrams.
  - by rewrite counted_chars_only, app_nil_r.
  - rewrite (count_into_fresh feature_text char_key)
      by (simpl; apply NoDup_fmap_2; [intros ? ?; apply char_key_inj|done]).
    simpl. fold (counted feature_text char_key characters).
    rewrite count_into_fresh.
    + done.
    + unfold counted. rewrite keys_of_counts.
      by apply feature_keys_distinct.
  - rewrite (count_into_fresh feature_text char_key)
      by (simpl; apply NoDup_fmap_2; [intros ? ?; apply char_key_inj|done]).
    simpl. by rewrite app_nil_r.
Qed.

Lemma feature_row_keys
    txt start_index end_index characters alphabet_char_set
    (include_bigrams : bool) window (norm : bool) :
  NoDup characters ->
  Forall (fun c => String.length c = 1%nat) characters ->
  exists row,
    get_date_features txt start_index end_index characters alphabet_char_set
      include_bigrams window norm false = Ok row
    /\ dict_keys row = feature_keys characters include_bigrams
    /\ NoDup (dict_keys row).
Proof.
  intros Hnd Hone.
  pose proof (bigram_set_NoDup characters Hnd Hone) as Hb.
  eexists. split; [by apply feature_row_explicit|].
  set (feature_text := feature_window txt start_index end_index window).
  assert (dict_keys
            ((if norm then scaled (counted feature_text char_key characters)
              else counted feature_text char_key characters)
             ++ (if include_bigrams
                 then (if norm
                       then scaled (counted feature_text bigram_key
                                      (bigram_set characters))
                       else counted feature_text bigram_key
                              (bigram_set characters))
                 else []))
          = feature_keys characters include_bigrams) as Hkeys.
  { unfold feature_keys. rewrite dict_keys_app. f_equal.
    - destruct norm; [rewrite scaled_keys|]; apply keys_of_counts.
    - destruct include_bigrams; [|done].
      destruct norm; [rewrite scaled_keys|]; apply keys_of_counts. }
  split; [exact Hkeys|].
  rewrite Hkeys. unfold feature_keys. destruct include_bigrams.
  - by apply feature_keys_distinct.
  - rewrite app_nil_r.
    apply NoDup_fmap_2; [intros ? ?; apply char_key_inj|done].
Qed.

(** X9.  For an alphabet of distinct single characters and without the
    word counts, the feature row has one [char_] entry per character, in
    the order of the alphabet, followed when bigrams are included by one
    [bigram_] entry per ordered pair of different characters: n + n(n-1)
    entries.  No value is negative; with [norm] (values taken as exact
    rationals) no value exceeds 1, and without it the values are the
    numbers of occurrences in the stripped window. *)
Theorem feature_row_layout
    txt start_index end_index characters alphabet_char_set
    (include_bigrams : bool) window (norm : bool) :
  NoDup characters ->
  Forall (fun c => String.length c = 1%nat) characters ->
  exists row,
    get_date_features txt start_index end_index characters alphabet_char_set
      include_bigrams window norm false = Ok row
    /\ dict_keys row = feature_keys characters include_bigrams
    /\ NoDup (dict_keys row)
    /\ length row
       = (length characters
          + if include_bigrams
            then length characters * (length characters - 1) else 0)%nat
    /\ Forall (fun kv => (0 <= snd kv)%Q /\ (norm = true -> (snd kv <= 1)%Q))
         row
    /\ (norm = false ->
        row = raw_counts (feature_window txt start_index end_index window)
                characters include_bigrams).
Proof.
  intros Hnd Hone.
  destruct (feature_row_keys txt start_index end_index characters
              alphabet_char_set include_bigrams window norm Hnd Hone)
    as (row & Hrow & Hkeys & Hdistinct).
  exists row. split; [exact Hrow|]. split; [exact Hkeys|].
  split; [exact Hdistinct|].
  rewrite feature_row_explicit in Hrow by done.
  injection Hrow as <-.
  set (feature_text := feature_window txt start_index end_index window)
    in *.
  split.
  { rewrite <- (length_map fst). change (map fst ?l) with (dict_keys l).
    rewrite Hkeys.
    unfold feature_keys. rewrite length_app, length_map.
    destruct include_bigrams; [|done].
    by rewrite length_map, length_bigram_set. }
  split.
  { apply Forall_app. split.
    - destruct norm.
      + eapply Forall_impl; [apply scaled_in_unit, counted_nonneg|].
        intros kv [H0 H1]. done.
      + eapply Forall_impl; [apply counted_nonneg|]. intros kv H0. done.
    - destruct include_bigrams; [|constructor].
      destruct norm.
      + eapply Forall_impl; [apply scaled_in_unit, counted_nonneg|].
        intros kv [H0 H1]. done.
      + eapply Forall_impl; [apply counted_nonneg|]. intros kv H0. done. }
  intros ->. done.
Qed.

(** ** From the feature row to the feature list *)

Lemma fill_features_length feature_row cols :
  forall i feature_list result,
    fill_features feature_row i cols feature_list = Ok result ->
    length result = length feature_list.
Proof.
  induction cols as [|col cols IH]; intros i fl result; simpl.
  - by intros [= <-].
  - destruct (dict_get col feature_row) as [v|]; [|done].
    case_bool_decide; [|done].
    intros Hr%IH. by rewrite length_insert in Hr.
Qed.

Lemma fill_features_fills feature_row cols :
  forall i feature_list,
    Forall (is_present feature_row) cols ->
    (i + length cols <= length feature_list)%nat ->
    fill_features feature_row i cols feature_list
    = Ok (take i feature_list ++ map (dict_item feature_row) cols
          ++ drop (i + length cols) feature_list).
Proof.
  induction cols as [|col cols IH]; intros i fl Hall Hlen; simpl.
  - by rewrite Nat.add_0_r, take_drop.
  - apply Forall_cons in Hall as [[v Hv] Hall]. simpl in Hlen.
    rewrite Hv. rewrite bool_decide_true by lia.
    rewrite IH by (rewrite ?length_insert; done || lia).
    rewrite (take_S_r _ _ v) by (apply list_lookup_insert_eq; lia).
    rewrite take_insert_ge by lia.
    rewrite drop_insert_lt by lia.
    unfold dict_item at 2. rewrite Hv. simpl.
    rewrite <- app_assoc. simpl. by rewrite Nat.add_succ_r.
Qed.

Lemma fill_features_app feature_row pre rest :
  forall i feature_list,
    fill_features feature_row i (pre ++ rest) feature_list
    = (filled <-r fill_features feature_row i pre feature_list ;;
       fill_features feature_row (i + length pre) rest filled).
Proof.
  induction pre as [|col pre IH]; intros i fl; simpl.
  - by rewrite Nat.add_0_r.
  - destruct (dict_get col feature_row) as [v|]; [|done].
    case_bool_decide; [|done].
    rewrite IH. by rewrite Nat.add_succ_r.
Qed.

Lemma drop_repeat {A} (x : A) (n k : nat) :
  drop k (repeat x n) = repeat x (n - k).
Proof.
  revert k. induction n as [|n IH]; intros [|k]; simpl; done.
Qed.

Lemma dict_item_of_keys (d : dict Q) :
  NoDup (dict_keys d) ->
  Forall (is_present d) (dict_keys d)
  /\ map (dict_item d) (dict_keys d) = map snd d.
Proof.
  intros Hnd.
  assert (forall pre post, d = pre ++ post -> NoDup (dict_keys d) ->
            Forall (is_present d) (dict_keys post)
            /\ map (dict_item d) (dict_keys post) = map snd post) as H.
  { clear Hnd. intros pre post. revert pre.
    induction post as [|[k v] post IH]; intros pre -> Hnd; [done|].
    assert (k ∉ dict_keys pre) as Hk.
    { rewrite dict_keys_app in Hnd. apply NoDup_app in Hnd as (_ & Hdis & _).
      intros Hin. apply (Hdis _ Hin). left. }
    destruct (IH (pre ++ [(k, v)])) as [IH1 IH2].
    { by rewrite <- app_assoc. }
    { exact Hnd. }
    split.
    - constructor; [|done]. unfold is_present. by rewrite dict_get_here.
    - simpl. rewrite dict_item_here by done. by rewrite IH2. }
  by apply (H [] d).
Qed.

Lemma fill_features_from_start feature_row cols (n : nat) :
  Forall (is_present feature_row) cols -> (length cols <= n)%nat ->
  fill_features feature_row 0 cols (repeat 0%Q n)
  = Ok (map (dict_item feature_row) cols ++ repeat 0%Q (n - length cols)).
Proof.
  intros Hall Hlen.
  rewrite fill_features_fills by (rewrite ?repeat_length; done || lia).
  simpl. by rewrite drop_repeat.
Qed.

Lemma fill_features_own_keys (feature_row : dict Q) :
  NoDup (dict_keys feature_row) ->
  fill_features feature_row 0 (dict_keys feature_row)
    (repeat 0%Q (length feature_row))
  = Ok (map snd feature_row).
Proof.
  intros Hnd.
  destruct (dict_item_of_keys feature_row Hnd) as [Hall Hvalues].
  rewrite fill_features_from_start;
    [|done|unfold dict_keys; by rewrite length_map].
  unfold dict_keys at 2. rewrite length_map, Nat.sub_diag. simpl.
  by rewrite app_nil_r, Hvalues.
Qed.

(** X10.  The loop that copies the feature row into the feature list: when
    every column of the model is a key of the row and there are no more
    columns than entries in the list, the list holds the values of the
    columns in order, followed by the zeros it was created with; the first
    column that is no key raises KeyError; a column beyond the length of
    the list raises IndexError.  When the columns are the keys of the row,
    the list is the values of the row in order. *)
Theorem fill_features_cases (feature_row : dict Q) (cols : list string)
    (n : nat) :
  (Forall (is_present feature_row) cols -> (length cols <= n)%nat ->
   fill_features feature_row 0 cols (repeat 0%Q n)
   = Ok (map (dict_item feature_row) cols
         ++ repeat 0%Q (n - length cols)))
  /\ (forall pre col post,
        cols = pre ++ col :: post ->
        Forall (is_present feature_row) pre -> (length pre <= n)%nat ->
        dict_get col feature_row = None ->
        fill_features feature_row 0 cols (repeat 0%Q n) = Raise KeyError)
  /\ (forall pre col post,
        cols = pre ++ col :: post ->
        Forall (is_present feature_row) pre -> length pre = n ->
        is_present feature_row col ->
        fill_features feature_row 0 cols (repeat 0%Q n) = Raise IndexError)
  /\ (cols = dict_keys feature_row -> n = length feature_row ->
      NoDup (dict_keys feature_row) ->
      fill_features feature_row 0 cols (repeat 0%Q n)
      = Ok (map snd feature_row)).
Proof.
  pose proof (fill_features_from_start feature_row) as Hfill.
  split; [apply Hfill|]. split; [|split].
  - intros pre col post -> Hall Hlen Hnone.
    rewrite fill_features_app, (Hfill pre n Hall Hlen). cbn [rbind].
    simpl. by rewrite Hnone.
  - intros pre col post -> Hall Hlen [v Hv].
    rewrite fill_features_app, (Hfill pre n Hall) by lia. cbn [rbind].
    simpl. rewrite Hv. rewrite bool_decide_false; [done|].
    rewrite length_app, length_map, repeat_length. lia.
  - intros -> -> Hnd. by apply fill_features_own_keys.
Qed.

(** ** What the classifier stage does to the raw dates *)

Lemma annotate_source txt threshold raw_date a :
  annotate txt threshold raw_date = Ok (Some a) ->
  raw_date = with_source_of a
  /\ text a = Py.slice txt (fst (coords a)) (snd (coords a)).
Proof.
  unfold annotate. destruct raw_date as [d idx|d]; [|discriminate].
  destruct (get_date_features _ _ _ _ _ _ _ _ _) as [row|e]; [|discriminate].
  cbn [rbind].
  destruct (fill_features _ _ _ _) as [fl|e]; [|discriminate].
  cbn [rbind].
  destruct (Qle_bool threshold _); [|discriminate].
  by intros [= <-].
Qed.

Lemma annotate_all_sources txt threshold raws ended :
  map with_source_of (yielded (annotate_all txt threshold raws ended))
    `sublist_of` raws
  /\ Forall (fun a => text a = Py.slice txt (fst (coords a)) (snd (coords a)))
       (yielded (annotate_all txt threshold raws ended))
  /\ (raised (annotate_all txt threshold raws ended) = None -> ended = None).
Proof.
  induction raws as [|raw raws (IH1 & IH2 & IH3)]; simpl; [done|].
  destruct (annotate txt threshold raw) as [[a|]|e] eqn:Ha; simpl.
  - apply annotate_source in Ha as [-> Htext].
    split; [by apply sublist_skip|]. split; [by constructor|done].
  - split; [by apply sublist_cons|done].
  - split; [apply sublist_nil_l|]. split; [constructor|done].
Qed.

(** X11.  The classifier stage only filters.  The annotations of
    [get_date_annotations] are, in order, made from a subsequence of what
    [get_raw_dates] yields for the same text with the locale object, each
    with the text between its coordinates; the values of [get_dates] are a
    subsequence of the raw values; an exception that ends the raw run is
    never swallowed; and when [get_dates_list] returns, so does
    [get_raw_date_list], with a list that the dates are a subsequence of. *)
Theorem classifier_only_filters
    txt strict base_date return_source threshold locale :
  let raw rs :=
    get_raw_dates txt strict base_date rs (LocaleObject (Locale_init locale)) in
  let annotations :=
    get_date_annotations txt (Some strict) locale base_date threshold in
  (map with_source_of (yielded annotations) `sublist_of` yielded (raw true))
  /\ Forall (fun a => text a = Py.slice txt (fst (coords a)) (snd (coords a)))
       (yielded annotations)
  /\ (yielded (get_dates txt strict base_date return_source threshold locale)
        `sublist_of` yielded (raw return_source))
  /\ (raised annotations = None -> raised (raw true) = None)
  /\ (forall l,
        get_dates_list txt strict base_date return_source threshold locale
        = Ok l ->
        exists raws,
          get_raw_date_list txt strict base_date return_source
            (LocaleObject (Locale_init locale)) = Ok raws
          /\ l `sublist_of` raws).
Proof.
  intros raw annotations.
  destruct (annotate_all_sources txt threshold (yielded (raw true))
              (raised (raw true))) as (H1 & H2 & H3).
  fold annotations in H1, H2, H3.
  assert (yielded (get_dates txt strict base_date return_source threshold
                     locale)
            `sublist_of` yielded (raw return_source)) as H4.
  { unfold get_dates. fold annotations. cbn [yielded].
    set (h := fun r : raw_date =>
                match r with
                | WithSource d c => if return_source then WithSource d c
                                    else Bare d
                | Bare d => Bare d
                end).
    assert (map (fun ant => if return_source
                            then WithSource (date ant) (coords ant)
                            else Bare (date ant)) (yielded annotations)
            = map h (map with_source_of (yielded annotations))) as ->.
    { rewrite map_map. apply map_ext. intros a. done. }
    assert (yielded (raw return_source) = map h (yielded (raw true))) as ->.
    { unfold raw, get_raw_dates. cbn [yielded]. rewrite map_map.
      apply map_ext. intros r. done. }
    by apply fmap_sublist. }
  repeat split; try done.
  intros l. unfold get_dates_list, get_raw_date_list, list_of_run.
  assert (raised (get_dates txt strict base_date return_source threshold
                    locale) = raised annotations) as -> by done.
  destruct (raised annotations) as [e|] eqn:Hraised; [done|].
  intros [= <-].
  assert (raised (raw return_source) = raised (raw true)) as Hsame by done.
  fold (raw return_source). rewrite Hsame, H3 by done.
  eauto.
Qed.

(** ** Exceptions of the classifier stage *)

Lemma fill_features_raises feature_row cols :
  forall i feature_list e,
    fill_features feature_row i cols feature_list = Raise e ->
    e = KeyError \/ e = IndexError.
Proof.
  induction cols as [|col cols IH]; intros i fl e; simpl; [done|].
  destruct (dict_get col feature_row) as [v|]; [|intros [= <-]; by left].
  case_bool_decide; [apply IH|intros [= <-]; by right].
Qed.

Lemma annotate_raises txt threshold d coordinates e :
  annotate txt threshold (WithSource d coordinates) = Raise e ->
  e = KeyError \/ e = IndexError.
Proof.
  unfold annotate, get_date_features. cbn [rbind].
  destruct (fill_features _ _ _ _) as [fl|e'] eqn:Hfill; cbn [rbind].
  - by destruct (Qle_bool threshold _).
  - intros [= <-]. by eapply fill_features_raises.
Qed.

Lemma annotate_all_raises txt threshold (produced : list (date_value * (Z * Z)))
    ended e :
  raised (annotate_all txt threshold
            (map (fun r => WithSource (fst r) (snd r)) produced) ended)
  = Some e ->
  e = KeyError \/ e = IndexError \/ ended = Some e.
Proof.
  induction produced as [|[d c] produced IH]; [simpl; by auto|].
  cbn [map annotate_all fst snd].
  destruct (annotate txt threshold (WithSource d c)) as [[a|]|e'] eqn:Ha;
    cbn [raised]; [apply IH|apply IH|].
  intros [= <-]. destruct (annotate_raises _ _ _ _ _ Ha); auto.
Qed.

Lemma annotate_all_returns txt threshold raws ended :
  Forall (fun raw => exists r, annotate txt threshold raw = Ok r) raws ->
  raised (annotate_all txt threshold raws ended) = ended.
Proof.
  induction 1 as [|raw raws [[a|] Hr] _ IH]; simpl; [done| |];
    by rewrite Hr.
Qed.

(** X12.  A run of [get_date_annotations] ends normally or with one of four
    exceptions: AttributeError or ValueError from the raw stage, KeyError
    for a model column that is no feature name, IndexError for more columns
    than features; never TypeError, since every raw date comes with its
    span and the word counts are off.  When the alphabet has distinct
    single characters and the model's columns are the feature names in
    order, the classifier stage raises nothing: the run ends as the raw
    run does. *)
Theorem annotations_raise txt strict locale base_date threshold :
  let raw :=
    get_raw_dates txt strict base_date true
      (LocaleObject (Locale_init locale)) in
  let annotations :=
    get_date_annotations txt (Some strict) locale base_date threshold in
  (forall e, raised annotations = Some e ->
             e ∈ [AttributeError; ValueError; KeyError; IndexError])
  /\ (NoDup DATE_MODEL_CHARS ->
      Forall (fun c => String.length c = 1%nat) DATE_MODEL_CHARS ->
      columns MODEL_DATE = feature_keys DATE_MODEL_CHARS true ->
      raised annotations = raised raw).
Proof.
  intros raw annotations. split.
  - intros e He. unfold annotations, get_date_annotations in He.
    cbn [default] in He. unfold get_raw_dates in He. cbn [yielded raised] in He.
    apply annotate_all_raises in He as [-> | [-> | He]]; [member|member|].
    apply loop_failure_kinds in He as [-> | ->]; member.
  - intros Hnd Hone Hcols. unfold annotations, get_date_annotations.
    cbn [default]. fold raw. apply annotate_all_returns.
    unfold raw, get_raw_dates. cbn [yielded].
    apply Forall_fmap, Forall_forall. intros [d c] _.
    cbv [compose]. cbn [fst snd]. unfold annotate.
    destruct (feature_row_keys txt (fst c) (snd c) DATE_MODEL_CHARS
                AlphabetFalse true 5 true Hnd Hone)
      as (row & -> & Hkeys & Hrow).
    cbn [rbind]. rewrite Hcols, <- Hkeys.
    rewrite (fill_features_own_keys row Hrow).
    cbn [rbind]. destruct (Qle_bool threshold _); eauto.
Qed.

(** ** Splitting the candidate text into words *)

Lemma string_of_list_ascii_snoc (l : list ascii) (c : ascii) :
  string_of_list_ascii (l ++ [c])
  = string_of_list_ascii l +:+ String c "".
Proof.
  induction l as [|a l IH]; [done|].
  simpl. rewrite IH. done.
Qed.

Lemma string_app_assoc (s1 s2 s3 : string) :
  (s1 +:+ s2) +:+ s3 = s1 +:+ (s2 +:+ s3).
Proof.
  induction s1 as [|c s1 IH]; [done|].
  change (String c s1 +:+ ?t) with (String c (s1 +:+ t)).
  change (String c (s1 +:+ s2) +:+ s3) with (String c ((s1 +:+ s2) +:+ s3)).
  by rewrite IH.
Qed.

Lemma join_empty_cons (x : string) (l : list string) :
  Py.join "" (x :: l) = x +:+ Py.join "" l.
Proof.
  destruct l as [|y l]; simpl.
  - by rewrite string_app_nil_r.
  - done.
Qed.

Lemma string_of_list_ascii_empty (l : list ascii) :
  string_of_list_ascii l = "" -> l = [].
Proof. by destruct l. Qed.

Lemma rev_empty {A} (l : list A) : rev l = [] -> l = [].
Proof.
  intros H. apply (f_equal (@rev A)) in H. by rewrite rev_involutive in H.
Qed.

Lemma split_runs_spec (cls : ascii -> bool) (s : string) :
  forall (cur : list ascii) (in_run : bool),
    (in_run = true -> cur = []) ->
    all_chars (fun c => negb (cls c)) (string_of_list_ascii (rev cur)) = true ->
    let wrds := Re.split_runs cls cur in_run s in
    wrds <> []
    /\ Forall (fun w => all_chars (fun c => negb (cls c)) w = true) wrds
    /\ Py.join "" wrds
       = string_of_list_ascii (rev cur)
         +:+ keep_chars (fun c => negb (cls c)) s
    /\ (forall i, wrds !! i = Some "" ->
                  i = (length wrds - 1)%nat
                  \/ (i = 0%nat /\ cur = [] /\ in_run = false))
    /\ (all_chars (fun c => negb (cls c)) s = true ->
        wrds = [string_of_list_ascii (rev cur) +:+ s]).
Proof.
  induction s as [|c s IH]; intros cur in_run Hrun Hcur; cbn [Re.split_runs].
  - cbv zeta. split; [done|]. split; [by constructor|].
    split; [by rewrite string_app_nil_r|].
    split; [|by rewrite string_app_nil_r].
    intros [|i] Hi; [by left|done].
  - cbn [keep_chars all_chars]. destruct (cls c) eqn:Hc; cbn [negb].
    + destruct (IH [] true) as (IH1 & IH2 & IH3 & IH4 & _); [done|done|].
      cbv zeta in *. destruct in_run.
      * rewrite (Hrun eq_refl). split; [done|]. split; [done|].
        split; [exact IH3|]. split; [|done].
        intros i Hi. destruct (IH4 i Hi) as [->|(_ & _ & [=])]. by left.
      * split; [done|]. split; [by constructor|].
        split; [by rewrite join_empty_cons, IH3|]. split; [|done].
        intros [|i] Hi.
        -- right. simpl in Hi. injection Hi as Hi.
           apply string_of_list_ascii_empty, rev_empty in Hi. done.
        -- left. simpl in Hi. destruct (IH4 i Hi) as [->|(_ & _ & [=])].
           simpl. destruct (Re.split_runs cls [] true s); [done|].
           simpl. lia.
    + assert (string_of_list_ascii (rev (c :: cur))
              = string_of_list_ascii (rev cur) +:+ String c "") as Hsnoc
        by (simpl; apply string_of_list_ascii_snoc).
      destruct (IH (c :: cur) false) as (IH1 & IH2 & IH3 & IH4 & IH5);
        [done| |].
      { rewrite Hsnoc, all_chars_app, Hcur. simpl. by rewrite Hc. }
      cbv zeta in *. rewrite Hsnoc, string_app_assoc in IH3, IH5.
      split; [done|]. split; [done|]. split; [exact IH3|].
      split; [|exact IH5].
      intros i Hi. destruct (IH4 i Hi) as [->|(_ & [=] & _)]. by left.
Qed.

(** X13.  [split_date_words] always returns at least one word; no word
    contains a separator; the words put together are the text without its
    separators; an empty word can only be the first or the last one; and a
    text without separators is its own single word. *)
Theorem split_date_words_spec (date_str : string) :
  let wrds := split_date_words date_str in
  let kept c := negb (word_separator c) in
  wrds <> []
  /\ Forall (fun w => all_chars kept w = true) wrds
  /\ Py.join "" wrds = keep_chars kept date_str
  /\ (forall i, wrds !! i = Some "" -> i = 0%nat \/ i = (length wrds - 1)%nat)
  /\ (all_chars kept date_str = true -> wrds = [date_str]).
Proof.
  destruct (split_runs_spec word_separator date_str [] false)
    as (H1 & H2 & H3 & H4 & H5); [done|done|].
  cbv zeta in *. unfold split_date_words.
  split; [done|]. split; [done|]. split; [exact H3|]. split; [|exact H5].
  intros i Hi. destruct (H4 i Hi) as [->|(-> & _)]; auto.
Qed.

(** ** The word-shape features *)

Lemma dict_get_set {V} (k k' : string) (v : V) (d : dict V) :
  dict_get k (dict_set k' v d)
  = if String.eqb k k' then Some v else dict_get k d.
Proof.
  induction d as [|[k0 v0] d IH]; simpl.
  - done.
  - destruct (String.eqb_spec k' k0) as [->|Hne]; simpl.
    + by destruct (String.eqb_spec k k0).
    + rewrite IH. destruct (String.eqb_spec k k0) as [->|]; [|done].
      destruct (String.eqb_spec k0 k'); [congruence|done].
Qed.

Lemma count_word_total chars n wrd :
  overlong_number chars wrd = false ->
  exists n',
    count_word (AlphabetSet chars) n wrd = Ok n'
    /\ word_total n' = word_total n + (if is_counted chars wrd then 1 else 0)
    /\ numbers_above_31 n <= numbers_above_31 n'
    /\ numbers_below_31 n <= numbers_below_31 n'
    /\ words n <= words n'
    /\ cap_words n <= cap_words n'.
Proof.
  unfold count_word, is_counted, word_total, overlong_number.
  destruct wrd as [|c0 rest]; [exists n; repeat split; lia|].
  case_bool_decide; cbn [orb negb andb].
  - intros _. destruct rest as [|c1 rest];
      [|destruct (_ && _)]; eexists; (split; [reflexivity|]); simpl; lia.
  - intros Hshort. revert Hshort.
    cbn [Re.leading_digits]. destruct (Py.isdecimal c0) eqn:Hc0.
    + intros Hshort. cbn [String.eqb].
      destruct (int_of_decimals (String c0 (Re.leading_digits rest)))
        as (v & _ & ->); [done| |].
      { cbn [all_chars]. by rewrite Hc0, leading_digits_decimal. }
      rewrite Hshort. cbn [rbind]. destruct (v <? 31);
        eexists; (split; [reflexivity|]); simpl; lia.
    + intros _. cbn [String.eqb]. exists n. repeat split; lia.
Qed.

Lemma count_words_loop_total chars wrds :
  Forall (fun wrd => overlong_number chars wrd = false) wrds ->
  forall n,
    exists n',
      count_words_loop (AlphabetSet chars) n wrds = Ok n'
      /\ word_total n'
         = word_total n
           + Z.of_nat (length (filter (fun w => is_counted chars w = true)
                                 wrds))
      /\ numbers_above_31 n <= numbers_above_31 n'
      /\ numbers_below_31 n <= numbers_below_31 n'
      /\ words n <= words n'
      /\ cap_words n <= cap_words n'.
Proof.
  induction 1 as [|wrd wrds Hwrd _ IH]; intros n; cbn [count_words_loop].
  - exists n. rewrite filter_nil. simpl. repeat split; lia.
  - destruct (count_word_total chars n wrd Hwrd)
      as (n1 & -> & Ht & H1 & H2 & H3 & H4).
    cbn [rbind].
    destruct (IH n1) as (n' & -> & Ht' & H1' & H2' & H3' & H4').
    exists n'. split; [done|]. split; [|lia].
    rewrite Ht', Ht. destruct (is_counted chars wrd) eqn:Hw.
    + rewrite filter_cons_True by done. simpl length. lia.
    + rewrite filter_cons_False by congruence. lia.
Qed.

(** X14.  With [count_words=True] and a character set, when no word of the
    candidate text makes [int] raise, [get_date_features] returns a row
    with the entries [nb31], [na31], [wr_l] and [wr_u].  Without [norm]
    they are integers that are not negative and add up to the number of
    words that begin with a character of the set or with a decimal digit;
    with [norm] each lies between 0 and 1; and when there is no such word
    all four are 0. *)
Theorem word_shape_features
    txt start_index end_index characters chars
    (include_bigrams : bool) window (norm : bool) :
  let wrds := split_date_words (Py.slice txt start_index end_index) in
  let counted_words := filter (fun w => is_counted chars w = true) wrds in
  Forall (fun wrd => overlong_number chars wrd = false) wrds ->
  exists row,
    get_date_features txt start_index end_index characters (AlphabetSet chars)
      include_bigrams window norm true = Ok row
    /\ (norm = false ->
        exists nb31 na31 wr_l wr_u,
          word_features row
          = [inject_Z nb31; inject_Z na31; inject_Z wr_l; inject_Z wr_u]
          /\ 0 <= nb31 /\ 0 <= na31 /\ 0 <= wr_l /\ 0 <= wr_u
          /\ nb31 + na31 + wr_l + wr_u = Z.of_nat (length counted_words))
    /\ (norm = true ->
        Forall (fun v => (0 <= v)%Q /\ (v <= 1)%Q) (word_features row))
    /\ (counted_words = [] -> word_features row = [0%Q; 0%Q; 0%Q; 0%Q]).
Proof.
  intros wrds counted_words Hshort. unfold get_date_features. cbv zeta.
  fold wrds.
  destruct (count_words_loop_total chars wrds Hshort
              {| numbers_above_31 := 0; numbers_below_31 := 0;
                 words := 0; cap_words := 0 |})
    as (n & -> & Ht & H1 & H2 & H3 & H4).
  fold counted_words in Ht. cbn [rbind]. eexists. split; [reflexivity|].
  unfold word_features, dict_item. cbn [map].
  rewrite !dict_get_set. cbn [String.eqb Ascii.eqb Bool.eqb default].
  unfold id.
  unfold word_total in Ht. simpl in Ht, H1, H2, H3, H4.
  fold (word_total n). unfold word_total.
  set (a := numbers_above_31 n) in *. set (b := numbers_below_31 n) in *.
  set (c := words n) in *. set (d := cap_words n) in *.
  split; [|split].
  - intros ->. cbn [andb]. exists b, a, c, d. repeat split; try done. lia.
  - intros ->. cbn [andb].
    destruct (Z.eqb_spec (a + b + c + d) 0) as [Hz|Hnz]; cbn [negb].
    + assert (a = 0 /\ b = 0 /\ c = 0 /\ d = 0) as (-> & -> & -> & ->) by lia.
      repeat constructor; unfold Qle; simpl; lia.
    + repeat constructor; apply int_div_in_unit; lia.
  - intros Hnil. rewrite Hnil in Ht. simpl in Ht.
    assert (a = 0 /\ b = 0 /\ c = 0 /\ d = 0) as (-> & -> & -> & ->) by lia.
    by rewrite andb_false_r.
Qed.

(** ** Exceptions of the date-parts check *)

Lemma mapR_some_raises {A B} (f : A -> result B) (l : list A) x e :
  x ∈ l -> f x = Raise e -> exists e', mapR f l = Raise e'.
Proof.
  intros Hin Hx. induction l as [|y l IH]; [by apply elem_of_nil in Hin|].
  simpl. destruct (f y) as [z|e'] eqn:Hy; simpl; [|eauto].
  apply elem_of_cons in Hin as [->|Hin]; [congruence|].
  destruct (IH Hin) as [e' ->]. simpl. eauto.
Qed.

(** X15.  [check_date_parts_are_in_date] raises nothing but ValueError.  It
    raises it when [int] refuses one of the digit tokens, or refuses the
    digits of one of the digit modifiers, and it returns a boolean when
    every digit token is a non-empty run of at most 4300 decimal digits and
    no modifier holds a superscript digit or more than 4300 digits. *)
Theorem check_date_parts_errors (date : datetime) (date_props : date_props) :
  (forall e, check_date_parts_are_in_date date date_props = Raise e ->
             e = ValueError)
  /\ (forall digit e,
        digit ∈ digits date_props -> Py.int digit = Raise e ->
        check_date_parts_are_in_date date date_props = Raise ValueError)
  /\ (forall modifier e,
        modifier ∈ digits_modifier date_props ->
        ordinal_to_cardinal modifier = Raise e ->
        check_date_parts_are_in_date date date_props = Raise ValueError)
  /\ (Forall (fun digit => is_number digit = true) (digits date_props) ->
      Forall (fun modifier => plain_digits modifier = true)
        (digits_modifier date_props) ->
      exists ok, check_date_parts_are_in_date date date_props = Ok ok).
Proof.
  split; [intros e; apply check_raises|].
  split; [|split; [|apply check_returns]].
  - intros digit e Hin Hint.
    destruct (mapR_some_raises Py.int _ _ _ Hin Hint) as [e' He'].
    assert (e' = ValueError) as ->
      by (by apply (mapR_raises _ _ (fun e => e = ValueError) _ int_raises
                      He')).
    unfold check_date_parts_are_in_date. by rewrite He'.
  - intros modifier e Hin Hord.
    destruct (check_date_parts_are_in_date date date_props) as [ok|e0]
      eqn:Hcheck; [exfalso|by rewrite (check_raises _ _ _ Hcheck)].
    destruct (mapR_some_raises ordinal_to_cardinal _ _ _ Hin Hord)
      as [e' He'].
    revert Hcheck. unfold check_date_parts_are_in_date.
    destruct (mapR Py.int (digits date_props)) as [ds|e1]; [|done].
    cbn [rbind]. by rewrite He'.
Qed.

(** ** The table of month names *)

Lemma dict_get_member {V} (k : string) (v : V) (d : dict V) :
  dict_get k d = Some v -> (k, v) ∈ d.
Proof.
  induction d as [|[k' v'] d IH]; simpl; [done|].
  destruct (String.eqb_spec k k') as [->|].
  - intros [= ->]. left.
  - intros H. right. by apply IH.
Qed.

(** X16.  [MONTH_BY_NAME] gives every name of [EN_MONTHS], full or
    abbreviated, the number of its month counted from 1: no name is
    overwritten by a later group.  It has no other key, so every value lies
    between 1 and 12. *)
Theorem month_by_name_table :
  (forall ix month_names month_name,
     EN_MONTHS !! ix = Some month_names -> month_name ∈ month_names ->
     dict_get month_name MONTH_BY_NAME = Some (Z.of_nat ix + 1))
  /\ (forall month_name m,
        dict_get month_name MONTH_BY_NAME = Some m ->
        1 <= m <= 12
        /\ exists month_names,
             EN_MONTHS !! Z.to_nat (m - 1) = Some month_names
             /\ month_name ∈ month_names).
Proof.
  split.
  - intros ix month_names month_name Hix Hin.
    do 12 (destruct ix as [|ix];
           [injection Hix as <-;
            repeat (apply elem_of_cons in Hin as [->|Hin];
                    [by vm_compute|]);
            by apply elem_of_nil in Hin|]).
    done.
  - intros month_name m Hget. apply dict_get_member in Hget.
    assert (MONTH_BY_NAME
            = [("january", 1); ("jan", 1); ("february", 2); ("feb", 2);
               ("febr", 2); ("march", 3); ("mar", 3); ("april", 4);
               ("apr", 4); ("may", 5); ("june", 6); ("jun", 6); ("july", 7);
               ("jul", 7); ("august", 8); ("aug", 8); ("september", 9);
               ("sep", 9); ("sept", 9); ("october", 10); ("oct", 10);
               ("november", 11); ("nov", 11); ("december", 12); ("dec", 12)])
      as Htable by (by vm_compute).
    rewrite Htable in Hget.
    repeat (apply elem_of_cons in Hget as [[= -> ->]|Hget];
            [split; [lia|]; eexists; split; [by vm_compute|member]|]).
    by apply elem_of_nil in Hget.
Qed.

(** ** The window of the features *)

Lemma length_string_app (s1 s2 : string) :
  String.length (s1 +:+ s2) = (String.length s1 + String.length s2)%nat.
Proof.
  induction s1 as [|c s1 IH]; [done|].
  change (String c s1 +:+ s2) with (String c (s1 +:+ s2)).
  simpl. by rewrite IH.
Qed.

Lemma take_skip (n : nat) (s : string) : s = Py.take n s +:+ Py.skip n s.
Proof.
  revert s. induction n as [|n IH]; intros [|c s]; try done.
  simpl. change (String c ?a +:+ ?b) with (String c (a +:+ b)).
  by rewrite <- IH.
Qed.

Lemma length_take (n : nat) (s : string) :
  (String.length (Py.take n s) <= n)%nat.
Proof.
  revert s. induction n as [|n IH]; intros [|c s]; simpl; try lia.
  specialize (IH s). lia.
Qed.

Lemma lstrip_decomposes (s : string) : exists l, s = l +:+ Py.lstrip s.
Proof.
  induction s as [|c s [l IH]]; [by exists ""|].
  simpl. destruct (Py.isspace c).
  - exists (String c l).
    change (String c l +:+ ?b) with (String c (l +:+ b)). by rewrite <- IH.
  - by exists "".
Qed.

Lemma rstrip_decomposes (s : string) : exists r, s = Py.rstrip s +:+ r.
Proof.
  induction s as [|c s [r IH]]; [by exists ""|].
  simpl. destruct (Py.rstrip s) as [|c' s'] eqn:Hr.
  - destruct (Py.isspace c).
    + exists (String c s). done.
    + exists r. change (String c "" +:+ r) with (String c ("" +:+ r)).
      by rewrite <- IH.
  - exists r. change (String c ?a +:+ ?b) with (String c (a +:+ b)).
    by rewrite <- IH.
Qed.

Lemma strip_decomposes (s : string) :
  exists l r, s = l +:+ Py.strip s +:+ r.
Proof.
  destruct (lstrip_decomposes s) as [l Hl].
  destruct (rstrip_decomposes (Py.lstrip s)) as [r Hr].
  exists l, r. unfold Py.strip. by rewrite <- Hr.
Qed.

Lemma count_from_bound sub pending s :
  Py.count_from sub pending s <= Z.of_nat (String.length s).
Proof.
  revert pending. induction s as [|c s IH]; intros pending; [simpl; lia|].
  cbn [Py.count_from String.length].
  destruct pending as [|p]; [|specialize (IH p); lia].
  destruct (Py.startswith sub (String c s)).
  - specialize (IH (String.length sub - 1)%nat). lia.
  - specialize (IH 0%nat). lia.
Qed.

(** X17.  For a span inside the text and a window that is not negative,
    the text the features are counted in is a block of consecutive
    characters of the text, without white space at its ends and no longer
    than the span with the window on both sides; so no tracked string is
    counted more often than that. *)
Theorem feature_window_is_local txt start_index end_index window :
  0 <= start_index <= end_index -> 0 <= window ->
  let feature_text := feature_window txt start_index end_index window in
  is_substring feature_text txt
  /\ Py.len feature_text <= end_index - start_index + 2 * window
  /\ Py.strip feature_text = feature_text
  /\ (forall sub, sub <> "" ->
        0 <= Py.count feature_text sub <= end_index - start_index + 2 * window).
Proof.
  intros Hspan Hwindow feature_text.
  unfold feature_window, Py.slice in feature_text.
  set (n := Py.len txt) in *.
  assert (0 <= n) as Hn by (unfold n, Py.len; lia).
  set (a := Py.clamp n (Z.max 0 (start_index - window))) in *.
  set (b := Py.clamp n (Z.min n (end_index + window))) in *.
  assert (0 <= a /\ b - a <= end_index - start_index + 2 * window) as [Ha Hba].
  { unfold a, b, Py.clamp.
    destruct (Z.ltb_spec (Z.max 0 (start_index - window)) 0); [lia|].
    destruct (Z.ltb_spec (Z.min n (end_index + window)) 0); lia. }
  set (whole := Py.take (Z.to_nat (b - a)) (Py.skip (Z.to_nat a) txt)) in *.
  assert (Py.len feature_text <= end_index - start_index + 2 * window) as Hlen.
  { destruct (strip_decomposes whole) as (l & r & Hw).
    pose proof (length_take (Z.to_nat (b - a)) (Py.skip (Z.to_nat a) txt))
      as Htake.
    fold whole in Htake. rewrite Hw, !length_string_app in Htake.
    fold feature_text in Htake. unfold Py.len. lia. }
  split; [|split; [exact Hlen|split]].
  - destruct (strip_decomposes whole) as (l & r & Hw).
    fold feature_text in Hw.
    exists (Py.take (Z.to_nat a) txt +:+ l),
           (r +:+ Py.skip (Z.to_nat (b - a)) (Py.skip (Z.to_nat a) txt)).
    rewrite (take_skip (Z.to_nat a) txt) at 1.
    rewrite (take_skip (Z.to_nat (b - a)) (Py.skip (Z.to_nat a) txt)) at 1.
    fold whole. rewrite Hw at 1.
    by rewrite !string_app_assoc.
  - apply strip_idempotent.
  - intros sub Hsub. split; [apply count_nonneg|].
    unfold Py.count. destruct sub as [|c sub]; [done|].
    pose proof (count_from_bound (String c sub) 0 feature_text).
    unfold Py.len in Hlen. lia.
Qed.

(** ** The normalized sums *)

Section Shares.
Local Open Scope Q_scope.

Lemma round_one : Binary64.round 1 = 1.
Proof. vm_compute. reflexivity. Qed.

Lemma round_top :
  Binary64.round (inject_Z (2 ^ 1022)) == inject_Z (2 ^ 1022).
Proof. vm_compute. reflexivity. Qed.

Lemma div_error (a t : Q) :
  a == 0 \/ 1 <= a -> a <= t -> t <= inject_Z (2 ^ 1022) ->
  let r := Binary64.div a (Binary64.round t) in
  (1 - 3 * Binary64.unit_roundoff) * a <= r * t
  /\ r * t <= (1 + 4 * Binary64.unit_roundoff) * a.
Proof.
  intros [Hz|Ha] Hat Ht r.
  - assert (r = 0) as ->.
    { unfold r, Binary64.div. rewrite (round_zero a Hz). reflexivity. }
    rewrite Hz. split; lra.
  - assert ((2 # 1) ^ Binary64.emin <= 1) as Hmin by (vm_compute; discriminate).
    assert (1 <= t) as Ht1 by lra.
    destruct (round_error a) as [Ha1 Ha2]; [lra|].
    destruct (round_error t) as [Ht2 Ht3]; [lra|].
    pose proof (round_mono 1 a ltac:(lra) Ha) as Ha3. rewrite round_one in Ha3.
    pose proof (round_mono t _ ltac:(lra) Ht) as Ht4. rewrite round_top in Ht4.
    set (a' := Binary64.round a) in *. set (t' := Binary64.round t) in *.
    unfold Binary64.unit_roundoff in *.
    assert (0 < t') as Hpos by lra.
    assert (a' / t' * t' == a') as Hq by (by apply Qdiv_mult_cancel).
    assert ((2 # 1) ^ Binary64.emin <= a' / t') as Hnormal.
    { apply Qle_shift_div_l; [exact Hpos|].
      apply (Qle_trans _ ((2 # 1) ^ Binary64.emin * inject_Z (2 ^ 1022))).
      - apply Qmult_le_l; [apply pow2_pos|exact Ht4].
      - apply (Qle_trans _ 1); [vm_compute; discriminate|exact Ha3]. }
    destruct (round_error (a' / t') Hnormal) as [Hr1 Hr2].
    fold (Binary64.div a t') in Hr1, Hr2. fold r in Hr1, Hr2.
    unfold Binary64.unit_roundoff in *.
    set (q := a' / t') in *.
    assert (0 <= q) as Hq0.
    { apply (Qle_trans _ ((2 # 1) ^ Binary64.emin)); [|exact Hnormal].
      apply Qlt_le_weak, pow2_pos. }
    split.
    + assert (t' * q <= (t + (1 # 9007199254740992) * t) * q) as H1
        by (apply Qmult_le_compat_r; [exact Ht3|exact Hq0]).
      assert ((q - (1 # 9007199254740992) * q) * t <= r * t) as H2
        by (apply Qmult_le_compat_r; [exact Hr1|lra]).
      lra.
    + assert ((t - (1 # 9007199254740992) * t) * q <= t' * q) as H1
        by (apply Qmult_le_compat_r; [exact Ht2|exact Hq0]).
      assert (r * t <= (q + (1 # 9007199254740992) * q) * t) as H2
        by (apply Qmult_le_compat_r; [exact Hr2|lra]).
      lra.
Qed.


(** The shares of a list of counts, each within three roundings of the
    exact share. *)
Lemma shares_error (l : list Q) (t : Q) :
  Forall (fun v => v == 0 \/ 1 <= v) l -> Forall (fun v => v <= t) l ->
  t <= inject_Z (2 ^ 1022) ->
  let shares := map (fun v => Binary64.div v (Binary64.round t)) l in
  (1 - 3 * Binary64.unit_roundoff) * Qsum l <= Qsum shares * t
  /\ Qsum shares * t <= (1 + 4 * Binary64.unit_roundoff) * Qsum l.
Proof.
  intros Hint Hle Ht. cbv zeta.
  induction l as [|v l IH]; cbn [map].
  - unfold Qsum. simpl. split; lra.
  - apply Forall_cons in Hint as [Hv Hint]. apply Forall_cons in Hle as [Hvt Hle].
    destruct (IH Hint Hle) as [IH1 IH2].
    destruct (div_error v t Hv Hvt Ht) as [H1 H2]. cbv zeta in H1, H2.
    rewrite !Qsum_cons. unfold Binary64.unit_roundoff in *.
    split; lra.
Qed.

Lemma shares_sum (l : list Q) :
  Forall (fun v => v == 0 \/ 1 <= v) l ->
  0 < Qsum l -> Qsum l <= inject_Z (2 ^ 1022) ->
  let shares := map (fun v => Binary64.div v (Binary64.round (Qsum l))) l in
  1 - sum_tolerance <= Qsum shares /\ Qsum shares <= 1 + sum_tolerance.
Proof.
  intros Hint Hpos Ht shares.
  assert (Forall (fun v => 0 <= v) l) as Hnn.
  { eapply Forall_impl; [exact Hint|]. intros v [Hz|H1]; cbv beta; lra. }
  destruct (Qsum_bounds l Hnn) as [_ Hle].
  destruct (shares_error l (Qsum l) Hint Hle Ht) as [H1 H2].
  cbv zeta in H1, H2. fold shares in H1, H2.
  unfold Binary64.unit_roundoff, sum_tolerance in *.
  set (t := Qsum l) in *. set (s := Qsum shares) in *.
  split.
  - apply (Qmult_le_r _ _ t Hpos).
    apply (Qle_trans _ ((1 - 3 * (1 # 9007199254740992)) * t)); [|exact H1].
    apply Qmult_le_compat_r; [|lra]. vm_compute. discriminate.
  - apply (Qmult_le_r _ _ t Hpos).
    apply (Qle_trans _ ((1 + 4 * (1 # 9007199254740992)) * t)); [exact H2|].
    apply Qmult_le_compat_r; [|lra]. vm_compute. discriminate.
Qed.

End Shares.

(** *** Sums of counts *)

Lemma Qsum_counts (zs : list Z) :
  (Qsum (map inject_Z zs) == inject_Z (Zsum zs))%Q.
Proof.
  induction zs as [|z zs IH]; simpl.
  - reflexivity.
  - rewrite Qsum_cons, IH. unfold Zsum. simpl. rewrite inject_Z_plus.
    reflexivity.
Qed.

Lemma Qpositive_inject (z : Z) : Qpositive (inject_Z z) = (0 <? z).
Proof.
  unfold Qpositive, Qle_bool. simpl. rewrite Z.mul_1_r.
  destruct (Z.leb_spec z 0), (Z.ltb_spec 0 z); simpl; try reflexivity; lia.
Qed.

Lemma Qpositive_proper (a b : Q) : (a == b)%Q -> Qpositive a = Qpositive b.
Proof.
  intros H. unfold Qpositive. f_equal.
  apply eq_true_iff_eq. rewrite !Qle_bool_iff. by rewrite H.
Qed.

Lemma Zsum_nonneg (zs : list Z) : Forall (fun z => 0 <= z) zs -> 0 <= Zsum zs.
Proof. induction 1; unfold Zsum in *; simpl; lia. Qed.

Lemma Zsum_bound (m : Z) (zs : list Z) :
  Forall (fun z => z <= m) zs -> Zsum zs <= Z.of_nat (length zs) * m.
Proof. induction 1; unfold Zsum in *; simpl length; simpl fold_right; lia. Qed.

Lemma counts_nonneg feature_text (items : list string) :
  Forall (fun z => 0 <= z) (map (Py.count feature_text) items).
Proof. apply Forall_fmap, Forall_forall. intros x _. apply count_nonneg. Qed.

Lemma count_from_positive sub s :
  (0 <? Py.count_from sub 0 s) = Py.contains sub s || false
  \/ sub = "".
Proof.
  destruct sub as [|a sub]; [by right|left].
  rewrite orb_false_r.
  induction s as [|c s IH]; [reflexivity|].
  cbn [Py.count_from Py.contains].
  destruct (Py.startswith (String a sub) (String c s)) eqn:Hst.
  - pose proof (count_from_nonneg (String a sub)
                  (String.length (String a sub) - 1) s).
    simpl orb. apply Z.ltb_lt. lia.
  - simpl orb. exact IH.
Qed.

(** A string is counted at least once exactly when it occurs. *)
Lemma count_positive s sub : (0 <? Py.count s sub) = Py.contains sub s.
Proof.
  destruct (count_from_positive sub s) as [H| ->].
  - rewrite orb_false_r in H. destruct sub; [|exact H].
    unfold Py.count, Py.len. destruct s; simpl; [reflexivity|].
    apply Z.ltb_lt. lia.
  - unfold Py.count, Py.len. destruct s; simpl; [reflexivity|].
    apply Z.ltb_lt. lia.
Qed.

Lemma counts_positive feature_text (items : list string) :
  (0 <? Zsum (map (Py.count feature_text) items))
  = tracked_occurs feature_text items.
Proof.
  unfold tracked_occurs.
  induction items as [|x items IH]; simpl; [reflexivity|].
  rewrite <- count_positive, <- IH.
  pose proof (count_nonneg feature_text x).
  pose proof (Zsum_nonneg _ (counts_nonneg feature_text items)).
  change (Zsum (Py.count feature_text x :: ?l))
    with (Py.count feature_text x + Zsum l).
  destruct (Z.ltb_spec 0 (Py.count feature_text x)),
    (Z.ltb_spec 0 (Zsum (map (Py.count feature_text) items)));
    simpl; apply Z.ltb_lt || apply Z.ltb_ge; lia.
Qed.

(** A count is no more than the length of the string and one. *)
Lemma count_le_len s sub : Py.count s sub <= Py.len s + 1.
Proof.
  unfold Py.count. destruct sub as [|c sub]; [lia|].
  pose proof (count_from_bound (String c sub) 0 s). unfold Py.len. lia.
Qed.

(** *** Sums of a group *)

Lemma group_sum_app prefix (d1 d2 : dict Q) :
  (group_sum prefix (d1 ++ d2) == group_sum prefix d1 + group_sum prefix d2)%Q.
Proof.
  unfold group_sum. rewrite filter_app, map_app. apply Qsum_app.
Qed.

Lemma group_sum_all prefix (d : dict Q) :
  Forall (fun k => Py.startswith prefix k = true) (dict_keys d) ->
  group_sum prefix d = Qsum (map snd d).
Proof.
  intros Hall. unfold group_sum. f_equal. f_equal.
  induction d as [|[k v] d IH]; [done|].
  apply Forall_cons in Hall as [Hk Hall].
  rewrite filter_cons_True by done. f_equal. by apply IH.
Qed.

Lemma group_sum_none prefix (d : dict Q) :
  Forall (fun k => Py.startswith prefix k = false) (dict_keys d) ->
  group_sum prefix d = 0%Q.
Proof.
  intros Hnone. unfold group_sum.
  assert (filter (fun kv => Py.startswith prefix (fst kv) = true) d = []) as ->;
    [|done].
  induction d as [|[k v] d IH]; [done|].
  apply Forall_cons in Hnone as [Hk Hnone].
  rewrite filter_cons_False by (simpl in *; congruence). by apply IH.
Qed.

Lemma group_sum_set_other prefix (k : string) (v : Q) (d : dict Q) :
  Py.startswith prefix k = false ->
  group_sum prefix (dict_set k v d) = group_sum prefix d.
Proof.
  intros Hk. unfold group_sum. f_equal. f_equal.
  induction d as [|[k' v'] d IH]; simpl.
  - rewrite filter_cons_False by (simpl; congruence). done.
  - destruct (String.eqb_spec k k') as [<-|Hne].
    + rewrite !filter_cons_False by (simpl; congruence). done.
    + destruct (decide (Py.startswith prefix k' = true)).
      * rewrite !filter_cons_True by done. by rewrite IH.
      * rewrite !filter_cons_False by done. done.
Qed.

Lemma char_keys_group (items : list string) (f : string -> Q) :
  Forall (fun k => Py.startswith "char_" k = true)
    (dict_keys (map (fun x => (char_key x, f x)) items))
  /\ Forall (fun k => Py.startswith "bigram_" k = false)
       (dict_keys (map (fun x => (char_key x, f x)) items)).
Proof.
  unfold dict_keys. rewrite map_map. simpl.
  split; apply Forall_fmap, Forall_true; intros x; reflexivity.
Qed.

Lemma bigram_keys_group (items : list string) (f : string -> Q) :
  Forall (fun k => Py.startswith "bigram_" k = true)
    (dict_keys (map (fun x => (bigram_key x, f x)) items))
  /\ Forall (fun k => Py.startswith "char_" k = false)
       (dict_keys (map (fun x => (bigram_key x, f x)) items)).
Proof.
  unfold dict_keys. rewrite map_map. simpl.
  split; apply Forall_fmap, Forall_true; intros x; reflexivity.
Qed.

Lemma sums_to_proper eps (v w : Q) (b : bool) :
  (v == w)%Q -> sums_to eps v b -> sums_to eps w b.
Proof. intros H. unfold sums_to. destruct b; by rewrite H. Qed.

(** The sum of a normalized group of counts is 1, up to the roundings,
    when one of its strings occurs in the window, and 0 otherwise. *)
Lemma scaled_counts_sum feature_text (key : string -> string)
    (items : list string) :
  Zsum (map (Py.count feature_text) items) <= 2 ^ 1022 ->
  sums_to sum_tolerance
    (Qsum (map snd (scaled (counted feature_text key items))))
    (tracked_occurs feature_text items).
Proof.
  intros Hbound. unfold scaled.
  set (seg := counted feature_text key items).
  assert (map snd seg = map inject_Z (map (Py.count feature_text) items)) as Hv.
  { unfold seg, counted. rewrite !map_map. done. }
  assert (Qsum (map snd seg)
          == inject_Z (Zsum (map (Py.count feature_text) items)))%Q as Htotal
    by (rewrite Hv; apply Qsum_counts).
  rewrite (Qpositive_proper _ _ Htotal), Qpositive_inject, counts_positive.
  pose proof (counts_positive feature_text items) as Hpos.
  destruct (tracked_occurs feature_text items); unfold sums_to.
  - rewrite map_map. cbn [snd].
    rewrite <- (map_map snd
                  (fun v => Binary64.div v (Binary64.round (Qsum (map snd seg))))).
    apply Z.ltb_lt in Hpos. apply shares_sum.
    + rewrite Hv. apply Forall_fmap, Forall_fmap, Forall_forall.
      intros x _. cbv [compose].
      pose proof (count_nonneg feature_text x) as Hx.
      destruct (Z.eq_dec (Py.count feature_text x) 0) as [->|Hne];
        [by left|right].
      change 1%Q with (inject_Z 1). rewrite <- Zle_Qle. lia.
    + rewrite Htotal. change 0%Q with (inject_Z 0). by rewrite <- Zlt_Qlt.
    + rewrite Htotal. by rewrite <- Zle_Qle.
  - rewrite Htotal. apply Z.ltb_ge in Hpos.
    pose proof (Zsum_nonneg _ (counts_nonneg feature_text items)).
    replace (Zsum (map (Py.count feature_text) items)) with 0 by lia.
    reflexivity.
Qed.

(** *** The size of the totals *)

Lemma single_chars_bound (characters : list string) :
  NoDup characters ->
  Forall (fun c => String.length c = 1%nat) characters ->
  (length characters <= 256)%nat.
Proof.
  intros Hnd Hone.
  set (first := fun s => match s with
                         | String c _ => nat_of_ascii c
                         | EmptyString => 0%nat
                         end).
  assert (NoDup (first <$> characters)) as Hcodes.
  { apply NoDup_fmap_2_strong; [|exact Hnd].
    intros x y Hx Hy Hxy.
    pose proof (proj1 (Forall_forall _ _) Hone x Hx) as Hlx.
    pose proof (proj1 (Forall_forall _ _) Hone y Hy) as Hly.
    destruct x as [|a [|? ?]]; try done. destruct y as [|b [|? ?]]; try done.
    simpl in Hxy. f_equal.
    by rewrite <- (ascii_nat_embedding a), <- (ascii_nat_embedding b), Hxy. }
  assert (first <$> characters ⊆+ seq 0 256) as Hsub.
  { apply NoDup_submseteq; [exact Hcodes|].
    intros n (s & -> & _)%list_elem_of_fmap.
    apply elem_of_seq. split; [lia|].
    destruct s as [|c ?]; simpl; [lia|]. apply nat_ascii_bounded. }
  apply submseteq_length in Hsub.
  by rewrite length_fmap, length_seq in Hsub.
Qed.

Lemma counts_total_bound feature_text (items : list string) (n : Z) :
  Z.of_nat (length items) <= n ->
  Zsum (map (Py.count feature_text) items) <= n * (Py.len feature_text + 1).
Proof.
  intros Hn.
  assert (Forall (fun z => z <= Py.len feature_text + 1)
            (map (Py.count feature_text) items)) as Hall.
  { apply Forall_fmap, Forall_forall. intros x _. apply count_le_len. }
  apply Zsum_bound in Hall. rewrite length_map in Hall.
  assert (0 <= Py.len feature_text + 1) by (unfold Py.len; lia).
  nia.
Qed.

Lemma feature_window_length txt start_index end_index window :
  Py.len (feature_window txt start_index end_index window) <= Py.len txt.
Proof.
  unfold feature_window, Py.slice.
  set (n := Z.to_nat _). set (a := Z.to_nat _).
  destruct (strip_decomposes (Py.take n (Py.skip a txt))) as (l & r & Hw).
  pose proof (f_equal String.length (take_skip a txt)) as H1.
  pose proof (f_equal String.length (take_skip n (Py.skip a txt))) as H2.
  rewrite Hw in H2 at 1. rewrite length_string_app in H1.
  rewrite !length_string_app in H2. unfold Py.len. lia.
Qed.

Lemma total_is_small (z : Z) : z <= 65536 * 2 ^ 63 -> z <= 2 ^ 1022.
Proof.
  intros H. apply (Z.le_trans _ _ _ H). vm_compute. discriminate.
Qed.

(** For a text that a [str] can hold, the totals of both groups are far
    below the largest float. *)
Lemma totals_are_small txt start_index end_index window characters :
  NoDup characters ->
  Forall (fun c => String.length c = 1%nat) characters ->
  Py.len txt <= Py.maxsize ->
  let feature_text := feature_window txt start_index end_index window in
  Zsum (map (Py.count feature_text) characters) <= 2 ^ 1022
  /\ Zsum (map (Py.count feature_text) (bigram_set characters)) <= 2 ^ 1022.
Proof.
  intros Hnd Hone Hlen feature_text.
  pose proof (single_chars_bound characters Hnd Hone) as Hn.
  pose proof (feature_window_length txt start_index end_index window) as Hft.
  fold feature_text in Hft. unfold Py.maxsize in Hlen.
  assert (0 <= Py.len feature_text) as H0 by (unfold Py.len; lia).
  split; apply total_is_small.
  - pose proof (counts_total_bound feature_text characters 256
                  ltac:(lia)). nia.
  - assert (Z.of_nat (length (bigram_set characters)) <= 65536) as Hb.
    { rewrite length_bigram_set. nia. }
    pose proof (counts_total_bound feature_text (bigram_set characters)
                  65536 Hb). nia.
Qed.

(** *** The normalized vector *)

Lemma group_sums_of_normalized feature_text characters (include_bigrams : bool) :
  Zsum (map (Py.count feature_text) characters) <= 2 ^ 1022 ->
  Zsum (map (Py.count feature_text) (bigram_set characters)) <= 2 ^ 1022 ->
  let char_vec :=
    scaled (counted feature_text char_key characters)
    ++ (if include_bigrams
        then scaled (counted feature_text bigram_key (bigram_set characters))
        else []) in
  sums_to sum_tolerance (group_sum "char_" char_vec)
    (tracked_occurs feature_text characters)
  /\ sums_to sum_tolerance (group_sum "bigram_" char_vec)
       (include_bigrams
        && tracked_occurs feature_text (bigram_set characters)).
Proof.
  intros Hchars Hbigrams char_vec. unfold char_vec.
  destruct (char_keys_group characters
              (fun x => inject_Z (Py.count feature_text x))) as [Hcc Hcb].
  destruct (bigram_keys_group (bigram_set characters)
              (fun x => inject_Z (Py.count feature_text x))) as [Hbb Hbc].
  fold (counted feature_text char_key characters) in Hcc, Hcb.
  fold (counted feature_text bigram_key (bigram_set characters)) in Hbb, Hbc.
  rewrite <- scaled_keys in Hcc, Hcb, Hbb, Hbc.
  split.
  - eapply sums_to_proper; [|by apply (scaled_counts_sum _ char_key)].
    symmetry. etransitivity; [apply group_sum_app|].
    rewrite (group_sum_all _ _ Hcc).
    assert (group_sum "char_"
              (if include_bigrams
               then scaled (counted feature_text bigram_key
                              (bigram_set characters))
               else []) = 0%Q) as ->.
    { destruct include_bigrams; [by apply group_sum_none|reflexivity]. }
    by rewrite Qplus_0_r.
  - destruct include_bigrams; cbn [andb].
    + eapply sums_to_proper; [|by apply (scaled_counts_sum _ bigram_key)].
      symmetry. etransitivity; [apply group_sum_app|].
      by rewrite (group_sum_none _ _ Hcb), (group_sum_all _ _ Hbb), Qplus_0_l.
    + rewrite app_nil_r, (group_sum_none _ _ Hcb). reflexivity.
Qed.

(** C6, amended.  For a text that a [str] can hold and a tracked alphabet
    of distinct single characters, with [norm=True]: the call returns
    when the words are not counted, and whenever it returns, the sum of
    the [char_*] values is within 2^-51 of 1 when the stripped window
    contains a tracked character and is 0 otherwise; the sum of the
    [bigram_*] values is within 2^-51 of 1 when bigrams are included and
    the window contains a tracked bigram, and is 0 otherwise.  The sums are
    those of the numbers that the floats are. *)
Theorem normalized_groups_sum_to_one
    text start_index end_index characters alphabet_char_set
    (include_bigrams : bool) window (count_words : bool) :
  NoDup characters ->
  Forall (fun c => String.length c = 1%nat) characters ->
  Py.len text <= Py.maxsize ->
  (count_words = false ->
   exists char_vec,
     get_date_features text start_index end_index characters
       alphabet_char_set include_bigrams window true count_words = Ok char_vec)
  /\ norm_sums_hold sum_tolerance text start_index end_index characters
       alphabet_char_set include_bigrams window count_words.
Proof.
  intros Hc Hone Hlen. split.
  { intros ->. eexists. by apply feature_row_explicit. }
  intros char_vec Hcall feature_text.
  destruct (totals_are_small text start_index end_index window characters
              Hc Hone Hlen) as [Hchars Hbigrams].
  fold feature_text in Hchars, Hbigrams.
  pose proof (group_sums_of_normalized feature_text characters include_bigrams
                Hchars Hbigrams) as Hsums.
  cbv zeta in Hsums.
  pose proof (feature_row_explicit text start_index end_index characters
                alphabet_char_set include_bigrams window true Hc Hone)
    as Hrow.
  cbv zeta in Hrow. fold feature_text in Hrow. cbn [negb] in Hrow.
  set (row := scaled (counted feature_text char_key characters) ++ _) in *.
  destruct count_words.
  - unfold get_date_features in Hcall, Hrow. cbv zeta in Hcall, Hrow.
    injection Hrow as Hrow. rewrite Hrow in Hcall.
    destruct (count_words_loop _ _ _) as [n|e]; [|discriminate].
    cbn [rbind] in Hcall. injection Hcall as <-.
    by rewrite !group_sum_set_other by reflexivity.
  - rewrite Hrow in Hcall. by injection Hcall as <-.
Qed.

End Dates.

(** * The definitions at work, and where the stated claims fail *)

(** ** C1: scores *)

Example annotations_of_sample :
  get_date_annotations Sample.space Sample.en_US Sample.now
    (Sample.finder [Sample.ordinal; Sample.day_of_June]) Sample.model
    Sample.chars "22nd day of June, 2020" None "" None (1 # 2)%Q
  = {| yielded :=
         [{| coords := (4, 22); text := " day of June, 2020";
             date := PyDate 2020 6 22; score := (3 # 4)%Q |}];
       raised := None |}.
Proof. vm_compute. reflexivity. Qed.

Lemma annotation_score_witness :
  Forall
    (fun a => (0 <= score a)%Q /\ (score a <= 1)%Q /\ ((1 # 2) <= score a)%Q)
    (yielded
       (get_date_annotations Sample.space Sample.en_US Sample.now
          (Sample.finder [Sample.ordinal; Sample.day_of_June]) Sample.model
          Sample.chars "22nd day of June, 2020" None "" None (1 # 2)%Q)).
Proof.
  apply annotation_score_in_range_above_threshold.
  intros feature_list. simpl. unfold Qle. simpl. lia.
Defined.

(** ** C2: the order of the trims *)

Example retry_takes_back_trim_first :
  parse_with_retry (Sample.finder [] Sample.now) "a b c"
    (Sample.props [] [] [] [] [] []) (Sample.en_US "")
  = Ok (Some (Sample.dt 2002 2 2 0 0)).
Proof. vm_compute. reflexivity. Qed.

(** The parser knows "a b" and "b c": with the front trim first the loop
    would return the date of "b c", and it returns the date of "a b". *)
Lemma retry_order_is_not_front_first :
  parse_with_retry (Sample.finder [] Sample.now) "a b c"
    (Sample.props [] [] [] [] [] []) (Sample.en_US "")
  <> first_parse (Sample.finder [] Sample.now)
       (Sample.props [] [] [] [] [] []) (Sample.en_US "")
       (attempts_as_stated "a b c").
Proof. vm_compute. discriminate. Qed.

Lemma retry_rejects_witness :
  resolve (Sample.finder [] Sample.now) (Sample.en_US "") "x y"
    (Sample.props [] [] [] [] [] [])
  = Ok None.
Proof.
  apply (proj2 (parse_with_retry_order (Sample.finder [] Sample.now) "x y"
                  (Sample.props [] [] [] [] [] []) (Sample.en_US ""))).
  vm_compute. reflexivity.
Defined.

(** ** C3: the month rule *)

(** The candidate names May and the digits 2020, 6, 5; the date is the
    fifth of June 2020.  Every component is matched, and the date is
    rejected all the same, for its month. *)
Lemma check_rejects_beyond_stated :
  check_date_parts_are_in_date (Sample.dt 2020 6 5 0 0)
    (Sample.props ["2020"; "6"; "5"] [] ["may"] [] [] [])
  <> check_as_stated (Sample.dt 2020 6 5 0 0)
       (Sample.props ["2020"; "6"; "5"] [] ["may"] [] [] []).
Proof. vm_compute. discriminate. Qed.

(** ** C4: the letter case of "of" *)

Lemma merge_ignores_mixed_case : ~ merge_as_stated.
Proof.
  intros H.
  destruct (H 1%nat [Sample.ordinal; Sample.day_Of_June] [false]
              Sample.day_Of_June Sample.ordinal "22nd"
              eq_refl eq_refl ltac:(lia) eq_refl eq_refl eq_refl)
    as [dates Hmerge].
  vm_compute in Hmerge. discriminate Hmerge.
Qed.

Lemma day_of_merge_witness :
  day_of_merge 1 [Sample.ordinal; Sample.day_of_June] [false]
    Sample.day_of_June
  = Ok (strip_ordinal "22nd" +:+ cand_string Sample.day_of_June,
        <[(1 - 1)%nat :=
            with_props Sample.ordinal
              (with_digits_modifier (cand_props Sample.ordinal) [])]>
          (<[1%nat :=
               with_props Sample.day_of_June
                 (with_digits_modifier (cand_props Sample.day_of_June)
                    (digits_modifier (cand_props Sample.day_of_June)
                     ++ ["22nd"]))]>
             [Sample.ordinal; Sample.day_of_June]))
  /\ day_of_merge 1 [Sample.ordinal; Sample.day_Of_June] [false]
       Sample.day_Of_June
     = Ok (cand_string Sample.day_Of_June,
           [Sample.ordinal; Sample.day_Of_June]).
Proof.
  split.
  - apply (proj2 (proj2 (day_of_merge_on_of 1
                           [Sample.ordinal; Sample.day_of_June]
                           [false] Sample.day_of_June eq_refl))).
    + left. simpl. apply list_elem_of_further, list_elem_of_here.
    + lia.
    + reflexivity.
    + reflexivity.
    + reflexivity.
  - apply (proj1 (proj2 (day_of_merge_on_of 1
                           [Sample.ordinal; Sample.day_Of_June]
                           [false] Sample.day_Of_June eq_refl))).
    + apply (bool_decide_unpack
               ("of" ∉ extra_tokens (cand_props Sample.day_Of_June))).
      vm_compute. exact I.
    + apply (bool_decide_unpack
               ("OF" ∉ extra_tokens (cand_props Sample.day_Of_June))).
      vm_compute. exact I.
Defined.

(** ** C5: what follows the dotted prefix *)

Example dotted_with_time_is_yielded :
  get_raw_dates Sample.space Sample.en_US Sample.now
    (Sample.finder [Sample.dotted_with_time]) "01.02.2020 10:30" false None
    false LocaleNone
  = {| yielded := [Bare (PyDateTime (Sample.dt 2020 2 1 10 30))];
       raised := None |}.
Proof. vm_compute. reflexivity. Qed.

Lemma dotted_rule_lets_longer_strings_pass :
  ~ dotted_rule_as_stated Sample.space.
Proof.
  intros H.
  specialize (H 0%nat [Sample.dotted_with_time] [] Sample.dotted_with_time
                eq_refl (list_elem_of_here _ _) eq_refl eq_refl).
  vm_compute in H. discriminate H.
Qed.

Lemma dotted_rule_witness :
  snd (filter_chain Sample.space 0 [Sample.decimal] [] Sample.decimal)
  = Ok None.
Proof.
  apply (dotted_without_month_needs_prefix Sample.space 0 [Sample.decimal] []
           Sample.decimal "3.14" [Sample.decimal]).
  - reflexivity.
  - reflexivity.
  - apply list_elem_of_here.
  - reflexivity.
  - reflexivity.
Defined.

(** ** C6: the normalized sums *)

(** Ten digits that occur once each: every share is the float 0.1, which
    is above a tenth. *)
Example features_of_ten_digits :
  let tenth := (3602879701896397 # 36028797018963968)%Q in
  get_date_features Sample.space "0123456789" 0 10 Sample.digits10
    AlphabetFalse false 5 true false
  = Ok (map (fun c => (char_key c, tenth)) Sample.digits10).
Proof. vm_compute. reflexivity. Qed.

(** Added up one after the other in binary64 the ten shares give
    0.9999999999999999. *)
Example ten_tenths_added_as_floats :
  fold_left (fun acc v => Binary64.round (acc + v))
    (repeat (Binary64.round (1 # 10)) 10) 0%Q
  = (9007199254740991 # 9007199254740992)%Q.
Proof. vm_compute. reflexivity. Qed.

(** The repeated name is counted twice in the sum and divided twice. *)
Example features_of_repeated_character :
  get_date_features Sample.space "a" 0 1 ["a"; "a"] AlphabetFalse true 5 true
    false
  = Ok [("char_a", (1 # 4)%Q); ("bigram_aa", 0%Q)].
Proof. vm_compute. reflexivity. Qed.

(** Two tracked strings of different lengths give the same bigram twice. *)
Example features_of_colliding_bigrams :
  get_date_features Sample.space "aaa" 0 3 ["a"; "aa"] AlphabetFalse true 5
    true false
  = Ok [("char_a", (3 # 4)%Q); ("char_aa", (1 # 4)%Q);
        ("bigram_aaa", (1 # 4)%Q)].
Proof. vm_compute. reflexivity. Qed.

(** The sums are not 1: by a rounding for the ten digits, and by three
    quarters for a repeated character and for colliding bigrams. *)
Lemma normalized_sums_miss_one :
  ~ norm_sums_hold Sample.space 0 "0123456789" 0 10 Sample.digits10
      AlphabetFalse false 5 false
  /\ ~ norm_sums_hold Sample.space (1 # 2) "a" 0 1 ["a"; "a"]
         AlphabetFalse true 5 false
  /\ ~ norm_sums_hold Sample.space (1 # 2) "aaa" 0 3 ["a"; "aa"]
         AlphabetFalse true 5 false
  /\ ~ norm_sums_as_stated Sample.space.
Proof.
  assert (~ norm_sums_hold Sample.space 0 "0123456789" 0 10 Sample.digits10
            AlphabetFalse false 5 false) as Hdigits.
  { intros H. specialize (H _ ltac:(vm_compute; reflexivity)).
    destruct H as [[_ Hhi] _]. vm_compute in Hhi. by apply Hhi. }
  split; [exact Hdigits|]. split; [|split].
  - intros H. specialize (H _ ltac:(vm_compute; reflexivity)).
    destruct H as [[Hlo _] _]. vm_compute in Hlo. by apply Hlo.
  - intros H. specialize (H _ ltac:(vm_compute; reflexivity)).
    destruct H as [_ [Hlo _]]. vm_compute in Hlo. by apply Hlo.
  - intros H. apply Hdigits. apply H.
Qed.

Lemma normalized_sums_witness :
  exists char_vec,
    get_date_features Sample.space "0123456789" 0 10 Sample.digits10
      AlphabetFalse true 5 true false = Ok char_vec
    /\ (1 - sum_tolerance <= group_sum "char_" char_vec)%Q
    /\ (group_sum "char_" char_vec <= 1 + sum_tolerance)%Q
    /\ (1 - sum_tolerance <= group_sum "bigram_" char_vec)%Q
    /\ (group_sum "bigram_" char_vec <= 1 + sum_tolerance)%Q.
Proof.
  destruct (normalized_groups_sum_to_one Sample.space "0123456789" 0 10
              Sample.digits10 AlphabetFalse true 5 false)
    as [Hreturns Hsums].
  - apply (bool_decide_unpack (NoDup Sample.digits10)). vm_compute.
    reflexivity.
  - repeat constructor.
  - vm_compute. discriminate.
  - destruct (Hreturns eq_refl) as [char_vec Hcall].
    exists char_vec. split; [exact Hcall|].
    destruct (Hsums char_vec Hcall) as [[Hc1 Hc2] [Hb1 Hb2]].
    repeat split; assumption.
Defined.

(** ** C7: the digit modifiers move *)

Lemma merge_writes_digit_modifiers :
  ~ frame_as_stated Sample.space Sample.en_US Sample.now
      (Sample.finder [Sample.ordinal; Sample.day_of_June]).
Proof.
  intros H.
  assert (possible_dates
            (raw_dates_loop Sample.space Sample.en_US Sample.now
               (Sample.finder [Sample.ordinal; Sample.day_of_June])
               "22nd day of June, 2020" false None LocaleNone) !! 0%nat
          = Some (Sample.cand "22nd" 0 4 (Sample.props [] [] [] [] [] [])))
    as Hafter by (vm_compute; reflexivity).
  destruct (H "22nd day of June, 2020" false None LocaleNone 0%nat
              Sample.ordinal _ eq_refl Hafter) as (_ & Hmod & _).
  discriminate Hmod.
Qed.

Lemma loop_keeps_located_fields_witness :
  (exists after,
     possible_dates
       (raw_dates_loop Sample.space Sample.en_US Sample.now
          (Sample.finder [Sample.ordinal; Sample.day_of_June])
          "22nd day of June, 2020" false None LocaleNone) !! 1%nat
     = Some after
     /\ cand_string after = cand_string Sample.day_of_June
     /\ cand_index after = cand_index Sample.day_of_June
     /\ digits (cand_props after) = digits (cand_props Sample.day_of_June)
     /\ months (cand_props after) = months (cand_props Sample.day_of_June)
     /\ days (cand_props after) = days (cand_props Sample.day_of_June)
     /\ delimiters (cand_props after)
        = delimiters (cand_props Sample.day_of_June)
     /\ (extra_tokens (cand_props after)
         = extra_tokens (cand_props Sample.day_of_June)
         \/ extra_tokens (cand_props after) = []))
  /\ all_modifiers
       (possible_dates
          (raw_dates_loop Sample.space Sample.en_US Sample.now
             (Sample.finder [Sample.ordinal; Sample.day_of_June])
             "22nd day of June, 2020" false None LocaleNone))
     ≡ₚ all_modifiers
          (located Sample.now
             (Sample.finder [Sample.ordinal; Sample.day_of_June])
             "22nd day of June, 2020" false None).
Proof.
  apply loop_keeps_located_fields. reflexivity.
Defined.

(** ** C8: an exception of the parser *)

(** "June 31, 2020" passes the filter chain, the parser raises ValueError on
    it, and the run ends with AttributeError. *)
Example parser_error_ends_the_run :
  get_raw_dates Sample.space Sample.en_US Sample.now
    (Sample.finder [Sample.invalid_day; Sample.decimal]) "June 31, 2020 3.14"
    false None false (LocaleStr "en")
  = {| yielded := []; raised := Some AttributeError |}.
Proof. vm_compute. reflexivity. Qed.

Lemma parser_exception_witness :
  resolve (Sample.finder [Sample.invalid_day] Sample.now) (Sample.en_US "en")
    "June 31, 2020" (cand_props Sample.invalid_day)
  = Raise AttributeError.
Proof.
  apply (parser_exception_escapes _ _ _ _ ValueError).
  - vm_compute. discriminate.
  - reflexivity.
Defined.

(** ** C9: dates and datetimes *)

Example midnight_is_yielded_as_date :
  get_raw_dates Sample.space Sample.en_US Sample.now
    (Sample.finder [Sample.ordinal; Sample.day_of_June])
    "22nd day of June, 2020" false None true LocaleNone
  = {| yielded := [WithSource (PyDate 2020 6 22) (4, 22)]; raised := None |}.
Proof. vm_compute. reflexivity. Qed.

Example datetime_is_yielded_in_full :
  get_raw_dates Sample.space Sample.en_US Sample.now
    (Sample.finder [Sample.dotted_with_time]) "01.02.2020 10:30" false None
    true LocaleNone
  = {| yielded := [WithSource (PyDateTime (Sample.dt 2020 2 1 10 30)) (0, 16)];
       raised := None |}.
Proof. vm_compute. reflexivity. Qed.

Lemma yielded_midnight_witness :
  (exists v later,
     yielded
       (get_raw_dates Sample.space Sample.en_US Sample.now
          (Sample.finder [Sample.ordinal; Sample.day_of_June])
          "22nd day of June, 2020" false None true LocaleNone)
     = map (as_raw true)
         (produced
            (state_before Sample.space Sample.en_US Sample.now
               (Sample.finder [Sample.ordinal; Sample.day_of_June])
               "22nd day of June, 2020" false None LocaleNone 1))
       ++ as_raw true (v, cand_index Sample.day_of_June) :: later
     /\ v = PyDate 2020 6 22)
  /\ (exists v later,
        yielded
          (get_raw_dates Sample.space Sample.en_US Sample.now
             (Sample.finder [Sample.dotted_with_time]) "01.02.2020 10:30"
             false None true LocaleNone)
        = map (as_raw true)
            (produced
               (state_before Sample.space Sample.en_US Sample.now
                  (Sample.finder [Sample.dotted_with_time])
                  "01.02.2020 10:30" false None LocaleNone 0))
          ++ as_raw true (v, cand_index Sample.dotted_with_time) :: later
        /\ v = PyDateTime (Sample.dt 2020 2 1 10 30)).
Proof.
  split.
  - destruct (proj2 (yielded_midnight_is_date Sample.space Sample.en_US
                       Sample.now
                       (Sample.finder [Sample.ordinal; Sample.day_of_June])
                       "22nd day of June, 2020" false None true LocaleNone)
                1%nat Sample.day_of_June
                [Sample.cand "22nd" 0 4 (Sample.props [] [] [] [] [] []);
                 Sample.cand " day of June, 2020" 4 22
                   (Sample.props ["2020"] ["22nd"] ["June"] []
                      [" "; " "; ", "] [])]
                "22   June, 2020"
                (Sample.props ["2020"] ["22nd"] ["June"] []
                   [" "; " "; ", "] [])
                (Sample.dt 2020 6 22 0 0))
      as (v & later & Hyield & Hdate & _).
    + vm_compute. reflexivity.
    + vm_compute. reflexivity.
    + vm_compute. reflexivity.
    + vm_compute. reflexivity.
    + vm_compute. reflexivity.
    + reflexivity.
    + exists v, later. split; [exact Hyield|]. by apply Hdate.
  - destruct (proj2 (yielded_midnight_is_date Sample.space Sample.en_US
                       Sample.now (Sample.finder [Sample.dotted_with_time])
                       "01.02.2020 10:30" false None true LocaleNone)
                0%nat Sample.dotted_with_time
                [Sample.dotted_with_time]
                "01.02.2020 10:30"
                (cand_props Sample.dotted_with_time)
                (Sample.dt 2020 2 1 10 30))
      as (v & later & Hyield & _ & Hfull).
    + vm_compute. reflexivity.
    + vm_compute. reflexivity.
    + vm_compute. reflexivity.
    + vm_compute. reflexivity.
    + vm_compute. reflexivity.
    + reflexivity.
    + exists v, later. split; [exact Hyield|]. apply Hfull. left. discriminate.
Defined.

(** ** C10: word counts with and without a character set *)

Example count_words_default_raises :
  get_date_features Sample.space "on May 5th, 2020 we" 3 16 ["1"; "2"]
    AlphabetFalse false 5 true true
  = Raise TypeError.
Proof. vm_compute. reflexivity. Qed.

(** A word of 4301 nines: with a character set [int] is called on it and
    refuses it. *)
Lemma word_counts_with_set_can_raise : ~ total_with_set_as_stated Sample.space.
Proof.
  intros H.
  destruct (H (string_of_list_ascii (repeat "9"%char 4301)) 0 4301 ["1"]
              {["M"]} false 5 true) as [char_vec Hreturns].
  vm_compute in Hreturns. discriminate Hreturns.
Qed.

Lemma count_words_witness :
  get_date_features Sample.space "on May 5th, 2020 we" 3 16 ["1"; "2"]
    AlphabetFalse false 5 true true
  = Raise TypeError
  /\ exists char_vec,
       get_date_features Sample.space "on May 5th, 2020 we" 3 16 ["1"; "2"]
         (AlphabetSet {["M"; "a"; "y"; "t"; "h"]}) false 5 true true
       = Ok char_vec.
Proof.
  split.
  - apply (proj1 (count_words_needs_alphabet Sample.space
                    "on May 5th, 2020 we" 3 16 ["1"; "2"] false 5 true)).
    exists "May". split; [|discriminate].
    vm_compute. apply list_elem_of_here.
  - apply (proj2 (count_words_needs_alphabet Sample.space
                    "on May 5th, 2020 we" 3 16 ["1"; "2"] false 5 true)
             {["M"; "a"; "y"; "t"; "h"]}).
    apply Forall_forall. vm_compute. repeat constructor.
Defined.

(** The three shares are the float 0.3333333333333333. *)
Example count_words_with_set :
  let third := (6004799503160661 # 18014398509481984)%Q in
  get_date_features Sample.space "on May 5th, 2020 we" 3 16 ["1"; "2"]
    (AlphabetSet {["M"; "a"; "y"; "t"; "h"]}) false 5 true true
  = Ok [("char_1", 0%Q); ("char_2", 1%Q); ("nb31", third);
        ("na31", third); ("wr_l", 0%Q); ("wr_u", third)].
Proof. vm_compute. reflexivity. Qed.

(** * The further properties at work *)

(** ** The threshold *)

Lemma threshold_is_monotone_witness :
  ((1 # 2) <= (4 # 5))%Q
  /\ yielded
       (get_date_annotations Sample.space Sample.en_US Sample.now
          (Sample.finder [Sample.ordinal; Sample.day_of_June]) Sample.model
          Sample.chars "22nd day of June, 2020" (Some false) "" None (4 # 5)%Q)
     `sublist_of`
     yielded
       (get_date_annotations Sample.space Sample.en_US Sample.now
          (Sample.finder [Sample.ordinal; Sample.day_of_June]) Sample.model
          Sample.chars "22nd day of June, 2020" (Some false) "" None (1 # 2)%Q).
Proof.
  assert ((1 # 2) <= (4 # 5))%Q as Hle by (unfold Qle; simpl; lia).
  split; [exact Hle|].
  apply (threshold_is_monotone Sample.space Sample.en_US Sample.now
           (Sample.finder [Sample.ordinal; Sample.day_of_June]) Sample.model
           Sample.chars "22nd day of June, 2020" false "" None true
           (1 # 2)%Q (4 # 5)%Q Hle).
Defined.

(** ** How a run ends *)

Lemma run_raises_witness :
  raised
    (get_raw_dates Sample.space Sample.en_US Sample.now
       (Sample.finder [Sample.invalid_day]) "June 31, 2020" false None false
       (LocaleStr "en"))
  = Some AttributeError
  /\ (AttributeError = AttributeError \/ AttributeError = ValueError).
Proof.
  assert (raised
            (get_raw_dates Sample.space Sample.en_US Sample.now
               (Sample.finder [Sample.invalid_day]) "June 31, 2020" false None
               false (LocaleStr "en"))
          = Some AttributeError) as Hraised by (vm_compute; reflexivity).
  split; [exact Hraised|].
  exact (run_raises_only_attribute_or_value_error Sample.space Sample.en_US
           Sample.now (Sample.finder [Sample.invalid_day]) "June 31, 2020"
           false None false (LocaleStr "en") AttributeError Hraised).
Defined.

Lemma run_ends_normally_witness :
  raised
    (get_raw_dates Sample.space Sample.en_US Sample.now
       (quiet_finder [Sample.ordinal; Sample.day_of_June])
       "22nd day of June, 2020" false None true LocaleNone)
  = None
  /\ get_raw_date_list Sample.space Sample.en_US Sample.now
       (quiet_finder [Sample.ordinal; Sample.day_of_June])
       "22nd day of June, 2020" false None true LocaleNone
     = Ok [WithSource (PyDate 2020 6 22) (4, 22)].
Proof.
  destruct (run_ends_normally Sample.space Sample.en_US Sample.now
              (quiet_finder [Sample.ordinal; Sample.day_of_June])
              "22nd day of June, 2020" false None true LocaleNone)
    as (Hraised & _ & Hlist).
  - intros s p l. eexists. reflexivity.
  - repeat constructor.
  - repeat constructor.
  - split; [exact Hraised|]. rewrite Hlist. vm_compute. reflexivity.
Defined.

Lemma nothing_without_digits_and_months_witness :
  get_raw_dates Sample.space Sample.en_US Sample.now
    (quiet_finder [Sample.cand "today" 0 5 (Sample.props [] [] [] [] [] [])])
    "today" false None true LocaleNone
  = {| yielded := []; raised := None |}.
Proof.
  apply nothing_without_digits_and_months. repeat constructor.
Defined.

(** ** What reaches the parser *)

Lemma parser_input_is_filtered_witness :
  Py.len "01.02.2020 10:30" <= DATE_MAX_LENGTH
  /\ Py.strip "01.02.2020 10:30" = "01.02.2020 10:30"
  /\ extra_tokens (cand_props Sample.dotted_with_time) = [].
Proof.
  refine (proj1 (parser_input_is_filtered Sample.space 0
                   [Sample.dotted_with_time] [] Sample.dotted_with_time
                   [Sample.dotted_with_time] "01.02.2020 10:30"
                   (cand_props Sample.dotted_with_time) _ _)).
  - reflexivity.
  - vm_compute. reflexivity.
Defined.

(** ** Ordinals *)

Lemma ordinal_to_cardinal_witness :
  ordinal_to_cardinal "day" = Ok None
  /\ (exists v, 0 <= v /\ Py.digits_value 0 "22" = Some v
                /\ ordinal_to_cardinal "22nd" = Ok (Some v))
  /\ ordinal_to_cardinal (String (ascii_of_N 178) "nd") = Raise ValueError
  /\ ordinal_to_cardinal (string_of_list_ascii (repeat "9"%char 4301) +:+ "th")
     = Raise ValueError
  /\ ordinal_to_cardinal "22nd" = (v <-r Py.int "22" ;; Ok (Some v)).
Proof.
  split; [|split; [|split; [|split]]].
  - apply (proj1 (ordinal_to_cardinal_cases "day")). reflexivity.
  - apply (proj1 (proj2 (ordinal_to_cardinal_cases "22nd")));
      [discriminate|reflexivity|vm_compute; discriminate].
  - apply (proj1 (proj2 (proj2 (ordinal_to_cardinal_cases
                                  (String (ascii_of_N 178) "nd"))))).
    reflexivity.
  - apply (proj1 (proj2 (proj2 (proj2
             (ordinal_to_cardinal_cases
                (string_of_list_ascii (repeat "9"%char 4301) +:+ "th")))))).
    vm_compute. reflexivity.
  - apply (proj2 (proj2 (proj2 (proj2 (ordinal_to_cardinal_cases "22nd"))))
             "22" "nd");
      reflexivity.
Defined.

Lemma strip_ordinal_of_number_witness : strip_ordinal "22nd" = "22".
Proof.
  apply (strip_ordinal_of_number "22" "nd"); [reflexivity|].
  apply list_elem_of_further, list_elem_of_here.
Defined.

(** ** Features *)

Lemma feature_row_layout_witness :
  exists row,
    get_date_features Sample.space "22nd day of June, 2020" 4 22 Sample.chars
      AlphabetFalse true 5 true false = Ok row
    /\ dict_keys row = ["char_2"; "char_0"; "bigram_20"; "bigram_02"]
    /\ length row = 4%nat
    /\ Forall (fun kv => (0 <= snd kv)%Q /\ (snd kv <= 1)%Q) row.
Proof.
  destruct (feature_row_layout Sample.space "22nd day of June, 2020" 4 22
              Sample.chars AlphabetFalse true 5 true)
    as (row & Hrow & Hkeys & _ & Hlen & Hunit & _).
  - apply (bool_decide_unpack (NoDup Sample.chars)). vm_compute. reflexivity.
  - repeat constructor.
  - exists row. split; [exact Hrow|]. split; [exact Hkeys|].
    split; [exact Hlen|].
    eapply Forall_impl; [exact Hunit|]. intros kv [H0 H1]. split; [exact H0|].
    apply H1. reflexivity.
Defined.

Lemma fill_features_witness :
  fill_features [("a", 1%Q); ("b", 2%Q)] 0 ["b"] (repeat 0%Q 2)
  = Ok [2%Q; 0%Q]
  /\ fill_features [("a", 1%Q); ("b", 2%Q)] 0 ["b"; "z"; "a"] (repeat 0%Q 2)
     = Raise KeyError
  /\ fill_features [("a", 1%Q); ("b", 2%Q)] 0 ["b"; "a"; "a"] (repeat 0%Q 2)
     = Raise IndexError
  /\ fill_features [("a", 1%Q); ("b", 2%Q)] 0 ["a"; "b"] (repeat 0%Q 2)
     = Ok [1%Q; 2%Q].
Proof.
  split; [|split; [|split]].
  - apply (proj1 (fill_features_cases [("a", 1%Q); ("b", 2%Q)] ["b"] 2)).
    + repeat constructor. by exists 2%Q.
    + simpl. lia.
  - apply (proj1 (proj2 (fill_features_cases [("a", 1%Q); ("b", 2%Q)]
                           ["b"; "z"; "a"] 2)) ["b"] "z" ["a"]).
    + reflexivity.
    + repeat constructor. by exists 2%Q.
    + simpl. lia.
    + reflexivity.
  - apply (proj1 (proj2 (proj2 (fill_features_cases [("a", 1%Q); ("b", 2%Q)]
                                  ["b"; "a"; "a"] 2))) ["b"; "a"] "a" []).
    + reflexivity.
    + repeat constructor; [by exists 2%Q|by exists 1%Q].
    + reflexivity.
    + by exists 1%Q.
  - apply (proj2 (proj2 (proj2 (fill_features_cases [("a", 1%Q); ("b", 2%Q)]
                                  ["a"; "b"] 2)))).
    + reflexivity.
    + reflexivity.
    + apply (bool_decide_unpack (NoDup ["a"; "b"])). vm_compute. reflexivity.
Defined.

Lemma split_date_words_witness :
  split_date_words Sample.space "June" = ["June"]
  /\ (0 = 0 \/ 0 = length (split_date_words Sample.space ", 2020") - 1)%nat.
Proof.
  split.
  - apply (proj2 (proj2 (proj2 (proj2
             (split_date_words_spec Sample.space "June"))))).
    reflexivity.
  - apply (proj1 (proj2 (proj2 (proj2
             (split_date_words_spec Sample.space ", 2020")))) 0%nat).
    reflexivity.
Defined.

Lemma word_shape_features_witness :
  exists row,
    get_date_features Sample.space "on May 5th, 2020 we" 3 16 ["1"; "2"]
      (AlphabetSet {["M"; "a"; "y"; "t"; "h"]}) false 5 false true = Ok row
    /\ exists nb31 na31 wr_l wr_u,
         word_features row
         = [inject_Z nb31; inject_Z na31; inject_Z wr_l; inject_Z wr_u]
         /\ nb31 + na31 + wr_l + wr_u = 3.
Proof.
  destruct (word_shape_features Sample.space "on May 5th, 2020 we" 3 16
              ["1"; "2"] {["M"; "a"; "y"; "t"; "h"]} false 5 false)
    as (row & Hrow & Hcounts & _).
  - vm_compute. repeat constructor.
  - exists row. split; [exact Hrow|].
    destruct (Hcounts eq_refl)
      as (nb31 & na31 & wr_l & wr_u & Hfeatures & _ & _ & _ & _ & Hsum).
    exists nb31, na31, wr_l, wr_u. split; [exact Hfeatures|].
    rewrite Hsum. vm_compute. reflexivity.
Defined.

(** ** The classifier stage *)

Lemma classifier_only_filters_witness :
  raised
    (get_raw_dates Sample.space Sample.en_US Sample.now
       (Sample.finder [Sample.ordinal; Sample.day_of_June])
       "22nd day of June, 2020" false None true
       (LocaleObject (Sample.en_US "")))
  = None
  /\ exists raws,
       get_raw_date_list Sample.space Sample.en_US Sample.now
         (Sample.finder [Sample.ordinal; Sample.day_of_June])
         "22nd day of June, 2020" false None true
         (LocaleObject (Sample.en_US "")) = Ok raws
       /\ [WithSource (PyDate 2020 6 22) (4, 22)] `sublist_of` raws.
Proof.
  destruct (classifier_only_filters Sample.space Sample.en_US Sample.now
              (Sample.finder [Sample.ordinal; Sample.day_of_June])
              Sample.model Sample.chars "22nd day of June, 2020" false None
              true (1 # 2)%Q "")
    as (_ & _ & _ & Hraised & Hlist).
  split.
  - apply Hraised. vm_compute. reflexivity.
  - apply Hlist. vm_compute. reflexivity.
Defined.

Lemma annotations_raise_witness :
  AttributeError ∈ [AttributeError; ValueError; KeyError; IndexError]
  /\ raised
       (get_date_annotations Sample.space Sample.en_US Sample.now
          (Sample.finder [Sample.invalid_day]) Sample.model Sample.chars
          "June 31, 2020" (Some false) "" None (1 # 2)%Q)
     = raised
         (get_raw_dates Sample.space Sample.en_US Sample.now
            (Sample.finder [Sample.invalid_day]) "June 31, 2020" false None
            true (LocaleObject (Sample.en_US ""))).
Proof.
  destruct (annotations_raise Sample.space Sample.en_US Sample.now
              (Sample.finder [Sample.invalid_day]) Sample.model Sample.chars
              "June 31, 2020" false "" None (1 # 2)%Q)
    as (Hkinds & Hsame).
  split.
  - apply Hkinds. vm_compute. reflexivity.
  - apply Hsame.
    + apply (bool_decide_unpack (NoDup Sample.chars)). vm_compute. reflexivity.
    + repeat constructor.
    + reflexivity.
Defined.

(** ** The date-parts check *)

Lemma check_date_parts_errors_witness :
  check_date_parts_are_in_date (Sample.dt 2020 6 22 0 0)
    (Sample.props ["2020"; "x"] [] [] [] [] [])
  = Raise ValueError
  /\ check_date_parts_are_in_date (Sample.dt 2020 6 22 0 0)
       (Sample.props [string_of_list_ascii (repeat "9"%char 4301)] [] [] []
          [] [])
     = Raise ValueError
  /\ check_date_parts_are_in_date (Sample.dt 2020 6 22 0 0)
       (Sample.props ["2020"] [String (ascii_of_N 178) "nd"] [] [] [] [])
     = Raise ValueError
  /\ exists ok,
       check_date_parts_are_in_date (Sample.dt 2020 6 22 0 0)
         (cand_props Sample.day_of_June) = Ok ok.
Proof.
  split; [|split; [|split]].
  - apply (proj1 (proj2 (check_date_parts_errors (Sample.dt 2020 6 22 0 0)
                           (Sample.props ["2020"; "x"] [] [] [] [] [])))
             "x" ValueError).
    + apply list_elem_of_further, list_elem_of_here.
    + reflexivity.
  - apply (proj1 (proj2 (check_date_parts_errors (Sample.dt 2020 6 22 0 0)
                           (Sample.props
                              [string_of_list_ascii (repeat "9"%char 4301)]
                              [] [] [] [] [])))
             (string_of_list_ascii (repeat "9"%char 4301)) ValueError).
    + apply list_elem_of_here.
    + vm_compute. reflexivity.
  - apply (proj1 (proj2 (proj2 (check_date_parts_errors
                                  (Sample.dt 2020 6 22 0 0)
                                  (Sample.props ["2020"]
                                     [String (ascii_of_N 178) "nd"]
                                     [] [] [] []))))
             (String (ascii_of_N 178) "nd") ValueError).
    + apply list_elem_of_here.
    + reflexivity.
  - apply (proj2 (proj2 (proj2 (check_date_parts_errors
                                  (Sample.dt 2020 6 22 0 0)
                                  (cand_props Sample.day_of_June))))).
    + repeat constructor.
    + repeat constructor.
Defined.

(** ** Month names *)

Lemma month_by_name_witness :
  dict_get "sept" MONTH_BY_NAME = Some 9
  /\ 1 <= 5 <= 12.
Proof.
  split.
  - apply (proj1 month_by_name_table 8%nat ["september"; "sep"; "sept"] "sept").
    + reflexivity.
    + apply list_elem_of_further, list_elem_of_further, list_elem_of_here.
  - apply (proj2 month_by_name_table "may" 5). reflexivity.
Defined.

(** ** The window *)

Lemma feature_window_witness :
  Py.len (feature_window "22nd day of June, 2020" 4 22 5) <= 22 - 4 + 2 * 5
  /\ Py.count (feature_window "22nd day of June, 2020" 4 22 5) "2" <= 22 - 4 + 2 * 5.
Proof.
  destruct (feature_window_is_local "22nd day of June, 2020" 4 22 5)
    as (_ & Hlen & _ & Hcount); [lia|lia|].
  split; [exact Hlen|]. apply Hcount. discriminate.
Defined.
